(** * Intel FPGA (pre-DFL) device layer: pkg/fpga/intel_fpga_linux.go

    A shallow embedding of the FME and Port objects of
    [pkg/fpga/intel_fpga_linux.go] and the properties of its accessors,
    ioctl requests, lazy caches and lifecycle.

    Conventions of the embedding.
    - Go's fixed-width integers are [Z] with the wrap-around written out
      ([uint32], [uint64], [int_of_uintptr]).
    - Go strings are [string] (sequences of bytes).
    - A Go [error] is [option error]; [None] is [nil].
    - A method with a pointer receiver is a computation of the monad
      [M S A]: it reads the collaborators of the package from an [Env],
      updates the receiver of type [S], and appends to a log of events the
      calls it makes to those collaborators.
    - Everything the file calls but does not define (ioctlDev,
      FindSysFsDevice, NewPCIDevice, readFilesInDirectory,
      filepath.EvalSymlinks, the request structures' sizes) is a field
      of [Env] or of [Layout]: the theorems hold for every behaviour of
      these collaborators. *)

From Stdlib Require Import String Ascii List ZArith Lia Bool.
Import ListNotations.
Local Open Scope string_scope.
Local Open Scope list_scope.
Local Open Scope Z_scope.

(** ** Machine integers *)

Definition uint32 (z : Z) : Z := z mod 2 ^ 32.
Definition uint64 (z : Z) : Z := z mod 2 ^ 64.

(** [int(v)] for a [uintptr] [v] on a 64-bit target: two's complement. *)
Definition int_of_uintptr (v : Z) : Z :=
  let w := uint64 v in if w <? 2 ^ 63 then w else w - 2 ^ 64.

(** [math.MaxUint32] *)
Definition MaxUint32 : Z := 2 ^ 32 - 1.

(** ** Errors *)

Inductive NumErrKind := ErrSyntax | ErrRange.

Inductive error :=
| Errorf (msg : string)                            (* errors.Errorf(msg) *)
| NumError (fn num : string) (kind : NumErrKind)   (* *strconv.NumError *)
| Errno (code : Z)                                 (* error of a system call *)
| ExtError (msg : string).                         (* error of another collaborator *)

(** A value-or-error result [(T, error)] of which exactly one is meaningful. *)
Inductive result (A : Type) :=
| Ok (a : A)
| Err (e : error).
Arguments Ok {A} a.
Arguments Err {A} e.

(** What a call does: returns, or panics (a Go run-time panic). *)
Inductive outcome (A : Type) :=
| Returns (a : A)
| Panics (msg : string).
Arguments Returns {A} a.
Arguments Panics {A} msg.

(** ** strconv.ParseUint at base 10 *)

Module strconv.

Definition maxUint64 : Z := 2 ^ 64 - 1.

(** [lower(c)]: [c | ('x' - 'X')] *)
Definition lower (c : Z) : Z := Z.lor c 32.

(** The digit value of byte [c], as the [switch] of the loop computes it;
    [None] is the [default] branch. *)
Definition digitval (c : Z) : option Z :=
  if (48 <=? c) && (c <=? 57) then Some (c - 48)
  else if (97 <=? lower c) && (lower c <=? 122) then Some (lower c - 97 + 10)
  else None.

Definition byte_of (c : ascii) : Z := Z.of_N (N_of_ascii c).

(** The loop [for _, c := range []byte(s)] with accumulator [n]. *)
Fixpoint loop (base maxVal cutoff : Z) (bs : string) (n : Z)
  : Z * option NumErrKind :=
  match bs with
  | EmptyString => (n, None)
  | String c rest =>
      match digitval (byte_of c) with
      | None => (0, Some ErrSyntax)
      | Some d =>
          if d >=? base then (0, Some ErrSyntax)
          else if n >=? cutoff then (maxVal, Some ErrRange)
          else
            let n' := uint64 (n * base) in
            let n1 := uint64 (n' + d) in
            if (n1 <? n') || (n1 >? maxVal) then (maxVal, Some ErrRange)
            else loop base maxVal cutoff rest n1
      end
  end.

(** [strconv.ParseUint(s, 10, bitSize)] for [1 <= bitSize <= 64]. *)
Definition ParseUint10 (s : string) (bitSize : Z) : Z * option error :=
  if String.eqb s "" then (0, Some (NumError "ParseUint" s ErrSyntax))
  else
    let cutoff := maxUint64 / 10 + 1 in
    let maxVal := 2 ^ bitSize - 1 in
    match loop 10 maxVal cutoff s 0 with
    | (n, None) => (n, None)
    | (n, Some k) => (n, Some (NumError "ParseUint" s k))
    end.

End strconv.

(** ** path/filepath on Unix: Base, Clean, Join *)

Module filepath.

Definition isPathSeparator (c : ascii) : bool := Ascii.eqb c "/"%char.

Fixpoint chars (s : string) : list ascii :=
  match s with
  | EmptyString => []
  | String c r => c :: chars r
  end.

Fixpoint unchars (l : list ascii) : string :=
  match l with
  | [] => EmptyString
  | c :: r => String c (unchars r)
  end.

(** Drop the leading characters that satisfy [p]. *)
Fixpoint dropWhile (p : ascii -> bool) (l : list ascii) : list ascii :=
  match l with
  | [] => []
  | c :: r => if p c then dropWhile p r else l
  end.

(** Keep the leading characters that satisfy [p]. *)
Fixpoint takeWhile (p : ascii -> bool) (l : list ascii) : list ascii :=
  match l with
  | [] => []
  | c :: r => if p c then c :: takeWhile p r else []
  end.

(** [filepath.Base]: strip trailing slashes, keep what follows the last
    separator; [""] gives ["."], a path of slashes gives ["/"]. The two
    loops of the source run from the end of the path, here on the
    reversed path. *)
Definition Base (path : string) : string :=
  if String.eqb path "" then "."
  else
    let stripped := dropWhile isPathSeparator (rev (chars path)) in
    let last := takeWhile (fun c => negb (isPathSeparator c)) stripped in
    match last with
    | [] => "/"
    | _ => unchars (rev last)
    end.

(** The elements of a path between separators (empty ones included). *)
Fixpoint split (cur : list ascii) (l : list ascii) : list string :=
  match l with
  | [] => [unchars (rev cur)]
  | c :: r =>
      if isPathSeparator c then unchars (rev cur) :: split [] r
      else split (c :: cur) r
  end.

(** One pass of [Clean] over the elements: [out] is the stack of kept
    elements (last first), [".."] is kept only where it cannot cancel. *)
Fixpoint cleanElems (rooted : bool) (out : list string) (els : list string)
  : list string :=
  match els with
  | [] => rev out
  | e :: r =>
      if String.eqb e "" || String.eqb e "." then cleanElems rooted out r
      else if String.eqb e ".." then
        match out with
        | top :: out' =>
            if String.eqb top ".." then cleanElems rooted (e :: out) r
            else cleanElems rooted out' r
        | [] =>
            if rooted then cleanElems rooted out r
            else cleanElems rooted [e] r
        end
      else cleanElems rooted (e :: out) r
  end.

(** [filepath.Clean] *)
Definition Clean (path : string) : string :=
  match path with
  | EmptyString => "."
  | String c _ =>
      let rooted := isPathSeparator c in
      let body := String.concat "/" (cleanElems rooted [] (split [] (chars path))) in
      if rooted then ("/" ++ body)%string
      else if String.eqb body "" then "." else body
  end.

(** [filepath.Join]: the elements from the first non-empty one on, joined
    by the separator and cleaned; [""] when all are empty. *)
Fixpoint Join (elem : list string) : string :=
  match elem with
  | [] => ""
  | e :: r =>
      if String.eqb e "" then Join r
      else Clean (String.concat "/" elem)
  end.

End filepath.

(** ** Data of the collaborators *)

(** [PCIDevice]: of the structure declared in the package's PCI code, the
    two fields this file reads, the sysfs path and the physical function
    of a virtual function. *)
Module pci.
#[warnings="-register-all"] Inductive PCIDevice := mk {
  SysFsPath : string;
  PhysFn : option PCIDevice
}.
End pci.

(** A [[]byte]: the address of the first byte of its backing array and
    its contents. *)
Record ByteSlice := mkSlice {
  slice_addr : Z;
  slice_data : list Byte.byte
}.

Definition len (b : ByteSlice) : Z := Z.of_nat (length (slice_data b)).

(** [&b[0]]: the address of the first element; indexing an empty slice
    panics at run time. *)
Definition addr_of_first (b : ByteSlice) : option Z :=
  match slice_data b with
  | [] => None
  | _ :: _ => Some (slice_addr b)
  end.

(** The request structures of the driver ABI. They are declared outside
    this file; each record has the fields this file assigns or reads, and
    [Sizeof] stands for [unsafe.Sizeof] of the declared structure. *)
Module IntelFpgaFmePortPR.
Record t := mk { Argsz : Z; Port_id : Z; Buffer_size : Z; Buffer_address : Z }.
End IntelFpgaFmePortPR.

Module IntelFpgaFmePortRelease.
Record t := mk { Argsz : Z; Id : Z }.
End IntelFpgaFmePortRelease.

Module IntelFpgaFmePortAssign.
Record t := mk { Argsz : Z; Id : Z }.
End IntelFpgaFmePortAssign.

Module IntelFpgaPortInfo.
Record t := mk { Argsz : Z; Flags : Z; Regions : Z; Umsgs : Z }.
End IntelFpgaPortInfo.

Module IntelFpgaPortRegionInfo.
Record t := mk { Argsz : Z; Flags : Z; Index : Z; Size : Z; Offset : Z }.
End IntelFpgaPortRegionInfo.

Inductive StructKind :=
| SFmePortPR | SFmePortRelease | SFmePortAssign | SPortInfo | SPortRegionInfo.

Class Layout := { Sizeof : StructKind -> Z }.

(** [PortInfo] and [PortRegionInfo], the values handed back to callers. *)
Record PortInfo := mkPortInfo { pi_Flags : Z; pi_Regions : Z; pi_Umsgs : Z }.
Record PortRegionInfo :=
  mkPortRegionInfo { ri_Flags : Z; ri_Index : Z; ri_Offset : Z; ri_Size : Z }.

(** The ioctl request numbers, by the names of their constants. *)
Inductive Opcode :=
| FPGA_GET_API_VERSION
| FPGA_CHECK_EXTENSION
| FPGA_FME_PORT_PR
| FPGA_FME_PORT_RELEASE
| FPGA_FME_PORT_ASSIGN
| FPGA_PORT_RESET
| FPGA_PORT_GET_INFO
| FPGA_PORT_GET_REGION_INFO.

(** The third argument of [ioctlDev]: [0], or the address of a request
    structure, represented by the structure it points to. *)
Inductive ioctl_arg :=
| ArgNull
| ArgFmePortPR (v : IntelFpgaFmePortPR.t)
| ArgFmePortRelease (v : IntelFpgaFmePortRelease.t)
| ArgFmePortAssign (v : IntelFpgaFmePortAssign.t)
| ArgPortInfo (v : IntelFpgaPortInfo.t)
| ArgPortRegionInfo (v : IntelFpgaPortRegionInfo.t).

Inductive DeviceKind := KindFME | KindPort.

(** ** The collaborators and the log of calls *)

Inductive event :=
| EvIoctl (fd : string) (op : Opcode) (arg : ioctl_arg)
| EvFindSysFsDevice (dev : string)
| EvNewPCIDevice (sysfs : string)
| EvReadFiles (names : list string) (dir : string)
| EvEvalSymlinks (path : string)
| EvDeviceClass (kind : DeviceKind) (p : pci.PCIDevice)
| EvFMEClose (dev : string).   (* entry into IntelFpgaFME.Close *)

Definition trace := list event.

(** The functions of the package and of the system that this file calls.
    - [ioctlDev fd op arg] gives the returned [uintptr], the error, and the
      request structure as the driver leaves it.
    - [readFilesInDirectory names dir] gives, for each file name of the
      map, the string stored through its pointer if one was stored, and
      the error.
    - [deviceClass] is the test of [checkPCIDeviceType]. *)
Record Env := mkEnv {
  ioctlDev : string -> Opcode -> ioctl_arg -> Z * option error * ioctl_arg;
  FindSysFsDevice : string -> result string;
  NewPCIDevice : string -> result pci.PCIDevice;
  readFilesInDirectory :
    list string -> string -> (string -> option string) * option error;
  EvalSymlinks : string -> result string;
  deviceClass : DeviceKind -> pci.PCIDevice -> option error
}.

(** ** The monad of methods: environment, receiver, log *)

Definition M (S A : Type) : Type := Env -> S -> A * S * trace.

Definition ret {S A} (a : A) : M S A := fun _ s => (a, s, []).

Definition bind {S A B} (m : M S A) (k : A -> M S B) : M S B :=
  fun E s =>
    let '(a, s1, t1) := m E s in
    let '(b, s2, t2) := k a E s1 in
    (b, s2, t1 ++ t2).

Definition get {S} : M S S := fun _ s => (s, s, []).
Definition put {S} (s' : S) : M S unit := fun _ _ => (tt, s', []).

(** A call to a collaborator: its result, logged. *)
Definition call {S A} (ev : event) (f : Env -> A) : M S A :=
  fun E s => (f E, s, [ev]).

Definition emit {S} (ev : event) : M S unit := fun _ s => (tt, s, [ev]).

(** Run a method of another object [o]; its final state comes back with
    the result. *)
Definition on {S O A} (o : O) (m : M O A) : M S (A * O) :=
  fun E s => let '(a, o', t) := m E o in ((a, o'), s, t).

Declare Scope go_scope.
Delimit Scope go_scope with go.
Notation "x <- m ;; k" := (bind m (fun x => k))
  (at level 61, m at next level, right associativity) : go_scope.
Notation "' p <- m ;; k" := (bind m (fun x => let 'p := x in k))
  (at level 61, p pattern, m at next level, right associativity) : go_scope.
Notation "m ;; k" := (bind m (fun _ => k))
  (at level 61, right associativity) : go_scope.
Local Open Scope go_scope.

Definition ioctl {S} (fd : string) (op : Opcode) (arg : ioctl_arg)
  : M S (Z * option error * ioctl_arg) :=
  call (EvIoctl fd op arg) (fun E => ioctlDev E fd op arg).

Definition findSysFsDevice {S} (dev : string) : M S (result string) :=
  call (EvFindSysFsDevice dev) (fun E => FindSysFsDevice E dev).

Definition newPCIDevice {S} (sysfs : string) : M S (result pci.PCIDevice) :=
  call (EvNewPCIDevice sysfs) (fun E => NewPCIDevice E sysfs).

Definition readFiles {S} (names : list string) (dir : string)
  : M S ((string -> option string) * option error) :=
  call (EvReadFiles names dir) (fun E => readFilesInDirectory E names dir).

Definition evalSymlinks {S} (path : string) : M S (result string) :=
  call (EvEvalSymlinks path) (fun E => EvalSymlinks E path).

(** [*p = v] if the reader stored [v] through [p], else [*p] is unchanged. *)
Definition stored (w : option string) (old : string) : string :=
  match w with
  | Some v => v
  | None => old
  end.

Definition is_empty (s : string) : bool := String.eqb s "".

(** ** Constants *)

Definition intelFpgaFmePrefix : string := "intel-fpga-fme.".
Definition intelFpgaPortPrefix : string := "intel-fpga-port.".
Definition intelFpgaFmeGlobPCI : string := "fpga/intel-fpga-dev.*/intel-fpga-fme.*".

(** ** Functions shared by FME and Port *)

(** Modelled from the spec: [checkPCIDeviceType] is declared outside this
    file. An object, when opened, immediately resolves its PCI identity,
    and the open verifies that the path names a device of its class: the
    check resolves the PCI device through the object's own [GetPCIDevice]
    and tests it against the device class. *)
Definition checkPCIDeviceType {S} (kind : DeviceKind)
    (GetPCIDevice : M S (result pci.PCIDevice)) : M S (option error) :=
  r <- GetPCIDevice ;;
  match r with
  | Err e => ret (Some e)
  | Ok p => call (EvDeviceClass kind p) (fun E => deviceClass E kind p)
  end.

Definition commonIntelFpgaGetAPIVersion {S} (fd : string) : M S (Z * option error) :=
  '(v, err, _) <- ioctl fd FPGA_GET_API_VERSION ArgNull ;;
  ret (int_of_uintptr v, err).

Definition commonIntelFpgaCheckExtension {S} (fd : string) : M S (Z * option error) :=
  '(v, err, _) <- ioctl fd FPGA_CHECK_EXTENSION ArgNull ;;
  ret (int_of_uintptr v, err).

(** ** IntelFpgaFME *)

Module IntelFpgaFME.

Record t := mk {
  DevPath : string;
  SysFsPath : string;
  Name : string;
  PCIDevice : option pci.PCIDevice;
  SocketID : string;
  Dev : string;
  CompatID : string;
  BitstreamID : string;
  BitstreamMetadata : string;
  PortsNum : string
}.

(** [&IntelFpgaFME{DevPath: dev}] *)
Definition new (dev : string) : t := mk dev "" "" None "" "" "" "" "" "".

Definition set_SysFsPath (v : string) (f : t) : t :=
  mk (DevPath f) v (Name f) (PCIDevice f) (SocketID f) (Dev f) (CompatID f)
     (BitstreamID f) (BitstreamMetadata f) (PortsNum f).

Definition set_Name (v : string) (f : t) : t :=
  mk (DevPath f) (SysFsPath f) v (PCIDevice f) (SocketID f) (Dev f) (CompatID f)
     (BitstreamID f) (BitstreamMetadata f) (PortsNum f).

Definition set_PCIDevice (v : option pci.PCIDevice) (f : t) : t :=
  mk (DevPath f) (SysFsPath f) (Name f) v (SocketID f) (Dev f) (CompatID f)
     (BitstreamID f) (BitstreamMetadata f) (PortsNum f).

(** [Close]: the body is [return nil]; the log records that it ran. *)
Definition Close : M t (option error) :=
  f <- get ;;
  emit (EvFMEClose (DevPath f)) ;;
  ret None.

Definition GetAPIVersion : M t (Z * option error) :=
  f <- get ;;
  commonIntelFpgaGetAPIVersion (DevPath f).

Definition CheckExtension : M t (Z * option error) :=
  f <- get ;;
  commonIntelFpgaCheckExtension (DevPath f).

(** [PortPR]: the four assignments to [value], of which the last takes
    [&bitstream[0]] and panics on an empty slice, then the ioctl. *)
Definition PortPR `{Layout} (port : Z) (bitstream : ByteSlice)
  : M t (outcome (option error)) :=
  f <- get ;;
  let argsz := uint32 (Sizeof SFmePortPR) in
  let port_id := port in
  let buffer_size := uint32 (len bitstream) in
  match addr_of_first bitstream with
  | None => ret (Panics "index out of range [0] with length 0")
  | Some p =>
      let value := IntelFpgaFmePortPR.mk argsz port_id buffer_size (uint64 p) in
      '(_, err, _) <- ioctl (DevPath f) FPGA_FME_PORT_PR (ArgFmePortPR value) ;;
      ret (Returns err)
  end.

Definition PortRelease `{Layout} (port : Z) : M t (option error) :=
  f <- get ;;
  let value := IntelFpgaFmePortRelease.mk (uint32 (Sizeof SFmePortRelease)) port in
  '(_, err, _) <- ioctl (DevPath f) FPGA_FME_PORT_RELEASE (ArgFmePortRelease value) ;;
  ret err.

Definition PortAssign `{Layout} (port : Z) : M t (option error) :=
  f <- get ;;
  let value := IntelFpgaFmePortAssign.mk (uint32 (Sizeof SFmePortAssign)) port in
  '(_, err, _) <- ioctl (DevPath f) FPGA_FME_PORT_ASSIGN (ArgFmePortAssign value) ;;
  ret err.

Definition GetDevPath : M t string :=
  f <- get ;;
  ret (DevPath f).

Definition GetSysFsPath : M t string :=
  f <- get ;;
  if negb (is_empty (SysFsPath f)) then ret (SysFsPath f)
  else
    r <- findSysFsDevice (DevPath f) ;;
    match r with
    | Err _ => ret ""
    | Ok sysfs =>
        put (set_SysFsPath sysfs f) ;;
        ret sysfs
    end.

Definition GetName : M t string :=
  f <- get ;;
  if negb (is_empty (Name f)) then ret (Name f)
  else
    p <- GetSysFsPath ;;
    f <- get ;;
    let name := filepath.Base p in
    put (set_Name name f) ;;
    ret name.

Definition GetPCIDevice : M t (result pci.PCIDevice) :=
  f <- get ;;
  match PCIDevice f with
  | Some p => ret (Ok p)
  | None =>
      path <- GetSysFsPath ;;
      r <- newPCIDevice path ;;
      match r with
      | Err e => ret (Err e)
      | Ok p =>
          f <- get ;;
          put (set_PCIDevice (Some p) f) ;;
          ret (Ok p)
      end
  end.

(** The keys of [fileMap], in the order of the source. *)
Definition fileNames : list string :=
  ["bitstream_id"; "bitstream_metadata"; "dev"; "ports_num"; "socket_id";
   "pr/interface_id"].

(** The effect of [readFilesInDirectory] on the fields [fileMap] points to. *)
Definition store_files (w : string -> option string) (f : t) : t :=
  mk (DevPath f) (SysFsPath f) (Name f) (PCIDevice f)
     (stored (w "socket_id") (SocketID f))
     (stored (w "dev") (Dev f))
     (stored (w "pr/interface_id") (CompatID f))
     (stored (w "bitstream_id") (BitstreamID f))
     (stored (w "bitstream_metadata") (BitstreamMetadata f))
     (stored (w "ports_num") (PortsNum f)).

Definition updateProperties : M t (option error) :=
  r <- GetPCIDevice ;;
  match r with
  | Err e => ret (Some e)
  | Ok p =>
      '(w, err) <- readFiles fileNames
                     (filepath.Join [pci.SysFsPath p; intelFpgaFmeGlobPCI]) ;;
      f <- get ;;
      put (store_files w f) ;;
      ret err
  end.

(** [GetPortsNum]: [int(n)] is [n], which fits 32 bits, on a target
    whose [int] has 64. *)
Definition GetPortsNum : M t Z :=
  f <- get ;;
  err <- (if is_empty (PortsNum f) then updateProperties else ret None) ;;
  match err with
  | Some _ => ret (-1)
  | None =>
      f <- get ;;
      match strconv.ParseUint10 (PortsNum f) 32 with
      | (_, Some _) => ret (-1)
      | (n, None) => ret n
      end
  end.

Definition GetInterfaceUUID : M t string :=
  f <- get ;;
  err <- (if is_empty (CompatID f) then updateProperties else ret None) ;;
  match err with
  | Some _ => ret ""
  | None =>
      f <- get ;;
      ret (CompatID f)
  end.

Definition GetSocketID : M t (Z * option error) :=
  f <- get ;;
  if is_empty (SocketID f) then ret (MaxUint32, Some (Errorf "n/a"))
  else
    let '(id, err) := strconv.ParseUint10 (SocketID f) 32 in
    ret (uint32 id, err).

Definition GetBitstreamID : M t string :=
  f <- get ;;
  ret (BitstreamID f).

Definition GetBitstreamMetadata : M t string :=
  f <- get ;;
  ret (BitstreamMetadata f).

End IntelFpgaFME.

(** [NewIntelFpgaFME]: a new object with [DevPath] set, checked and then
    populated; the object is returned only if both succeed. *)
Definition NewIntelFpgaFME {S} (dev : string) : M S (result IntelFpgaFME.t) :=
  '(err, fme) <- on (IntelFpgaFME.new dev)
                    (checkPCIDeviceType KindFME IntelFpgaFME.GetPCIDevice) ;;
  match err with
  | Some e => ret (Err e)
  | None =>
      '(err, fme) <- on fme IntelFpgaFME.updateProperties ;;
      match err with
      | Some e => ret (Err e)
      | None => ret (Ok fme)
      end
  end.

(** ** IntelFpgaPort *)

Module IntelFpgaPort.

(** [FME] holds the FME this Port opened in [GetFME]; the Port is the only
    holder of that object, which is kept here by value and written back
    after every call made through the reference. *)
Record t := mk {
  FME : option IntelFpgaFME.t;
  DevPath : string;
  SysFsPath : string;
  Name : string;
  PCIDevice : option pci.PCIDevice;
  Dev : string;
  AFUID : string;
  ID : string
}.

(** [&IntelFpgaPort{DevPath: dev}] *)
Definition new (dev : string) : t := mk None dev "" "" None "" "" "".

Definition set_FME (v : option IntelFpgaFME.t) (f : t) : t :=
  mk v (DevPath f) (SysFsPath f) (Name f) (PCIDevice f) (Dev f) (AFUID f) (ID f).

Definition set_SysFsPath (v : string) (f : t) : t :=
  mk (FME f) (DevPath f) v (Name f) (PCIDevice f) (Dev f) (AFUID f) (ID f).

Definition set_Name (v : string) (f : t) : t :=
  mk (FME f) (DevPath f) (SysFsPath f) v (PCIDevice f) (Dev f) (AFUID f) (ID f).

Definition set_PCIDevice (v : option pci.PCIDevice) (f : t) : t :=
  mk (FME f) (DevPath f) (SysFsPath f) (Name f) v (Dev f) (AFUID f) (ID f).

(** A method call through the reference [f.FME = fme]: the FME is updated
    in place; the updated object comes back with the result. *)
Definition onFME {A} (fme : IntelFpgaFME.t) (m : M IntelFpgaFME.t A)
  : M t (A * IntelFpgaFME.t) :=
  '(a, fme') <- on fme m ;;
  f <- get ;;
  put (set_FME (Some fme') f) ;;
  ret (a, fme').

(** [Close]: the deferred [f.FME.Close()] runs when [f.FME] is not nil, its
    result is dropped; the method returns nil. *)
Definition Close : M t (option error) :=
  f <- get ;;
  match FME f with
  | Some fme =>
      onFME fme IntelFpgaFME.Close ;;
      ret None
  | None => ret None
  end.

Definition GetAPIVersion : M t (Z * option error) :=
  f <- get ;;
  commonIntelFpgaGetAPIVersion (DevPath f).

Definition CheckExtension : M t (Z * option error) :=
  f <- get ;;
  commonIntelFpgaCheckExtension (DevPath f).

Definition PortReset : M t (option error) :=
  f <- get ;;
  '(_, err, _) <- ioctl (DevPath f) FPGA_PORT_RESET ArgNull ;;
  ret err.

Definition PortGetInfo `{Layout} : M t (PortInfo * option error) :=
  f <- get ;;
  let value := IntelFpgaPortInfo.mk (uint32 (Sizeof SPortInfo)) 0 0 0 in
  '(_, err, out) <- ioctl (DevPath f) FPGA_PORT_GET_INFO (ArgPortInfo value) ;;
  let value := match out with ArgPortInfo v => v | _ => value end in
  match err with
  | None =>
      ret (mkPortInfo (IntelFpgaPortInfo.Flags value)
                      (IntelFpgaPortInfo.Regions value)
                      (IntelFpgaPortInfo.Umsgs value), None)
  | Some e => ret (mkPortInfo 0 0 0, Some e)
  end.

Definition PortGetRegionInfo `{Layout} (index : Z)
  : M t (PortRegionInfo * option error) :=
  f <- get ;;
  let value :=
    IntelFpgaPortRegionInfo.mk (uint32 (Sizeof SPortRegionInfo)) 0 index 0 0 in
  '(_, err, out) <- ioctl (DevPath f) FPGA_PORT_GET_REGION_INFO
                      (ArgPortRegionInfo value) ;;
  let value := match out with ArgPortRegionInfo v => v | _ => value end in
  match err with
  | None =>
      ret (mkPortRegionInfo (IntelFpgaPortRegionInfo.Flags value)
                            (IntelFpgaPortRegionInfo.Index value)
                            (IntelFpgaPortRegionInfo.Offset value)
                            (IntelFpgaPortRegionInfo.Size value), None)
  | Some e => ret (mkPortRegionInfo 0 0 0 0, Some e)
  end.

Definition GetDevPath : M t string :=
  f <- get ;;
  ret (DevPath f).

Definition GetSysFsPath : M t string :=
  f <- get ;;
  if negb (is_empty (SysFsPath f)) then ret (SysFsPath f)
  else
    r <- findSysFsDevice (DevPath f) ;;
    match r with
    | Err _ => ret ""
    | Ok sysfs =>
        put (set_SysFsPath sysfs f) ;;
        ret sysfs
    end.

Definition GetName : M t string :=
  f <- get ;;
  if negb (is_empty (Name f)) then ret (Name f)
  else
    p <- GetSysFsPath ;;
    f <- get ;;
    let name := filepath.Base p in
    put (set_Name name f) ;;
    ret name.

Definition GetPCIDevice : M t (result pci.PCIDevice) :=
  f <- get ;;
  match PCIDevice f with
  | Some p => ret (Ok p)
  | None =>
      path <- GetSysFsPath ;;
      r <- newPCIDevice path ;;
      match r with
      | Err e => ret (Err e)
      | Ok p =>
          f <- get ;;
          put (set_PCIDevice (Some p) f) ;;
          ret (Ok p)
      end
  end.

(** The PCI device whose sysfs subtree holds the FME: the physical
    function when there is one ([if pci.PhysFn != nil { pci = pci.PhysFn }]). *)
Definition fmeHost (p : pci.PCIDevice) : pci.PCIDevice :=
  match pci.PhysFn p with
  | Some pf => pf
  | None => p
  end.

Definition GetFME : M t (result IntelFpgaFME.t) :=
  f <- get ;;
  match FME f with
  | Some fme => ret (Ok fme)
  | None =>
      r <- GetPCIDevice ;;
      match r with
      | Err e => ret (Err e)
      | Ok p =>
          let p := fmeHost p in
          '(w, err) <- readFiles ["dev"]
                         (filepath.Join [pci.SysFsPath p; intelFpgaFmeGlobPCI]) ;;
          let dev := stored (w "dev") "" in
          match err with
          | Some e => ret (Err e)
          | None =>
              r <- evalSymlinks (filepath.Join ["/dev/char"; dev]) ;;
              match r with
              | Err e => ret (Err e)
              | Ok realDev =>
                  r <- NewIntelFpgaFME realDev ;;
                  match r with
                  | Err e => ret (Err e)
                  | Ok fme =>
                      f <- get ;;
                      put (set_FME (Some fme) f) ;;
                      ret (Ok fme)
                  end
              end
          end
      end
  end.

(** The keys of [fileMap], in the order of the source. *)
Definition fileNames : list string := ["afu_id"; "dev"; "id"].

Definition store_files (w : string -> option string) (f : t) : t :=
  mk (FME f) (DevPath f) (SysFsPath f) (Name f) (PCIDevice f)
     (stored (w "dev") (Dev f))
     (stored (w "afu_id") (AFUID f))
     (stored (w "id") (ID f)).

Definition updateProperties : M t (option error) :=
  dir <- GetSysFsPath ;;
  '(w, err) <- readFiles fileNames dir ;;
  f <- get ;;
  put (store_files w f) ;;
  ret err.

Definition GetPortID : M t (Z * option error) :=
  f <- get ;;
  err <- (if is_empty (ID f) then updateProperties else ret None) ;;
  match err with
  | Some e => ret (MaxUint32, Some e)
  | None =>
      f <- get ;;
      let '(id, err) := strconv.ParseUint10 (ID f) 32 in
      ret (uint32 id, err)
  end.

Definition GetAcceleratorTypeUUID : M t string :=
  err <- updateProperties ;;
  f <- get ;;
  match err with
  | Some _ => ret ""
  | None => if is_empty (AFUID f) then ret "" else ret (AFUID f)
  end.

Definition GetInterfaceUUID : M t string :=
  r <- GetFME ;;
  match r with
  | Err _ => ret ""
  | Ok fme =>
      '(id, fme) <- onFME fme IntelFpgaFME.GetInterfaceUUID ;;
      onFME fme IntelFpgaFME.Close ;;
      ret id
  end.

End IntelFpgaPort.

(** [NewIntelFpgaPort]: as for the FME, with [port.Close()] on both
    failure paths. *)
Definition NewIntelFpgaPort {S} (dev : string) : M S (result IntelFpgaPort.t) :=
  '(err, port) <- on (IntelFpgaPort.new dev)
                     (checkPCIDeviceType KindPort IntelFpgaPort.GetPCIDevice) ;;
  match err with
  | Some e =>
      on port IntelFpgaPort.Close ;;
      ret (Err e)
  | None =>
      '(err, port) <- on port IntelFpgaPort.updateProperties ;;
      match err with
      | Some e =>
          on port IntelFpgaPort.Close ;;
          ret (Err e)
      | None => ret (Ok port)
      end
  end.

(** ** Vocabulary of the statements *)

(** A string of decimal zeros: the numerals whose value is zero. *)
Fixpoint all_zero_digits (s : string) : bool :=
  match s with
  | EmptyString => true
  | String c r => Ascii.eqb c "0"%char && all_zero_digits r
  end.

(** The request of an ioctl carries a structure whose first field holds
    the size of that structure. *)
Definition has_size_header `{Layout} (arg : ioctl_arg) : bool :=
  match arg with
  | ArgNull => false
  | ArgFmePortPR v => IntelFpgaFmePortPR.Argsz v =? Sizeof SFmePortPR
  | ArgFmePortRelease v => IntelFpgaFmePortRelease.Argsz v =? Sizeof SFmePortRelease
  | ArgFmePortAssign v => IntelFpgaFmePortAssign.Argsz v =? Sizeof SFmePortAssign
  | ArgPortInfo v => IntelFpgaPortInfo.Argsz v =? Sizeof SPortInfo
  | ArgPortRegionInfo v => IntelFpgaPortRegionInfo.Argsz v =? Sizeof SPortRegionInfo
  end.

Definition sized_request `{Layout} (ev : event) : bool :=
  match ev with
  | EvIoctl _ _ arg => has_size_header arg
  | _ => true
  end.

(** The ioctls of a log, in order. *)
Definition ioctls (t : trace) : list (Opcode * ioctl_arg) :=
  flat_map (fun ev => match ev with
                      | EvIoctl _ op arg => [(op, arg)]
                      | _ => []
                      end) t.

(** The directories of the attribute reads of a log, in order. *)
Definition reads (t : trace) : list string :=
  flat_map (fun ev => match ev with
                      | EvReadFiles _ dir => [dir]
                      | _ => []
                      end) t.

Definition value_of {S A} (r : A * S * trace) : A := fst (fst r).
Definition state_of {S A} (r : A * S * trace) : S := snd (fst r).
Definition log_of {S A} (r : A * S * trace) : trace := snd r.

Definition is_ok {A} (r : result A) : Prop :=
  match r with
  | Ok _ => True
  | Err _ => False
  end.

(** [m] answers from its cache: once a call has given an answer that
    satisfies [good], a later call, on any system, gives the same answer,
    leaves the object as it is and calls no collaborator. *)
Definition memoized {S A} (m : M S A) (good : A -> Prop) : Prop :=
  forall E s a s' t, m E s = (a, s', t) -> good a ->
    forall E', m E' s' = (a, s', []).

(** *** Clients of an object

    A client holds an FME or a Port and calls its methods, in any order
    and on a system that may change between the calls. [PR] only hands
    over to [genericPortPR], which is declared outside this file; it is
    not among the calls. *)

Inductive FMECall :=
| F_Close
| F_GetAPIVersion
| F_CheckExtension
| F_PortPR (port : Z) (bitstream : ByteSlice)
| F_PortRelease (port : Z)
| F_PortAssign (port : Z)
| F_GetDevPath
| F_GetSysFsPath
| F_GetName
| F_GetPCIDevice
| F_GetPortsNum
| F_GetInterfaceUUID
| F_GetSocketID
| F_GetBitstreamID
| F_GetBitstreamMetadata
| F_updateProperties.

(** The object after a call. *)
Definition FME_after `{Layout} (c : FMECall) (E : Env) (f : IntelFpgaFME.t)
  : IntelFpgaFME.t :=
  match c with
  | F_Close => state_of (IntelFpgaFME.Close E f)
  | F_GetAPIVersion => state_of (IntelFpgaFME.GetAPIVersion E f)
  | F_CheckExtension => state_of (IntelFpgaFME.CheckExtension E f)
  | F_PortPR port bs => state_of (IntelFpgaFME.PortPR port bs E f)
  | F_PortRelease port => state_of (IntelFpgaFME.PortRelease port E f)
  | F_PortAssign port => state_of (IntelFpgaFME.PortAssign port E f)
  | F_GetDevPath => state_of (IntelFpgaFME.GetDevPath E f)
  | F_GetSysFsPath => state_of (IntelFpgaFME.GetSysFsPath E f)
  | F_GetName => state_of (IntelFpgaFME.GetName E f)
  | F_GetPCIDevice => state_of (IntelFpgaFME.GetPCIDevice E f)
  | F_GetPortsNum => state_of (IntelFpgaFME.GetPortsNum E f)
  | F_GetInterfaceUUID => state_of (IntelFpgaFME.GetInterfaceUUID E f)
  | F_GetSocketID => state_of (IntelFpgaFME.GetSocketID E f)
  | F_GetBitstreamID => state_of (IntelFpgaFME.GetBitstreamID E f)
  | F_GetBitstreamMetadata => state_of (IntelFpgaFME.GetBitstreamMetadata E f)
  | F_updateProperties => state_of (IntelFpgaFME.updateProperties E f)
  end.

(** The object after a series of calls, each on its own system. *)
Fixpoint FME_life `{Layout} (cs : list (Env * FMECall)) (f : IntelFpgaFME.t)
  : IntelFpgaFME.t :=
  match cs with
  | [] => f
  | (E, c) :: rest => FME_life rest (FME_after c E f)
  end.

(** [P_viaFME c] is the call [c] made on the FME through the reference
    that [GetFME] handed out. *)
Inductive PortCall :=
| P_Close
| P_GetAPIVersion
| P_CheckExtension
| P_PortReset
| P_PortGetInfo
| P_PortGetRegionInfo (index : Z)
| P_GetDevPath
| P_GetSysFsPath
| P_GetName
| P_GetPCIDevice
| P_GetFME
| P_GetPortID
| P_GetAcceleratorTypeUUID
| P_GetInterfaceUUID
| P_updateProperties
| P_viaFME (c : FMECall).

Definition Port_after `{Layout} (c : PortCall) (E : Env) (f : IntelFpgaPort.t)
  : IntelFpgaPort.t :=
  match c with
  | P_Close => state_of (IntelFpgaPort.Close E f)
  | P_GetAPIVersion => state_of (IntelFpgaPort.GetAPIVersion E f)
  | P_CheckExtension => state_of (IntelFpgaPort.CheckExtension E f)
  | P_PortReset => state_of (IntelFpgaPort.PortReset E f)
  | P_PortGetInfo => state_of (IntelFpgaPort.PortGetInfo E f)
  | P_PortGetRegionInfo index => state_of (IntelFpgaPort.PortGetRegionInfo index E f)
  | P_GetDevPath => state_of (IntelFpgaPort.GetDevPath E f)
  | P_GetSysFsPath => state_of (IntelFpgaPort.GetSysFsPath E f)
  | P_GetName => state_of (IntelFpgaPort.GetName E f)
  | P_GetPCIDevice => state_of (IntelFpgaPort.GetPCIDevice E f)
  | P_GetFME => state_of (IntelFpgaPort.GetFME E f)
  | P_GetPortID => state_of (IntelFpgaPort.GetPortID E f)
  | P_GetAcceleratorTypeUUID => state_of (IntelFpgaPort.GetAcceleratorTypeUUID E f)
  | P_GetInterfaceUUID => state_of (IntelFpgaPort.GetInterfaceUUID E f)
  | P_updateProperties => state_of (IntelFpgaPort.updateProperties E f)
  | P_viaFME c' =>
      match IntelFpgaPort.FME f with
      | Some fme => IntelFpgaPort.set_FME (Some (FME_after c' E fme)) f
      | None => f
      end
  end.

Fixpoint Port_life `{Layout} (cs : list (Env * PortCall)) (f : IntelFpgaPort.t)
  : IntelFpgaPort.t :=
  match cs with
  | [] => f
  | (E, c) :: rest => Port_life rest (Port_after c E f)
  end.

(** [f'] is [f] later in its life: the same device, and every cache that
    was filled in [f] holds the same value in [f']. *)
Definition FME_keeps (f f' : IntelFpgaFME.t) : Prop :=
  IntelFpgaFME.DevPath f' = IntelFpgaFME.DevPath f /\
  (IntelFpgaFME.SysFsPath f <> "" ->
     IntelFpgaFME.SysFsPath f' = IntelFpgaFME.SysFsPath f) /\
  (IntelFpgaFME.Name f <> "" -> IntelFpgaFME.Name f' = IntelFpgaFME.Name f) /\
  (forall p, IntelFpgaFME.PCIDevice f = Some p -> IntelFpgaFME.PCIDevice f' = Some p).

(** The same for a Port; a resolved FME stays in place, as the same FME
    later in its life. *)
Definition Port_keeps (f f' : IntelFpgaPort.t) : Prop :=
  IntelFpgaPort.DevPath f' = IntelFpgaPort.DevPath f /\
  (IntelFpgaPort.SysFsPath f <> "" ->
     IntelFpgaPort.SysFsPath f' = IntelFpgaPort.SysFsPath f) /\
  (IntelFpgaPort.Name f <> "" -> IntelFpgaPort.Name f' = IntelFpgaPort.Name f) /\
  (forall p, IntelFpgaPort.PCIDevice f = Some p -> IntelFpgaPort.PCIDevice f' = Some p) /\
  (forall fme, IntelFpgaPort.FME f = Some fme ->
     exists fme', IntelFpgaPort.FME f' = Some fme' /\ FME_keeps fme fme').

(** [m] answers from its cache for the rest of the object's life: once a
    call has given an answer that satisfies [good], then after any series
    of calls [cs] by a client, [m] still gives that answer, leaves the
    object as it is and calls no collaborator. *)
Definition memoized_for_life {S C A}
    (life : list (Env * C) -> S -> S) (m : M S A) (good : A -> Prop) : Prop :=
  forall E s a s' t, m E s = (a, s', t) -> good a ->
    forall cs E', m E' (life cs s') = (a, life cs s', []).

(** The calls that only use the object: the ioctl methods, [Close] and
    the getters of a stored field. *)
Definition FME_uses_only (c : FMECall) : bool :=
  match c with
  | F_Close | F_GetAPIVersion | F_CheckExtension
  | F_PortPR _ _ | F_PortRelease _ | F_PortAssign _
  | F_GetDevPath | F_GetSocketID | F_GetBitstreamID | F_GetBitstreamMetadata => true
  | _ => false
  end.

Definition Port_uses_only (c : PortCall) : bool :=
  match c with
  | P_Close | P_GetAPIVersion | P_CheckExtension | P_PortReset
  | P_PortGetInfo | P_PortGetRegionInfo _ | P_GetDevPath => true
  | P_viaFME c' => FME_uses_only c'
  | _ => false
  end.

(** The events of resolving an object: calls to the sysfs and PCI
    collaborators, and neither an ioctl nor a [Close]. *)
Definition resolution_event (ev : event) : bool :=
  match ev with
  | EvIoctl _ _ _ | EvFMEClose _ => false
  | _ => true
  end.

(** *** Decimal numerals *)

(** The value of the decimal digit [c], if it is one. *)
Definition decimal_digit (c : ascii) : option Z :=
  let x := Z.of_N (N_of_ascii c) in
  if (48 <=? x) && (x <=? 57) then Some (x - 48) else None.

(** The number that the digits of [s] denote after the digits that gave
    [acc]. *)
Fixpoint decimal_from (acc : Z) (s : string) : option Z :=
  match s with
  | EmptyString => Some acc
  | String c r =>
      match decimal_digit c with
      | Some d => decimal_from (acc * 10 + d) r
      | None => None
      end
  end.

(** The number a non-empty string of decimal digits denotes. *)
Definition decimal_value (s : string) : option Z :=
  match s with
  | EmptyString => None
  | _ => decimal_from 0 s
  end.

(** No character of [s] is a path separator. *)
Fixpoint no_separator (s : string) : bool :=
  match s with
  | EmptyString => true
  | String c r => negb (filepath.isPathSeparator c) && no_separator r
  end.

(** ** A sample system

    One card: a physical function that hosts the FME, and a virtual
    function that hosts the Port. *)

Module sample.

Definition fmeDev : string := "/dev/intel-fpga-fme.0".
Definition portDev : string := "/dev/intel-fpga-port.0".

Definition pfPath : string := "/sys/devices/pci0000:5e/0000:5e:00.0".
Definition vfPath : string := "/sys/devices/pci0000:5e/0000:5e:00.1".

Definition fmeSysFs : string :=
  "/sys/devices/pci0000:5e/0000:5e:00.0/fpga/intel-fpga-dev.0/intel-fpga-fme.0".
Definition portSysFs : string :=
  "/sys/devices/pci0000:5e/0000:5e:00.1/fpga/intel-fpga-dev.0/intel-fpga-port.0".

Definition pf : pci.PCIDevice := pci.mk pfPath None.
Definition vf : pci.PCIDevice := pci.mk vfPath (Some pf).

Definition fmeFiles (name : string) : option string :=
  if String.eqb name "bitstream_id" then Some "0x63000023b637277"
  else if String.eqb name "bitstream_metadata" then Some "0x1612156"
  else if String.eqb name "dev" then Some "240:0"
  else if String.eqb name "ports_num" then Some "1"
  else if String.eqb name "socket_id" then Some "0"
  else if String.eqb name "pr/interface_id" then Some "ce489693-98f0-5f33-946d-560708be108a"
  else None.

Definition portFiles (name : string) : option string :=
  if String.eqb name "afu_id" then Some "d8424dc4a4a3c413f89e433683f9040b"
  else if String.eqb name "dev" then Some "240:1"
  else if String.eqb name "id" then Some "0"
  else None.

(** The requests succeed and the driver leaves the structures as they are. *)
Definition env : Env := {|
  ioctlDev := fun _ _ arg => (0, None, arg);
  FindSysFsDevice := fun dev =>
    if String.eqb dev fmeDev then Ok fmeSysFs
    else if String.eqb dev portDev then Ok portSysFs
    else Err (ExtError "not a device");
  NewPCIDevice := fun sysfs =>
    if String.eqb sysfs fmeSysFs then Ok pf
    else if String.eqb sysfs portSysFs then Ok vf
    else Err (ExtError "no PCI device");
  readFilesInDirectory := fun _ dir =>
    if String.eqb dir (filepath.Join [pfPath; intelFpgaFmeGlobPCI])
    then (fmeFiles, None)
    else if String.eqb dir portSysFs then (portFiles, None)
    else (fun _ => None, Some (ExtError "unable to read file"));
  EvalSymlinks := fun path =>
    if String.eqb path "/dev/char/240:0" then Ok fmeDev
    else Err (ExtError "no such file or directory");
  deviceClass := fun _ _ => None
|}.

(** The same system with a driver that refuses [FPGA_FME_PORT_RELEASE]. *)
Definition envBusy : Env := {|
  ioctlDev := fun _ op arg =>
    match op with
    | FPGA_FME_PORT_RELEASE => (0, Some (Errno 16), arg)
    | _ => (0, None, arg)
    end;
  FindSysFsDevice := FindSysFsDevice env;
  NewPCIDevice := NewPCIDevice env;
  readFilesInDirectory := readFilesInDirectory env;
  EvalSymlinks := EvalSymlinks env;
  deviceClass := deviceClass env
|}.

(** A system where nothing resolves. *)
Definition envGone : Env := {|
  ioctlDev := fun _ _ arg => (0, Some (Errno 19), arg);
  FindSysFsDevice := fun _ => Err (ExtError "not a device");
  NewPCIDevice := fun _ => Err (ExtError "no PCI device");
  readFilesInDirectory := fun _ _ => (fun _ => None, Some (ExtError "unable to read file"));
  EvalSymlinks := fun _ => Err (ExtError "no such file or directory");
  deviceClass := fun _ _ => None
|}.

(** Sizes of the request structures on the sample target. *)
Definition layout : Layout := {|
  Sizeof := fun k =>
    match k with
    | SFmePortPR => 32
    | SFmePortRelease => 12
    | SFmePortAssign => 12
    | SPortInfo => 16
    | SPortRegionInfo => 32
    end
|}.

(** A bitstream of four bytes at address 0xc000010000. *)
Definition bitstream : ByteSlice :=
  mkSlice 824633786368 [Byte.x58; Byte.x65; Byte.x6f; Byte.x6e].

(** An FME with only [DevPath] set, and the objects the constructors
    give on the sample system. *)
Definition freshFME : IntelFpgaFME.t := IntelFpgaFME.new fmeDev.
Definition freshPort : IntelFpgaPort.t := IntelFpgaPort.new portDev.

Definition openedFME : IntelFpgaFME.t :=
  IntelFpgaFME.mk fmeDev fmeSysFs "" (Some pf) "0" "240:0"
    "ce489693-98f0-5f33-946d-560708be108a" "0x63000023b637277" "0x1612156" "1".

Definition openedPort : IntelFpgaPort.t :=
  IntelFpgaPort.mk None portDev portSysFs "" (Some vf) "240:1"
    "d8424dc4a4a3c413f89e433683f9040b" "0".

(** The Port after [GetFME]. *)
Definition resolvedPort : IntelFpgaPort.t :=
  IntelFpgaPort.set_FME (Some openedFME) openedPort.

(** An FME and a Port whose numeric attributes are not decimal numbers,
    and an FME of a card without ports. *)
Definition garbledFME : IntelFpgaFME.t :=
  IntelFpgaFME.mk fmeDev fmeSysFs "" (Some pf) "-1" "240:0"
    "ce489693-98f0-5f33-946d-560708be108a" "0x63000023b637277" "0x1612156" "1x".

Definition garbledPort : IntelFpgaPort.t :=
  IntelFpgaPort.mk None portDev portSysFs "" (Some vf) "240:1"
    "d8424dc4a4a3c413f89e433683f9040b" "0x0".

Definition idleFME : IntelFpgaFME.t :=
  IntelFpgaFME.mk fmeDev fmeSysFs "" (Some pf) "0" "240:0"
    "ce489693-98f0-5f33-946d-560708be108a" "0x63000023b637277" "0x1612156" "0".

(** A client that polls the FME while the system goes away and comes
    back. *)
Definition busyClient : list (Env * FMECall) :=
  [(envGone, F_GetPortsNum); (env, F_updateProperties); (envGone, F_GetPCIDevice);
   (env, F_PortRelease 0); (env, F_GetName); (envGone, F_Close)].

(** The sample system with FME directories that hold no file "dev": the
    read stores nothing and reports no error. *)
Definition envNoDev : Env := {|
  ioctlDev := ioctlDev env;
  FindSysFsDevice := FindSysFsDevice env;
  NewPCIDevice := NewPCIDevice env;
  readFilesInDirectory := fun _ _ => (fun _ => None, None);
  EvalSymlinks := fun path =>
    if String.eqb path "/dev/char" then Ok "/dev/char"
    else Err (ExtError "no such file or directory");
  deviceClass := deviceClass env
|}.

(** A client of the Port that also uses the FME it was handed. *)
Definition portClient : list (Env * PortCall) :=
  [(envGone, P_GetInterfaceUUID); (env, P_viaFME F_GetName); (envGone, P_Close);
   (env, P_GetPortID); (envBusy, P_viaFME F_updateProperties)].

(** A Port that sits on the physical function itself. *)
Definition pfPort : IntelFpgaPort.t :=
  IntelFpgaPort.mk None portDev
    "/sys/devices/pci0000:5e/0000:5e:00.0/fpga/intel-fpga-dev.0/intel-fpga-port.0"
    "" (Some pf) "240:1" "d8424dc4a4a3c413f89e433683f9040b" "0".

End sample.

(** ** Tactics *)

(** Unfold the operations of the monad and compute the log. *)
Ltac run :=
  cbv beta iota zeta delta
    [bind ret get put call emit on ioctl findSysFsDevice newPCIDevice
     readFiles evalSymlinks];
  cbn [app].

(** A method that is one ioctl with the argument 0. *)
Ltac null_request :=
  unfold commonIntelFpgaGetAPIVersion, commonIntelFpgaCheckExtension, log_of;
  run;
  match goal with
  | |- context [ioctlDev ?E ?fd ?op ?arg] =>
      destruct (ioctlDev E fd op arg) as [[? ?] ?]
  end;
  reflexivity.

(** ** Lemmas on the library functions *)

Lemma is_empty_true (s : string) : is_empty s = true <-> s = "".
Proof. unfold is_empty. apply String.eqb_eq. Qed.

Lemma is_empty_false (s : string) : is_empty s = false <-> s <> "".
Proof. unfold is_empty. apply String.eqb_neq. Qed.

Lemma unchars_empty (l : list ascii) : filepath.unchars l = "" -> l = [].
Proof. destruct l; simpl; [reflexivity | discriminate]. Qed.

Lemma Base_not_empty (p : string) : filepath.Base p <> "".
Proof.
  unfold filepath.Base.
  destruct (String.eqb p ""); [discriminate |].
  destruct (filepath.takeWhile _ _) as [|c l]; [discriminate |].
  intros H. apply unchars_empty in H.
  simpl in H. destruct (rev l); discriminate.
Qed.

Lemma Base_empty : filepath.Base "" = ".".
Proof. reflexivity. Qed.

Lemma digitval_decimal (x d : Z) :
  0 <= x -> strconv.digitval x = Some d -> 0 <= d /\ (d < 10 -> x = d + 48).
Proof.
  unfold strconv.digitval. intros Hx.
  destruct ((48 <=? x) && (x <=? 57)) eqn:H1.
  - intros [= <-]. apply andb_true_iff in H1. lia.
  - destruct ((97 <=? strconv.lower x) && (strconv.lower x <=? 122)) eqn:H2;
      [| discriminate].
    intros [= <-]. apply andb_true_iff in H2. lia.
Qed.

Lemma byte_of_nonneg (c : ascii) : 0 <= strconv.byte_of c.
Proof. unfold strconv.byte_of. lia. Qed.

Lemma byte_of_zero_digit (c : ascii) : strconv.byte_of c = 48 -> c = "0"%char.
Proof.
  unfold strconv.byte_of. intros H.
  rewrite <- (ascii_N_embedding c).
  replace (N_of_ascii c) with 48%N by lia. reflexivity.
Qed.

(** A successful run of the loop from [n0] ends at or above [n0], within
    32 bits; it ends at zero only on a string of zeros. *)
Lemma loop_ok (s : string) : forall n0 n,
  0 <= n0 <= MaxUint32 ->
  strconv.loop 10 (2 ^ 32 - 1) (strconv.maxUint64 / 10 + 1) s n0 = (n, None) ->
  n0 <= n <= MaxUint32 /\ (n = 0 -> all_zero_digits s = true).
Proof.
  induction s as [|c rest IH]; intros n0 n Hn0; cbn [strconv.loop].
  - intros [= <-]. split; [lia | reflexivity].
  - destruct (strconv.digitval (strconv.byte_of c)) as [d|] eqn:Hd; [| discriminate].
    destruct (digitval_decimal _ _ (byte_of_nonneg c) Hd) as [Hd0 Hdec].
    destruct (d >=? 10) eqn:Hb; [discriminate |].
    destruct (n0 >=? strconv.maxUint64 / 10 + 1); [discriminate |].
    assert (Hn1 : uint64 (uint64 (n0 * 10) + d) = n0 * 10 + d).
    { unfold uint64, MaxUint32 in *.
      rewrite (Z.mod_small (n0 * 10)) by lia. apply Z.mod_small. lia. }
    rewrite Hn1.
    destruct ((n0 * 10 + d <? uint64 (n0 * 10)) || (n0 * 10 + d >? 2 ^ 32 - 1)) eqn:Ho;
      [discriminate |].
    apply orb_false_iff in Ho. destruct Ho as [_ Ho].
    intros Hrun. apply IH in Hrun; [| unfold MaxUint32; lia].
    destruct Hrun as [Hle Hz]. split; [lia |].
    intros ->. cbn [all_zero_digits]. rewrite Hz by reflexivity.
    assert (d = 0) by lia. subst d.
    rewrite (byte_of_zero_digit c) by (apply Hdec; lia). reflexivity.
Qed.

Lemma ParseUint10_ok (s : string) (n : Z) :
  strconv.ParseUint10 s 32 = (n, None) ->
  s <> "" /\ 0 <= n <= MaxUint32 /\ (n = 0 -> all_zero_digits s = true).
Proof.
  unfold strconv.ParseUint10.
  destruct (String.eqb s "") eqn:Hs; [discriminate |].
  apply String.eqb_neq in Hs.
  destruct (strconv.loop _ _ _ s 0) as [m [k|]] eqn:Hl; [discriminate |].
  intros [= <-]. apply loop_ok in Hl; [| unfold MaxUint32; lia].
  repeat split; try tauto; lia.
Qed.

Lemma uint32_small (n : Z) : 0 <= n <= MaxUint32 -> uint32 n = n.
Proof. unfold uint32, MaxUint32. intros. apply Z.mod_small. lia. Qed.

(** ** Equations of the cached accessors *)

Lemma FME_GetSysFsPath_cached E f :
  IntelFpgaFME.SysFsPath f <> "" ->
  IntelFpgaFME.GetSysFsPath E f = (IntelFpgaFME.SysFsPath f, f, []).
Proof.
  intros H. apply is_empty_false in H.
  unfold IntelFpgaFME.GetSysFsPath. run. rewrite H. reflexivity.
Qed.

Lemma FME_GetSysFsPath_resolve E f :
  IntelFpgaFME.SysFsPath f = "" ->
  IntelFpgaFME.GetSysFsPath E f =
    match FindSysFsDevice E (IntelFpgaFME.DevPath f) with
    | Ok sysfs => (sysfs, IntelFpgaFME.set_SysFsPath sysfs f,
                   [EvFindSysFsDevice (IntelFpgaFME.DevPath f)])
    | Err _ => ("", f, [EvFindSysFsDevice (IntelFpgaFME.DevPath f)])
    end.
Proof.
  intros H. apply is_empty_true in H.
  unfold IntelFpgaFME.GetSysFsPath. run. rewrite H. cbn [negb].
  destruct (FindSysFsDevice E _); reflexivity.
Qed.

Lemma FME_GetName_cached E f :
  IntelFpgaFME.Name f <> "" ->
  IntelFpgaFME.GetName E f = (IntelFpgaFME.Name f, f, []).
Proof.
  intros H. apply is_empty_false in H.
  unfold IntelFpgaFME.GetName. run. rewrite H. reflexivity.
Qed.

Lemma FME_GetName_resolve E f :
  IntelFpgaFME.Name f = "" ->
  IntelFpgaFME.GetName E f =
    let '(p, f1, t) := IntelFpgaFME.GetSysFsPath E f in
    (filepath.Base p, IntelFpgaFME.set_Name (filepath.Base p) f1, t).
Proof.
  intros H. apply is_empty_true in H.
  unfold IntelFpgaFME.GetName. run. rewrite H. cbn [negb].
  destruct (IntelFpgaFME.GetSysFsPath E f) as [[p f1] t].
  rewrite app_nil_r. reflexivity.
Qed.

Lemma FME_GetPCIDevice_cached E f p :
  IntelFpgaFME.PCIDevice f = Some p ->
  IntelFpgaFME.GetPCIDevice E f = (Ok p, f, []).
Proof.
  intros H. unfold IntelFpgaFME.GetPCIDevice. run. rewrite H. reflexivity.
Qed.

Lemma FME_GetPCIDevice_resolve E f :
  IntelFpgaFME.PCIDevice f = None ->
  IntelFpgaFME.GetPCIDevice E f =
    let '(path, f1, t) := IntelFpgaFME.GetSysFsPath E f in
    match NewPCIDevice E path with
    | Ok p => (Ok p, IntelFpgaFME.set_PCIDevice (Some p) f1, t ++ [EvNewPCIDevice path])
    | Err e => (Err e, f1, t ++ [EvNewPCIDevice path])
    end.
Proof.
  intros H. unfold IntelFpgaFME.GetPCIDevice. run. rewrite H.
  destruct (IntelFpgaFME.GetSysFsPath E f) as [[path f1] t].
  destruct (NewPCIDevice E path); reflexivity.
Qed.

Lemma Port_GetSysFsPath_cached E f :
  IntelFpgaPort.SysFsPath f <> "" ->
  IntelFpgaPort.GetSysFsPath E f = (IntelFpgaPort.SysFsPath f, f, []).
Proof.
  intros H. apply is_empty_false in H.
  unfold IntelFpgaPort.GetSysFsPath. run. rewrite H. reflexivity.
Qed.

Lemma Port_GetSysFsPath_resolve E f :
  IntelFpgaPort.SysFsPath f = "" ->
  IntelFpgaPort.GetSysFsPath E f =
    match FindSysFsDevice E (IntelFpgaPort.DevPath f) with
    | Ok sysfs => (sysfs, IntelFpgaPort.set_SysFsPath sysfs f,
                   [EvFindSysFsDevice (IntelFpgaPort.DevPath f)])
    | Err _ => ("", f, [EvFindSysFsDevice (IntelFpgaPort.DevPath f)])
    end.
Proof.
  intros H. apply is_empty_true in H.
  unfold IntelFpgaPort.GetSysFsPath. run. rewrite H. cbn [negb].
  destruct (FindSysFsDevice E _); reflexivity.
Qed.

Lemma Port_GetName_cached E f :
  IntelFpgaPort.Name f <> "" ->
  IntelFpgaPort.GetName E f = (IntelFpgaPort.Name f, f, []).
Proof.
  intros H. apply is_empty_false in H.
  unfold IntelFpgaPort.GetName. run. rewrite H. reflexivity.
Qed.

Lemma Port_GetName_resolve E f :
  IntelFpgaPort.Name f = "" ->
  IntelFpgaPort.GetName E f =
    let '(p, f1, t) := IntelFpgaPort.GetSysFsPath E f in
    (filepath.Base p, IntelFpgaPort.set_Name (filepath.Base p) f1, t).
Proof.
  intros H. apply is_empty_true in H.
  unfold IntelFpgaPort.GetName. run. rewrite H. cbn [negb].
  destruct (IntelFpgaPort.GetSysFsPath E f) as [[p f1] t].
  rewrite app_nil_r. reflexivity.
Qed.

Lemma Port_GetPCIDevice_cached E f p :
  IntelFpgaPort.PCIDevice f = Some p ->
  IntelFpgaPort.GetPCIDevice E f = (Ok p, f, []).
Proof.
  intros H. unfold IntelFpgaPort.GetPCIDevice. run. rewrite H. reflexivity.
Qed.

Lemma Port_GetPCIDevice_resolve E f :
  IntelFpgaPort.PCIDevice f = None ->
  IntelFpgaPort.GetPCIDevice E f =
    let '(path, f1, t) := IntelFpgaPort.GetSysFsPath E f in
    match NewPCIDevice E path with
    | Ok p => (Ok p, IntelFpgaPort.set_PCIDevice (Some p) f1, t ++ [EvNewPCIDevice path])
    | Err e => (Err e, f1, t ++ [EvNewPCIDevice path])
    end.
Proof.
  intros H. unfold IntelFpgaPort.GetPCIDevice. run. rewrite H.
  destruct (IntelFpgaPort.GetSysFsPath E f) as [[path f1] t].
  destruct (NewPCIDevice E path); reflexivity.
Qed.

Lemma Port_GetFME_cached E f fme :
  IntelFpgaPort.FME f = Some fme ->
  IntelFpgaPort.GetFME E f = (Ok fme, f, []).
Proof.
  intros H. unfold IntelFpgaPort.GetFME. run. rewrite H. reflexivity.
Qed.

(** The constructor leaves the caller's object alone. *)
Lemma NewIntelFpgaFME_frame {S} dev E (s : S) :
  state_of (NewIntelFpgaFME dev E s) = s.
Proof.
  unfold NewIntelFpgaFME, state_of. run.
  destruct (checkPCIDeviceType _ _ E _) as [[[e|] fme] t]; [reflexivity |].
  destruct (IntelFpgaFME.updateProperties E fme) as [[[e|] fme'] t'];
    reflexivity.
Qed.

(** [GetFME] without a cached FME, step by step. *)
Lemma Port_GetFME_resolve E f :
  IntelFpgaPort.FME f = None ->
  IntelFpgaPort.GetFME E f =
    let '(r, f1, t1) := IntelFpgaPort.GetPCIDevice E f in
    match r with
    | Err e => (Err e, f1, t1)
    | Ok p =>
        let dir := filepath.Join [pci.SysFsPath (IntelFpgaPort.fmeHost p);
                                  intelFpgaFmeGlobPCI] in
        let '(w, err) := readFilesInDirectory E ["dev"] dir in
        match err with
        | Some e => (Err e, f1, t1 ++ [EvReadFiles ["dev"] dir])
        | None =>
            let link := filepath.Join ["/dev/char"; stored (w "dev") ""] in
            match EvalSymlinks E link with
            | Err e => (Err e, f1, t1 ++ [EvReadFiles ["dev"] dir; EvEvalSymlinks link])
            | Ok realDev =>
                let '(r, _, t3) := NewIntelFpgaFME realDev E f1 in
                match r with
                | Err e =>
                    (Err e, f1,
                     t1 ++ [EvReadFiles ["dev"] dir; EvEvalSymlinks link] ++ t3)
                | Ok fme =>
                    (Ok fme, IntelFpgaPort.set_FME (Some fme) f1,
                     t1 ++ [EvReadFiles ["dev"] dir; EvEvalSymlinks link] ++ t3)
                end
            end
        end
    end.
Proof.
  intros H. unfold IntelFpgaPort.GetFME. run. rewrite H.
  destruct (IntelFpgaPort.GetPCIDevice E f) as [[[p|e] f1] t1];
    [| rewrite app_nil_r; reflexivity].
  destruct (readFilesInDirectory E _ _) as [w [e|]]; [reflexivity |].
  destruct (EvalSymlinks E _) as [realDev|e]; [| reflexivity].
  pose proof (NewIntelFpgaFME_frame realDev E f1) as Hs.
  destruct (NewIntelFpgaFME realDev E f1) as [[[fme|e] s] t3];
    unfold state_of in Hs; simpl in Hs; subst s;
    rewrite ?app_nil_r; reflexivity.
Qed.

Lemma Port_GetFME_stored E f fme f' t :
  IntelFpgaPort.GetFME E f = (Ok fme, f', t) ->
  IntelFpgaPort.FME f' = Some fme.
Proof.
  destruct (IntelFpgaPort.FME f) as [fme0|] eqn:Hf.
  - rewrite (Port_GetFME_cached _ _ _ Hf). intros [= <- <- <-]. exact Hf.
  - rewrite Port_GetFME_resolve by exact Hf.
    destruct (IntelFpgaPort.GetPCIDevice E f) as [[[p|e] f1] t1]; [| discriminate].
    cbv zeta.
    destruct (readFilesInDirectory E _ _) as [w [e|]]; [discriminate |].
    destruct (EvalSymlinks E _) as [realDev|e]; [| discriminate].
    destruct (NewIntelFpgaFME realDev E f1) as [[[fme1|e] s] t3]; [| discriminate].
    intros [= <- <- <-]. reflexivity.
Qed.

Lemma Port_GetFME_memoized : memoized IntelFpgaPort.GetFME is_ok.
Proof.
  intros E f a f' t Hrun Ha E'.
  destruct a as [fme|e]; [| contradiction].
  apply Port_GetFME_cached. eapply Port_GetFME_stored. exact Hrun.
Qed.

(** ** The failure paths of the numeric accessors *)

Lemma FME_GetSocketID_run E f :
  IntelFpgaFME.GetSocketID E f =
    (if is_empty (IntelFpgaFME.SocketID f) then (MaxUint32, Some (Errorf "n/a"))
     else (uint32 (fst (strconv.ParseUint10 (IntelFpgaFME.SocketID f) 32)),
           snd (strconv.ParseUint10 (IntelFpgaFME.SocketID f) 32)),
     f, []).
Proof.
  unfold IntelFpgaFME.GetSocketID. run.
  destruct (is_empty _); [reflexivity |].
  destruct (strconv.ParseUint10 _ 32); reflexivity.
Qed.

Lemma FME_GetSocketID_zero E f :
  value_of (IntelFpgaFME.GetSocketID E f) = (0, None) ->
  IntelFpgaFME.SocketID f <> "" /\
  all_zero_digits (IntelFpgaFME.SocketID f) = true /\
  strconv.ParseUint10 (IntelFpgaFME.SocketID f) 32 = (0, None).
Proof.
  rewrite FME_GetSocketID_run. unfold value_of. cbn [fst].
  destruct (is_empty (IntelFpgaFME.SocketID f)) eqn:He; [discriminate |].
  destruct (strconv.ParseUint10 (IntelFpgaFME.SocketID f) 32) as [n err] eqn:Hp.
  cbn [fst snd]. intros [= Hn ->].
  destruct (ParseUint10_ok _ _ Hp) as (Hne & Hr & Hz).
  rewrite uint32_small in Hn by exact Hr. subst n.
  repeat split; [exact Hne | apply Hz; reflexivity].
Qed.

(** C4: on an FME whose [SocketID] is the empty string, [GetSocketID]
    returns [math.MaxUint32] together with the error "n/a", reads nothing
    and leaves the object as it is; and whenever [GetSocketID] returns the
    id 0 with a nil error, the stored attribute is a non-empty string of
    decimal zeros that [strconv.ParseUint] converts to 0. *)
Theorem C4_GetSocketID_unset_is_unavailable (E : Env) (f : IntelFpgaFME.t) :
  (IntelFpgaFME.SocketID f = "" ->
     IntelFpgaFME.GetSocketID E f = ((MaxUint32, Some (Errorf "n/a")), f, [])
     /\ MaxUint32 <> 0) /\
  (value_of (IntelFpgaFME.GetSocketID E f) = (0, None) ->
     IntelFpgaFME.SocketID f <> "" /\
     all_zero_digits (IntelFpgaFME.SocketID f) = true /\
     strconv.ParseUint10 (IntelFpgaFME.SocketID f) 32 = (0, None)).
Proof.
  split.
  - intros H. apply is_empty_true in H. rewrite FME_GetSocketID_run, H.
    split; [reflexivity | discriminate].
  - apply FME_GetSocketID_zero.
Qed.

Lemma C4_witness :
  IntelFpgaFME.GetSocketID sample.envGone sample.freshFME
    = ((MaxUint32, Some (Errorf "n/a")), sample.freshFME, [])
  /\ all_zero_digits (IntelFpgaFME.SocketID sample.openedFME) = true.
Proof.
  split.
  - apply (proj1 (C4_GetSocketID_unset_is_unavailable sample.envGone sample.freshFME)).
    reflexivity.
  - apply (proj2 (C4_GetSocketID_unset_is_unavailable sample.env sample.openedFME)).
    reflexivity.
Defined.

Lemma FME_GetPortsNum_run E f :
  IntelFpgaFME.GetPortsNum E f =
    let '(err, f1, t) :=
      if is_empty (IntelFpgaFME.PortsNum f)
      then IntelFpgaFME.updateProperties E f else (None, f, []) in
    (match err with
     | Some _ => -1
     | None =>
         match strconv.ParseUint10 (IntelFpgaFME.PortsNum f1) 32 with
         | (_, Some _) => -1
         | (n, None) => n
         end
     end, f1, t).
Proof.
  unfold IntelFpgaFME.GetPortsNum. run.
  destruct (is_empty _).
  - destruct (IntelFpgaFME.updateProperties E f) as [[[e|] f1] t].
    + rewrite app_nil_r. reflexivity.
    + destruct (strconv.ParseUint10 _ 32) as [n [k|]]; rewrite app_nil_r; reflexivity.
  - destruct (strconv.ParseUint10 _ 32) as [n [k|]]; reflexivity.
Qed.

Lemma Port_GetPortID_run E f :
  IntelFpgaPort.GetPortID E f =
    let '(err, f1, t) :=
      if is_empty (IntelFpgaPort.ID f)
      then IntelFpgaPort.updateProperties E f else (None, f, []) in
    (match err with
     | Some e => (MaxUint32, Some e)
     | None =>
         (uint32 (fst (strconv.ParseUint10 (IntelFpgaPort.ID f1) 32)),
          snd (strconv.ParseUint10 (IntelFpgaPort.ID f1) 32))
     end, f1, t).
Proof.
  unfold IntelFpgaPort.GetPortID. run.
  destruct (is_empty _).
  - destruct (IntelFpgaPort.updateProperties E f) as [[[e|] f1] t].
    + rewrite app_nil_r. reflexivity.
    + destruct (strconv.ParseUint10 _ 32) as [n err]; rewrite app_nil_r; reflexivity.
  - destruct (strconv.ParseUint10 _ 32) as [n err]; reflexivity.
Qed.

(** C9: in [GetPortsNum], [GetPortID] and [GetSocketID], when
    [strconv.ParseUint] fails on the stored attribute string the caller is
    told: [GetPortsNum] returns -1, [GetPortID] and [GetSocketID] return a
    non-nil error. None of them returns a plain zero (0, or 0 with a nil
    error) unless the stored string converts to 0. *)
Theorem C9_failed_conversion_is_reported (E : Env) :
  (forall f,
     snd (strconv.ParseUint10
            (IntelFpgaFME.PortsNum (state_of (IntelFpgaFME.GetPortsNum E f))) 32) <> None ->
     value_of (IntelFpgaFME.GetPortsNum E f) = -1) /\
  (forall f,
     snd (strconv.ParseUint10
            (IntelFpgaPort.ID (state_of (IntelFpgaPort.GetPortID E f))) 32) <> None ->
     snd (value_of (IntelFpgaPort.GetPortID E f)) <> None) /\
  (forall f,
     snd (strconv.ParseUint10 (IntelFpgaFME.SocketID f) 32) <> None ->
     snd (value_of (IntelFpgaFME.GetSocketID E f)) <> None) /\
  (forall f,
     value_of (IntelFpgaFME.GetPortsNum E f) = 0 ->
     strconv.ParseUint10
       (IntelFpgaFME.PortsNum (state_of (IntelFpgaFME.GetPortsNum E f))) 32 = (0, None)) /\
  (forall f,
     value_of (IntelFpgaPort.GetPortID E f) = (0, None) ->
     strconv.ParseUint10
       (IntelFpgaPort.ID (state_of (IntelFpgaPort.GetPortID E f))) 32 = (0, None)) /\
  (forall f,
     value_of (IntelFpgaFME.GetSocketID E f) = (0, None) ->
     strconv.ParseUint10 (IntelFpgaFME.SocketID f) 32 = (0, None)).
Proof.
  unfold value_of, state_of. repeat split; intros f.
  - rewrite FME_GetPortsNum_run.
    destruct (if is_empty _ then _ else _) as [[[e|] f1] t]; cbn [fst snd];
      [reflexivity |].
    destruct (strconv.ParseUint10 _ 32) as [n [k|]]; cbn [snd];
      [reflexivity | congruence].
  - rewrite Port_GetPortID_run.
    destruct (if is_empty _ then _ else _) as [[[e|] f1] t]; cbn [fst snd];
      [discriminate | tauto].
  - rewrite FME_GetSocketID_run. cbn [fst snd].
    destruct (is_empty _); cbn [snd]; [discriminate | tauto].
  - rewrite FME_GetPortsNum_run.
    destruct (if is_empty _ then _ else _) as [[[e|] f1] t]; cbn [fst snd];
      [discriminate |].
    destruct (strconv.ParseUint10 _ 32) as [n [k|]]; [discriminate |].
    intros ->. reflexivity.
  - rewrite Port_GetPortID_run.
    destruct (if is_empty _ then _ else _) as [[[e|] f1] t]; cbn [fst snd];
      [discriminate |].
    destruct (strconv.ParseUint10 (IntelFpgaPort.ID f1) 32) as [n err] eqn:Hp.
    cbn [fst snd]. intros [= Hn ->].
    destruct (ParseUint10_ok _ _ Hp) as (_ & Hr & _).
    rewrite uint32_small in Hn by exact Hr. subst n. reflexivity.
  - apply FME_GetSocketID_zero.
Qed.

Lemma C9_witness :
  value_of (IntelFpgaFME.GetPortsNum sample.env sample.garbledFME) = -1 /\
  snd (value_of (IntelFpgaPort.GetPortID sample.env sample.garbledPort)) <> None /\
  snd (value_of (IntelFpgaFME.GetSocketID sample.env sample.garbledFME)) <> None /\
  strconv.ParseUint10 (IntelFpgaFME.PortsNum sample.idleFME) 32 = (0, None) /\
  strconv.ParseUint10 (IntelFpgaPort.ID sample.openedPort) 32 = (0, None) /\
  strconv.ParseUint10 (IntelFpgaFME.SocketID sample.idleFME) 32 = (0, None).
Proof.
  destruct (C9_failed_conversion_is_reported sample.env)
    as (H1 & H2 & H3 & H4 & H5 & H6).
  repeat apply conj.
  - apply H1. vm_compute. discriminate.
  - apply H2. vm_compute. discriminate.
  - apply H3. vm_compute. discriminate.
  - apply (H4 sample.idleFME). reflexivity.
  - apply (H5 sample.openedPort). reflexivity.
  - apply (H6 sample.idleFME). reflexivity.
Defined.

(** ** Requests *)

(** C1: [PortPR] on a zero-length bitstream issues no ioctl and changes
    nothing, but it does not return an error either: taking the address of
    the first byte panics (index out of range), so no empty-payload error
    reaches the caller. *)
Theorem C1_PortPR_empty_bitstream_panics
    (L : Layout) (E : Env) (f : IntelFpgaFME.t) (port addr : Z) :
  IntelFpgaFME.PortPR port (mkSlice addr []) E f
    = (Panics "index out of range [0] with length 0", f, []).
Proof. reflexivity. Qed.

(** The structure-carrying requests and the argument-free ones. *)
Lemma FME_PortPR_run (L : Layout) E f port bs p :
  addr_of_first bs = Some p ->
  IntelFpgaFME.PortPR port bs E f =
    (Returns (snd (fst (ioctlDev E (IntelFpgaFME.DevPath f) FPGA_FME_PORT_PR
        (ArgFmePortPR (IntelFpgaFmePortPR.mk (uint32 (Sizeof SFmePortPR)) port
                         (uint32 (len bs)) (uint64 p)))))),
     f,
     [EvIoctl (IntelFpgaFME.DevPath f) FPGA_FME_PORT_PR
        (ArgFmePortPR (IntelFpgaFmePortPR.mk (uint32 (Sizeof SFmePortPR)) port
                         (uint32 (len bs)) (uint64 p)))]).
Proof.
  intros H. unfold IntelFpgaFME.PortPR. run. rewrite H.
  destruct (ioctlDev E _ _ _) as [[v err] out]. reflexivity.
Qed.

Lemma FME_PortRelease_run (L : Layout) E f port :
  IntelFpgaFME.PortRelease port E f =
    (snd (fst (ioctlDev E (IntelFpgaFME.DevPath f) FPGA_FME_PORT_RELEASE
        (ArgFmePortRelease
           (IntelFpgaFmePortRelease.mk (uint32 (Sizeof SFmePortRelease)) port)))),
     f,
     [EvIoctl (IntelFpgaFME.DevPath f) FPGA_FME_PORT_RELEASE
        (ArgFmePortRelease
           (IntelFpgaFmePortRelease.mk (uint32 (Sizeof SFmePortRelease)) port))]).
Proof.
  unfold IntelFpgaFME.PortRelease. run.
  destruct (ioctlDev E _ _ _) as [[v err] out]. reflexivity.
Qed.

Lemma FME_PortAssign_run (L : Layout) E f port :
  IntelFpgaFME.PortAssign port E f =
    (snd (fst (ioctlDev E (IntelFpgaFME.DevPath f) FPGA_FME_PORT_ASSIGN
        (ArgFmePortAssign
           (IntelFpgaFmePortAssign.mk (uint32 (Sizeof SFmePortAssign)) port)))),
     f,
     [EvIoctl (IntelFpgaFME.DevPath f) FPGA_FME_PORT_ASSIGN
        (ArgFmePortAssign
           (IntelFpgaFmePortAssign.mk (uint32 (Sizeof SFmePortAssign)) port))]).
Proof.
  unfold IntelFpgaFME.PortAssign. run.
  destruct (ioctlDev E _ _ _) as [[v err] out]. reflexivity.
Qed.

Lemma Port_PortGetInfo_log (L : Layout) E f :
  log_of (IntelFpgaPort.PortGetInfo E f) =
    [EvIoctl (IntelFpgaPort.DevPath f) FPGA_PORT_GET_INFO
       (ArgPortInfo (IntelFpgaPortInfo.mk (uint32 (Sizeof SPortInfo)) 0 0 0))].
Proof.
  unfold IntelFpgaPort.PortGetInfo, log_of. run.
  destruct (ioctlDev E _ _ _) as [[v [e|]] out]; reflexivity.
Qed.

Lemma Port_PortGetRegionInfo_log (L : Layout) E f index :
  log_of (IntelFpgaPort.PortGetRegionInfo index E f) =
    [EvIoctl (IntelFpgaPort.DevPath f) FPGA_PORT_GET_REGION_INFO
       (ArgPortRegionInfo
          (IntelFpgaPortRegionInfo.mk (uint32 (Sizeof SPortRegionInfo)) 0 index 0 0))].
Proof.
  unfold IntelFpgaPort.PortGetRegionInfo, log_of. run.
  destruct (ioctlDev E _ _ _) as [[v [e|]] out]; reflexivity.
Qed.

Lemma uint32_Sizeof (L : Layout) k :
  0 <= Sizeof k < 2 ^ 32 -> uint32 (Sizeof k) = Sizeof k.
Proof. intros H. unfold uint32. apply Z.mod_small. exact H. Qed.

(** C2, the claim at three requests of the sample system: [GetAPIVersion],
    [CheckExtension] and [PortReset] pass the argument 0, so their request
    is no structure and has no size header. *)
Lemma C2_zero_payload_requests_pass_no_structure :
  log_of (IntelFpgaFME.GetAPIVersion sample.env sample.openedFME)
    = [EvIoctl sample.fmeDev FPGA_GET_API_VERSION ArgNull] /\
  log_of (IntelFpgaFME.CheckExtension sample.env sample.openedFME)
    = [EvIoctl sample.fmeDev FPGA_CHECK_EXTENSION ArgNull] /\
  log_of (IntelFpgaPort.PortReset sample.env sample.openedPort)
    = [EvIoctl sample.portDev FPGA_PORT_RESET ArgNull] /\
  forallb (@sized_request sample.layout)
    (log_of (IntelFpgaFME.GetAPIVersion sample.env sample.openedFME)) = false /\
  forallb (@sized_request sample.layout)
    (log_of (IntelFpgaFME.CheckExtension sample.env sample.openedFME)) = false /\
  forallb (@sized_request sample.layout)
    (log_of (IntelFpgaPort.PortReset sample.env sample.openedPort)) = false.
Proof. repeat apply conj; reflexivity. Qed.

(** C2, amended: where the sizes of the request structures fit 32 bits,
    every request that carries a structure ([PortPR] on a non-empty
    bitstream, [PortRelease], [PortAssign], [PortGetInfo],
    [PortGetRegionInfo]) is one ioctl whose structure has, at the call,
    [Argsz] equal to the size of that structure; [GetAPIVersion],
    [CheckExtension] (FME and Port) and [PortReset] are one ioctl with the
    argument 0 and no structure. *)
Theorem C2_structure_requests_carry_their_size
    (L : Layout) (Hsz : forall k, 0 <= Sizeof k < 2 ^ 32) (E : Env) :
  (forall f port bs p, addr_of_first bs = Some p ->
     log_of (IntelFpgaFME.PortPR port bs E f) =
       [EvIoctl (IntelFpgaFME.DevPath f) FPGA_FME_PORT_PR
          (ArgFmePortPR (IntelFpgaFmePortPR.mk (Sizeof SFmePortPR) port
                           (uint32 (len bs)) (uint64 p)))]) /\
  (forall f port,
     log_of (IntelFpgaFME.PortRelease port E f) =
       [EvIoctl (IntelFpgaFME.DevPath f) FPGA_FME_PORT_RELEASE
          (ArgFmePortRelease (IntelFpgaFmePortRelease.mk (Sizeof SFmePortRelease) port))]) /\
  (forall f port,
     log_of (IntelFpgaFME.PortAssign port E f) =
       [EvIoctl (IntelFpgaFME.DevPath f) FPGA_FME_PORT_ASSIGN
          (ArgFmePortAssign (IntelFpgaFmePortAssign.mk (Sizeof SFmePortAssign) port))]) /\
  (forall f,
     log_of (IntelFpgaPort.PortGetInfo E f) =
       [EvIoctl (IntelFpgaPort.DevPath f) FPGA_PORT_GET_INFO
          (ArgPortInfo (IntelFpgaPortInfo.mk (Sizeof SPortInfo) 0 0 0))]) /\
  (forall f index,
     log_of (IntelFpgaPort.PortGetRegionInfo index E f) =
       [EvIoctl (IntelFpgaPort.DevPath f) FPGA_PORT_GET_REGION_INFO
          (ArgPortRegionInfo
             (IntelFpgaPortRegionInfo.mk (Sizeof SPortRegionInfo) 0 index 0 0))]) /\
  (forall f,
     log_of (IntelFpgaFME.GetAPIVersion E f)
       = [EvIoctl (IntelFpgaFME.DevPath f) FPGA_GET_API_VERSION ArgNull] /\
     log_of (IntelFpgaFME.CheckExtension E f)
       = [EvIoctl (IntelFpgaFME.DevPath f) FPGA_CHECK_EXTENSION ArgNull]) /\
  (forall f,
     log_of (IntelFpgaPort.GetAPIVersion E f)
       = [EvIoctl (IntelFpgaPort.DevPath f) FPGA_GET_API_VERSION ArgNull] /\
     log_of (IntelFpgaPort.CheckExtension E f)
       = [EvIoctl (IntelFpgaPort.DevPath f) FPGA_CHECK_EXTENSION ArgNull] /\
     log_of (IntelFpgaPort.PortReset E f)
       = [EvIoctl (IntelFpgaPort.DevPath f) FPGA_PORT_RESET ArgNull]).
Proof.
  repeat apply conj; intros; repeat apply conj.
  - rewrite (FME_PortPR_run L E f port bs p) by assumption.
    unfold log_of. cbn [snd]. rewrite uint32_Sizeof by apply Hsz. reflexivity.
  - rewrite FME_PortRelease_run. unfold log_of. cbn [snd].
    rewrite uint32_Sizeof by apply Hsz. reflexivity.
  - rewrite FME_PortAssign_run. unfold log_of. cbn [snd].
    rewrite uint32_Sizeof by apply Hsz. reflexivity.
  - rewrite Port_PortGetInfo_log, uint32_Sizeof by apply Hsz. reflexivity.
  - rewrite Port_PortGetRegionInfo_log, uint32_Sizeof by apply Hsz. reflexivity.
  - unfold IntelFpgaFME.GetAPIVersion. null_request.
  - unfold IntelFpgaFME.CheckExtension. null_request.
  - unfold IntelFpgaPort.GetAPIVersion. null_request.
  - unfold IntelFpgaPort.CheckExtension. null_request.
  - unfold IntelFpgaPort.PortReset. null_request.
Qed.

Lemma sample_layout_fits (k : StructKind) : 0 <= @Sizeof sample.layout k < 2 ^ 32.
Proof. destruct k; cbn; lia. Qed.

Lemma C2_witness :
  log_of (@IntelFpgaFME.PortPR sample.layout 0 sample.bitstream sample.env sample.openedFME)
    = [EvIoctl sample.fmeDev FPGA_FME_PORT_PR
         (ArgFmePortPR (IntelFpgaFmePortPR.mk 32 0 4 824633786368))] /\
  log_of (@IntelFpgaFME.PortRelease sample.layout 0 sample.env sample.openedFME)
    = [EvIoctl sample.fmeDev FPGA_FME_PORT_RELEASE
         (ArgFmePortRelease (IntelFpgaFmePortRelease.mk 12 0))].
Proof.
  destruct (C2_structure_requests_carry_their_size
              sample.layout sample_layout_fits sample.env) as (Hpr & Hrel & _).
  split.
  - apply (Hpr sample.openedFME 0 sample.bitstream 824633786368). reflexivity.
  - apply (Hrel sample.openedFME 0).
Defined.

(** ** Attribute reads *)

Lemma FME_GetInterfaceUUID_run E f :
  IntelFpgaFME.GetInterfaceUUID E f =
    let '(err, f1, t) :=
      if is_empty (IntelFpgaFME.CompatID f)
      then IntelFpgaFME.updateProperties E f else (None, f, []) in
    (match err with
     | Some _ => ""
     | None => IntelFpgaFME.CompatID f1
     end, f1, t).
Proof.
  unfold IntelFpgaFME.GetInterfaceUUID. run.
  destruct (is_empty _); [| reflexivity].
  destruct (IntelFpgaFME.updateProperties E f) as [[[e|] f1] t];
    rewrite app_nil_r; reflexivity.
Qed.

(** With the PCI device known, [updateProperties] is one read of the six
    attribute files under the FME directory of that device. *)
Lemma FME_updateProperties_read E f p :
  IntelFpgaFME.PCIDevice f = Some p ->
  IntelFpgaFME.updateProperties E f =
    let dir := filepath.Join [pci.SysFsPath p; intelFpgaFmeGlobPCI] in
    let '(w, err) := readFilesInDirectory E IntelFpgaFME.fileNames dir in
    (err, IntelFpgaFME.store_files w f, [EvReadFiles IntelFpgaFME.fileNames dir]).
Proof.
  intros H. unfold IntelFpgaFME.updateProperties.
  cbv beta iota zeta delta [bind].
  rewrite (FME_GetPCIDevice_cached E f p H). run.
  destruct (readFilesInDirectory E _ _) as [w err]. reflexivity.
Qed.

(** C3, the claim on a new FME of the sample system, where the attribute
    files are all readable: [GetBitstreamID], [GetBitstreamMetadata] and
    [GetSocketID] return at once, with the empty field or the error "n/a",
    and read nothing, whereas [GetInterfaceUUID] on the same object reads
    the files and returns the identifier. *)
Lemma C3_plain_getters_read_nothing :
  IntelFpgaFME.GetBitstreamID sample.env sample.freshFME
    = ("", sample.freshFME, []) /\
  IntelFpgaFME.GetBitstreamMetadata sample.env sample.freshFME
    = ("", sample.freshFME, []) /\
  IntelFpgaFME.GetSocketID sample.env sample.freshFME
    = ((MaxUint32, Some (Errorf "n/a")), sample.freshFME, []) /\
  value_of (IntelFpgaFME.GetInterfaceUUID sample.env sample.freshFME)
    = "ce489693-98f0-5f33-946d-560708be108a" /\
  reads (log_of (IntelFpgaFME.GetInterfaceUUID sample.env sample.freshFME))
    = ["/sys/devices/pci0000:5e/0000:5e:00.0/fpga/intel-fpga-dev.*/intel-fpga-fme.*"] /\
  IntelFpgaFME.BitstreamID
    (state_of (IntelFpgaFME.GetInterfaceUUID sample.env sample.freshFME))
    = "0x63000023b637277".
Proof. repeat apply conj; reflexivity. Qed.

(** C3, amended: [GetPortsNum] and [GetInterfaceUUID] run the attribute
    read ([updateProperties]) when their own field ([PortsNum],
    [CompatID]) is empty, and return -1 and [""] when it fails; with the
    field set they read nothing and leave the object as it is. The read,
    once the PCI device is known, is one pass over the six files.
    [GetBitstreamID] and [GetBitstreamMetadata] return the stored field
    and never read. [GetSocketID] never reads: with an empty [SocketID]
    it returns [math.MaxUint32] and the error "n/a". *)
Theorem C3_lazy_read_of_PortsNum_and_CompatID (E : Env) (f : IntelFpgaFME.t) :
  (IntelFpgaFME.PortsNum f = "" ->
     state_of (IntelFpgaFME.GetPortsNum E f) = state_of (IntelFpgaFME.updateProperties E f) /\
     log_of (IntelFpgaFME.GetPortsNum E f) = log_of (IntelFpgaFME.updateProperties E f) /\
     (value_of (IntelFpgaFME.updateProperties E f) <> None ->
        value_of (IntelFpgaFME.GetPortsNum E f) = -1)) /\
  (IntelFpgaFME.PortsNum f <> "" ->
     state_of (IntelFpgaFME.GetPortsNum E f) = f /\
     log_of (IntelFpgaFME.GetPortsNum E f) = []) /\
  (IntelFpgaFME.CompatID f = "" ->
     state_of (IntelFpgaFME.GetInterfaceUUID E f)
       = state_of (IntelFpgaFME.updateProperties E f) /\
     log_of (IntelFpgaFME.GetInterfaceUUID E f)
       = log_of (IntelFpgaFME.updateProperties E f) /\
     (value_of (IntelFpgaFME.updateProperties E f) <> None ->
        value_of (IntelFpgaFME.GetInterfaceUUID E f) = "") /\
     (value_of (IntelFpgaFME.updateProperties E f) = None ->
        value_of (IntelFpgaFME.GetInterfaceUUID E f)
          = IntelFpgaFME.CompatID (state_of (IntelFpgaFME.updateProperties E f)))) /\
  (IntelFpgaFME.CompatID f <> "" ->
     IntelFpgaFME.GetInterfaceUUID E f = (IntelFpgaFME.CompatID f, f, [])) /\
  (forall p, IntelFpgaFME.PCIDevice f = Some p ->
     log_of (IntelFpgaFME.updateProperties E f) =
       [EvReadFiles IntelFpgaFME.fileNames
          (filepath.Join [pci.SysFsPath p; intelFpgaFmeGlobPCI])]) /\
  IntelFpgaFME.GetBitstreamID E f = (IntelFpgaFME.BitstreamID f, f, []) /\
  IntelFpgaFME.GetBitstreamMetadata E f = (IntelFpgaFME.BitstreamMetadata f, f, []) /\
  state_of (IntelFpgaFME.GetSocketID E f) = f /\
  log_of (IntelFpgaFME.GetSocketID E f) = [] /\
  (IntelFpgaFME.SocketID f = "" ->
     value_of (IntelFpgaFME.GetSocketID E f) = (MaxUint32, Some (Errorf "n/a"))).
Proof.
  unfold value_of, state_of, log_of. repeat apply conj.
  - intros H. apply is_empty_true in H. rewrite FME_GetPortsNum_run, H.
    destruct (IntelFpgaFME.updateProperties E f) as [[[e|] f1] t]; cbn [fst snd];
      repeat apply conj; try reflexivity. congruence.
  - intros H. apply is_empty_false in H. rewrite FME_GetPortsNum_run, H.
    split; reflexivity.
  - intros H. apply is_empty_true in H. rewrite FME_GetInterfaceUUID_run, H.
    destruct (IntelFpgaFME.updateProperties E f) as [[[e|] f1] t]; cbn [fst snd];
      repeat apply conj; try reflexivity; congruence.
  - intros H. apply is_empty_false in H. rewrite FME_GetInterfaceUUID_run, H.
    reflexivity.
  - intros p H. rewrite (FME_updateProperties_read E f p H). cbv zeta.
    destruct (readFilesInDirectory E _ _) as [w err]. reflexivity.
  - reflexivity.
  - reflexivity.
  - rewrite FME_GetSocketID_run. reflexivity.
  - rewrite FME_GetSocketID_run. reflexivity.
  - intros H. apply is_empty_true in H. rewrite FME_GetSocketID_run, H. reflexivity.
Qed.

Lemma C3_witness :
  value_of (IntelFpgaFME.GetPortsNum sample.envGone sample.freshFME) = -1 /\
  log_of (IntelFpgaFME.GetPortsNum sample.env sample.openedFME) = [] /\
  value_of (IntelFpgaFME.GetInterfaceUUID sample.envGone sample.freshFME) = "" /\
  value_of (IntelFpgaFME.GetInterfaceUUID sample.env sample.freshFME)
    = IntelFpgaFME.CompatID
        (state_of (IntelFpgaFME.updateProperties sample.env sample.freshFME)) /\
  IntelFpgaFME.GetInterfaceUUID sample.envGone sample.openedFME
    = ("ce489693-98f0-5f33-946d-560708be108a", sample.openedFME, []) /\
  log_of (IntelFpgaFME.updateProperties sample.env sample.openedFME)
    = [EvReadFiles IntelFpgaFME.fileNames
         (filepath.Join [pci.SysFsPath sample.pf; intelFpgaFmeGlobPCI])] /\
  value_of (IntelFpgaFME.GetSocketID sample.env sample.freshFME)
    = (MaxUint32, Some (Errorf "n/a")).
Proof.
  destruct (C3_lazy_read_of_PortsNum_and_CompatID sample.envGone sample.freshFME)
    as (Hn & _ & Hc & _).
  destruct (C3_lazy_read_of_PortsNum_and_CompatID sample.env sample.openedFME)
    as (_ & Hn' & _ & _ & Hr & _).
  destruct (C3_lazy_read_of_PortsNum_and_CompatID sample.env sample.freshFME)
    as (_ & _ & Hc' & _ & _ & _ & _ & _ & _ & Hs).
  destruct (C3_lazy_read_of_PortsNum_and_CompatID sample.envGone sample.openedFME)
    as (_ & _ & _ & Hc'' & _).
  destruct (Hn eq_refl) as (_ & _ & Hn3).
  destruct (Hc eq_refl) as (_ & _ & Hc3 & _).
  destruct (Hc' eq_refl) as (_ & _ & _ & Hc4).
  repeat apply conj.
  - apply Hn3. vm_compute. discriminate.
  - apply Hn'. intros H. cbv in H. discriminate H.
  - apply Hc3. vm_compute. discriminate.
  - apply Hc4. reflexivity.
  - apply Hc''. intros H. cbv in H. discriminate H.
  - apply (Hr sample.pf). reflexivity.
  - apply Hs. reflexivity.
Defined.

(** ** Opening the FME of a Port *)

Lemma FME_GetSysFsPath_DevPath E f :
  IntelFpgaFME.DevPath (state_of (IntelFpgaFME.GetSysFsPath E f)) = IntelFpgaFME.DevPath f.
Proof.
  unfold state_of.
  destruct (String.eqb_spec (IntelFpgaFME.SysFsPath f) "") as [He|Hne].
  - rewrite FME_GetSysFsPath_resolve by exact He.
    destruct (FindSysFsDevice E _); reflexivity.
  - rewrite FME_GetSysFsPath_cached by exact Hne. reflexivity.
Qed.

Lemma FME_GetPCIDevice_DevPath E f :
  IntelFpgaFME.DevPath (state_of (IntelFpgaFME.GetPCIDevice E f)) = IntelFpgaFME.DevPath f.
Proof.
  destruct (IntelFpgaFME.PCIDevice f) as [p|] eqn:Hp.
  - rewrite (FME_GetPCIDevice_cached E f p Hp). reflexivity.
  - rewrite FME_GetPCIDevice_resolve by exact Hp.
    pose proof (FME_GetSysFsPath_DevPath E f) as H. unfold state_of in *.
    destruct (IntelFpgaFME.GetSysFsPath E f) as [[path f1] t].
    destruct (NewPCIDevice E path); exact H.
Qed.

Lemma FME_updateProperties_DevPath E f :
  IntelFpgaFME.DevPath (state_of (IntelFpgaFME.updateProperties E f))
    = IntelFpgaFME.DevPath f.
Proof.
  pose proof (FME_GetPCIDevice_DevPath E f) as H.
  unfold IntelFpgaFME.updateProperties, state_of in *. run.
  destruct (IntelFpgaFME.GetPCIDevice E f) as [[[p|e] f1] t]; cbn [fst snd] in *;
    [| exact H].
  destruct (readFilesInDirectory E _ _) as [w err]. exact H.
Qed.

(** An FME that the constructor returns has the device path it was
    opened at. *)
Lemma NewIntelFpgaFME_DevPath {S} dev E (s s' : S) fme t :
  NewIntelFpgaFME dev E s = (Ok fme, s', t) -> IntelFpgaFME.DevPath fme = dev.
Proof.
  unfold NewIntelFpgaFME, checkPCIDeviceType. run.
  pose proof (FME_GetPCIDevice_DevPath E (IntelFpgaFME.new dev)) as H1.
  unfold state_of in H1.
  destruct (IntelFpgaFME.GetPCIDevice E (IntelFpgaFME.new dev)) as [[[p|e] f1] t1];
    cbn [fst snd] in H1; [| discriminate].
  destruct (deviceClass E KindFME p); [discriminate |].
  pose proof (FME_updateProperties_DevPath E f1) as H2. unfold state_of in H2.
  destruct (IntelFpgaFME.updateProperties E f1) as [[[e|] f2] t2];
    cbn [fst snd] in H2; [discriminate |].
  intros [= <- _ _]. rewrite H2, H1. reflexivity.
Qed.

(** [GetPCIDevice] of a Port reads no attribute file. *)
Lemma Port_GetPCIDevice_reads E f :
  reads (log_of (IntelFpgaPort.GetPCIDevice E f)) = [].
Proof.
  unfold log_of.
  destruct (IntelFpgaPort.PCIDevice f) as [p|] eqn:Hp.
  - rewrite (Port_GetPCIDevice_cached E f p Hp). reflexivity.
  - rewrite Port_GetPCIDevice_resolve by exact Hp.
    destruct (String.eqb_spec (IntelFpgaPort.SysFsPath f) "") as [He|Hne].
    + rewrite Port_GetSysFsPath_resolve by exact He.
      destruct (FindSysFsDevice E _) as [sysfs|e];
        [destruct (NewPCIDevice E sysfs) | destruct (NewPCIDevice E "")];
        reflexivity.
    + rewrite Port_GetSysFsPath_cached by exact Hne.
      destruct (NewPCIDevice E _); reflexivity.
Qed.

(** C7: on a Port with no FME yet whose PCI device [p] has the physical
    function [pf], [GetFME] returns an FME exactly when these steps
    succeed, and then it is their result: the file "dev" is read in the
    FME directory under the sysfs path of [pf] (the only attribute read
    before the FME is opened, and not under the path of [p]), the name
    read is resolved by [EvalSymlinks] under "/dev/char", and an FME is
    opened with [NewIntelFpgaFME] at the resolved path, which is the
    device path of the FME returned and stored in the Port. *)
Theorem C7_GetFME_resolves_under_physical_function
    (E : Env) (f f1 : IntelFpgaPort.t) (p pf : pci.PCIDevice) (t1 : trace) :
  IntelFpgaPort.FME f = None ->
  IntelFpgaPort.GetPCIDevice E f = (Ok p, f1, t1) ->
  pci.PhysFn p = Some pf ->
  let dir := filepath.Join [pci.SysFsPath pf; intelFpgaFmeGlobPCI] in
  forall fme f' t,
    IntelFpgaPort.GetFME E f = (Ok fme, f', t) <->
    exists w t3,
      readFilesInDirectory E ["dev"] dir = (w, None) /\
      EvalSymlinks E (filepath.Join ["/dev/char"; stored (w "dev") ""])
        = Ok (IntelFpgaFME.DevPath fme) /\
      NewIntelFpgaFME (IntelFpgaFME.DevPath fme) E f1 = (Ok fme, f1, t3) /\
      f' = IntelFpgaPort.set_FME (Some fme) f1 /\
      t = t1 ++ [EvReadFiles ["dev"] dir;
                 EvEvalSymlinks (filepath.Join ["/dev/char"; stored (w "dev") ""])] ++ t3 /\
      reads t = dir :: reads t3.
Proof.
  intros Hf Hp Hpf dir fme f' t.
  rewrite Port_GetFME_resolve by exact Hf. rewrite Hp.
  unfold IntelFpgaPort.fmeHost. rewrite Hpf. fold dir. cbv zeta.
  assert (Hr : reads t1 = []).
  { pose proof (Port_GetPCIDevice_reads E f) as H. rewrite Hp in H. exact H. }
  assert (Hreads : forall l t3,
             reads (t1 ++ [EvReadFiles ["dev"] dir; EvEvalSymlinks l] ++ t3)
             = dir :: reads t3).
  { intros l t3. unfold reads. rewrite flat_map_app. fold (reads t1).
    rewrite Hr. reflexivity. }
  destruct (readFilesInDirectory E ["dev"] dir) as [w [e|]].
  { split; [discriminate | intros (w' & t3 & [=] & _)]. }
  destruct (EvalSymlinks E (filepath.Join ["/dev/char"; stored (w "dev") ""]))
    as [realDev|e] eqn:Hlink.
  2: { split; [discriminate |].
       intros (w' & t3 & [= <-] & Hl & _). rewrite Hlink in Hl. discriminate. }
  pose proof (NewIntelFpgaFME_frame realDev E f1) as Hfr. unfold state_of in Hfr.
  destruct (NewIntelFpgaFME realDev E f1) as [[[fme0|e] s] t3] eqn:Hnew;
    cbn [fst snd] in Hfr; subst s.
  - pose proof (NewIntelFpgaFME_DevPath _ _ _ _ _ _ Hnew) as Hdev.
    split.
    + intros [= <- <- <-]. exists w, t3. rewrite Hdev.
      repeat apply conj; try reflexivity; [exact Hlink | exact Hnew | apply Hreads].
    + intros (w' & t3' & [= <-] & Hl & Hn' & -> & -> & _).
      rewrite Hlink in Hl. injection Hl as ->.
      rewrite Hnew in Hn'. injection Hn' as <- <-. reflexivity.
  - split; [discriminate |].
    intros (w' & t3' & [= <-] & Hl & Hn' & _).
    rewrite Hlink in Hl. injection Hl as ->.
    rewrite Hnew in Hn'. discriminate.
Qed.

Lemma C7_witness :
  exists w t3,
    readFilesInDirectory sample.env ["dev"]
      (filepath.Join [pci.SysFsPath sample.pf; intelFpgaFmeGlobPCI]) = (w, None) /\
    EvalSymlinks sample.env (filepath.Join ["/dev/char"; stored (w "dev") ""])
      = Ok (IntelFpgaFME.DevPath sample.openedFME) /\
    NewIntelFpgaFME (IntelFpgaFME.DevPath sample.openedFME) sample.env sample.openedPort
      = (Ok sample.openedFME, sample.openedPort, t3) /\
    state_of (IntelFpgaPort.GetFME sample.env sample.openedPort)
      = IntelFpgaPort.set_FME (Some sample.openedFME) sample.openedPort /\
    log_of (IntelFpgaPort.GetFME sample.env sample.openedPort)
      = [] ++ [EvReadFiles ["dev"]
                 (filepath.Join [pci.SysFsPath sample.pf; intelFpgaFmeGlobPCI]);
               EvEvalSymlinks (filepath.Join ["/dev/char"; stored (w "dev") ""])] ++ t3 /\
    reads (log_of (IntelFpgaPort.GetFME sample.env sample.openedPort))
      = filepath.Join [pci.SysFsPath sample.pf; intelFpgaFmeGlobPCI] :: reads t3.
Proof.
  apply (proj1 (C7_GetFME_resolves_under_physical_function
                  sample.env sample.openedPort sample.openedPort sample.vf sample.pf []
                  eq_refl eq_refl eq_refl
                  sample.openedFME
                  (state_of (IntelFpgaPort.GetFME sample.env sample.openedPort))
                  (log_of (IntelFpgaPort.GetFME sample.env sample.openedPort)))).
  vm_compute. reflexivity.
Defined.

(** ** The caches over the life of an object *)

Lemma Port_set_FME_same f fme :
  IntelFpgaPort.FME f = Some fme -> IntelFpgaPort.set_FME (Some fme) f = f.
Proof. destruct f. cbn. intros ->. reflexivity. Qed.

Lemma FME_keeps_refl f : FME_keeps f f.
Proof. unfold FME_keeps. tauto. Qed.

Lemma FME_keeps_trans f g h : FME_keeps f g -> FME_keeps g h -> FME_keeps f h.
Proof.
  unfold FME_keeps. intros (Hd & Hs & Hn & Hp) (Hd' & Hs' & Hn' & Hp').
  repeat apply conj.
  - congruence.
  - intros H. rewrite <- (Hs H). apply Hs'. rewrite (Hs H). exact H.
  - intros H. rewrite <- (Hn H). apply Hn'. rewrite (Hn H). exact H.
  - intros p H. apply Hp'. apply Hp. exact H.
Qed.

Lemma FME_GetSysFsPath_keeps E f :
  FME_keeps f (state_of (IntelFpgaFME.GetSysFsPath E f)).
Proof.
  unfold state_of.
  destruct (String.eqb_spec (IntelFpgaFME.SysFsPath f) "") as [He|Hne].
  - rewrite FME_GetSysFsPath_resolve by exact He.
    destruct (FindSysFsDevice E _) as [sysfs|e]; [| apply FME_keeps_refl].
    unfold FME_keeps. cbn. repeat apply conj; try tauto.
  - rewrite FME_GetSysFsPath_cached by exact Hne. apply FME_keeps_refl.
Qed.

Lemma FME_GetName_keeps E f :
  FME_keeps f (state_of (IntelFpgaFME.GetName E f)).
Proof.
  destruct (String.eqb_spec (IntelFpgaFME.Name f) "") as [He|Hne].
  - rewrite FME_GetName_resolve by exact He.
    pose proof (FME_GetSysFsPath_keeps E f) as H. unfold state_of in *.
    destruct (IntelFpgaFME.GetSysFsPath E f) as [[p f1] t]. cbn [fst snd] in *.
    destruct H as (Hd & Hs & _ & Hp).
    unfold FME_keeps. cbn. repeat apply conj; [exact Hd | exact Hs | | exact Hp].
    intros Hn. contradiction.
  - rewrite FME_GetName_cached by exact Hne. apply FME_keeps_refl.
Qed.

Lemma FME_GetPCIDevice_keeps E f :
  FME_keeps f (state_of (IntelFpgaFME.GetPCIDevice E f)).
Proof.
  destruct (IntelFpgaFME.PCIDevice f) as [p|] eqn:Hp.
  - rewrite (FME_GetPCIDevice_cached E f p Hp). apply FME_keeps_refl.
  - rewrite FME_GetPCIDevice_resolve by exact Hp.
    pose proof (FME_GetSysFsPath_keeps E f) as H. unfold state_of in *.
    destruct (IntelFpgaFME.GetSysFsPath E f) as [[path f1] t]. cbn [fst snd] in *.
    destruct (NewPCIDevice E path) as [p|e]; [| exact H].
    destruct H as (Hd & Hs & Hn & _).
    unfold FME_keeps. cbn. repeat apply conj; [exact Hd | exact Hs | exact Hn |].
    intros q Hq. congruence.
Qed.

Lemma FME_store_files_keeps w f : FME_keeps f (IntelFpgaFME.store_files w f).
Proof. unfold FME_keeps. cbn. tauto. Qed.

Lemma FME_updateProperties_keeps E f :
  FME_keeps f (state_of (IntelFpgaFME.updateProperties E f)).
Proof.
  pose proof (FME_GetPCIDevice_keeps E f) as H.
  unfold IntelFpgaFME.updateProperties, state_of in *. run.
  destruct (IntelFpgaFME.GetPCIDevice E f) as [[[p|e] f1] t]; cbn [fst snd] in *;
    [| exact H].
  destruct (readFilesInDirectory E _ _) as [w err]. cbn [fst snd].
  eapply FME_keeps_trans; [exact H | apply FME_store_files_keeps].
Qed.

Lemma FME_GetPortsNum_keeps E f :
  FME_keeps f (state_of (IntelFpgaFME.GetPortsNum E f)).
Proof.
  rewrite FME_GetPortsNum_run.
  destruct (is_empty _); [| apply FME_keeps_refl].
  pose proof (FME_updateProperties_keeps E f) as H. unfold state_of in *.
  destruct (IntelFpgaFME.updateProperties E f) as [[err f1] t]. exact H.
Qed.

Lemma FME_GetInterfaceUUID_keeps E f :
  FME_keeps f (state_of (IntelFpgaFME.GetInterfaceUUID E f)).
Proof.
  rewrite FME_GetInterfaceUUID_run.
  destruct (is_empty _); [| apply FME_keeps_refl].
  pose proof (FME_updateProperties_keeps E f) as H. unfold state_of in *.
  destruct (IntelFpgaFME.updateProperties E f) as [[err f1] t]. exact H.
Qed.

(** The other methods of the FME leave the object as it is. *)
Lemma FME_after_keeps (L : Layout) c E f : FME_keeps f (FME_after c E f).
Proof.
  destruct c; cbn [FME_after].
  - apply FME_keeps_refl.
  - unfold IntelFpgaFME.GetAPIVersion, commonIntelFpgaGetAPIVersion, state_of. run.
    destruct (ioctlDev E _ _ _) as [[v err] out]. apply FME_keeps_refl.
  - unfold IntelFpgaFME.CheckExtension, commonIntelFpgaCheckExtension, state_of. run.
    destruct (ioctlDev E _ _ _) as [[v err] out]. apply FME_keeps_refl.
  - destruct (addr_of_first bitstream) as [a|] eqn:Ha.
    + rewrite (FME_PortPR_run L E f port bitstream a Ha). apply FME_keeps_refl.
    + unfold IntelFpgaFME.PortPR, state_of. run. rewrite Ha. apply FME_keeps_refl.
  - rewrite FME_PortRelease_run. apply FME_keeps_refl.
  - rewrite FME_PortAssign_run. apply FME_keeps_refl.
  - apply FME_keeps_refl.
  - apply FME_GetSysFsPath_keeps.
  - apply FME_GetName_keeps.
  - apply FME_GetPCIDevice_keeps.
  - apply FME_GetPortsNum_keeps.
  - apply FME_GetInterfaceUUID_keeps.
  - rewrite FME_GetSocketID_run. apply FME_keeps_refl.
  - apply FME_keeps_refl.
  - apply FME_keeps_refl.
  - apply FME_updateProperties_keeps.
Qed.

Lemma FME_life_keeps (L : Layout) cs : forall f, FME_keeps f (FME_life cs f).
Proof.
  induction cs as [|[E c] rest IH]; intros f; cbn [FME_life].
  - apply FME_keeps_refl.
  - eapply FME_keeps_trans; [apply FME_after_keeps | apply IH].
Qed.

Lemma Port_keeps_refl f : Port_keeps f f.
Proof.
  unfold Port_keeps. repeat apply conj; try tauto.
  intros fme H. exists fme. split; [exact H | apply FME_keeps_refl].
Qed.

Lemma Port_keeps_trans f g h : Port_keeps f g -> Port_keeps g h -> Port_keeps f h.
Proof.
  unfold Port_keeps. intros (Hd & Hs & Hn & Hp & Hf) (Hd' & Hs' & Hn' & Hp' & Hf').
  repeat apply conj.
  - congruence.
  - intros H. rewrite <- (Hs H). apply Hs'. rewrite (Hs H). exact H.
  - intros H. rewrite <- (Hn H). apply Hn'. rewrite (Hn H). exact H.
  - intros p H. apply Hp'. apply Hp. exact H.
  - intros fme H. destruct (Hf fme H) as (fme1 & H1 & K1).
    destruct (Hf' fme1 H1) as (fme2 & H2 & K2).
    exists fme2. split; [exact H2 | exact (FME_keeps_trans _ _ _ K1 K2)].
Qed.

(** A step that leaves the FME field alone and keeps the caches. *)
Lemma Port_keeps_same_FME f f' :
  IntelFpgaPort.FME f' = IntelFpgaPort.FME f ->
  IntelFpgaPort.DevPath f' = IntelFpgaPort.DevPath f ->
  (IntelFpgaPort.SysFsPath f <> "" ->
     IntelFpgaPort.SysFsPath f' = IntelFpgaPort.SysFsPath f) ->
  (IntelFpgaPort.Name f <> "" -> IntelFpgaPort.Name f' = IntelFpgaPort.Name f) ->
  (forall p, IntelFpgaPort.PCIDevice f = Some p -> IntelFpgaPort.PCIDevice f' = Some p) ->
  Port_keeps f f'.
Proof.
  intros Hf Hd Hs Hn Hp. unfold Port_keeps. repeat apply conj; try assumption.
  intros fme H. exists fme. rewrite Hf. split; [exact H | apply FME_keeps_refl].
Qed.

Lemma Port_set_FME_keeps f fme fme' :
  IntelFpgaPort.FME f = Some fme -> FME_keeps fme fme' ->
  Port_keeps f (IntelFpgaPort.set_FME (Some fme') f).
Proof.
  intros Hf K. unfold Port_keeps. cbn. repeat apply conj; try tauto.
  intros fme0 H0. exists fme'. split; [reflexivity |]. congruence.
Qed.

Lemma Port_GetSysFsPath_keeps E f :
  Port_keeps f (state_of (IntelFpgaPort.GetSysFsPath E f)) /\
  IntelFpgaPort.FME (state_of (IntelFpgaPort.GetSysFsPath E f)) = IntelFpgaPort.FME f.
Proof.
  unfold state_of.
  destruct (String.eqb_spec (IntelFpgaPort.SysFsPath f) "") as [He|Hne].
  - rewrite Port_GetSysFsPath_resolve by exact He.
    destruct (FindSysFsDevice E _) as [sysfs|e];
      [| split; [apply Port_keeps_refl | reflexivity]].
    split; [| reflexivity].
    apply Port_keeps_same_FME; cbn; try tauto.
  - rewrite Port_GetSysFsPath_cached by exact Hne.
    split; [apply Port_keeps_refl | reflexivity].
Qed.

Lemma Port_GetName_keeps E f :
  Port_keeps f (state_of (IntelFpgaPort.GetName E f)).
Proof.
  destruct (String.eqb_spec (IntelFpgaPort.Name f) "") as [He|Hne].
  - rewrite Port_GetName_resolve by exact He.
    destruct (Port_GetSysFsPath_keeps E f) as [H Hf]. unfold state_of in *.
    destruct (IntelFpgaPort.GetSysFsPath E f) as [[p f1] t]. cbn [fst snd] in *.
    destruct H as (Hd & Hs & _ & Hp & _).
    apply Port_keeps_same_FME; cbn; try assumption. intros Hn. contradiction.
  - rewrite Port_GetName_cached by exact Hne. apply Port_keeps_refl.
Qed.

Lemma Port_GetPCIDevice_keeps E f :
  Port_keeps f (state_of (IntelFpgaPort.GetPCIDevice E f)) /\
  IntelFpgaPort.FME (state_of (IntelFpgaPort.GetPCIDevice E f)) = IntelFpgaPort.FME f.
Proof.
  destruct (IntelFpgaPort.PCIDevice f) as [p|] eqn:Hp.
  - rewrite (Port_GetPCIDevice_cached E f p Hp).
    split; [apply Port_keeps_refl | reflexivity].
  - rewrite Port_GetPCIDevice_resolve by exact Hp.
    destruct (Port_GetSysFsPath_keeps E f) as [H Hf]. unfold state_of in *.
    destruct (IntelFpgaPort.GetSysFsPath E f) as [[path f1] t]. cbn [fst snd] in *.
    destruct (NewPCIDevice E path) as [p|e]; [| split; assumption].
    cbn [fst snd]. split; [| exact Hf].
    destruct H as (Hd & Hs & Hn & _ & _).
    apply Port_keeps_same_FME; cbn; try assumption. intros q Hq. congruence.
Qed.

Lemma Port_updateProperties_keeps E f :
  Port_keeps f (state_of (IntelFpgaPort.updateProperties E f)).
Proof.
  destruct (Port_GetSysFsPath_keeps E f) as [H Hf].
  unfold IntelFpgaPort.updateProperties, state_of in *. run.
  destruct (IntelFpgaPort.GetSysFsPath E f) as [[dir f1] t]. cbn [fst snd] in *.
  destruct (readFilesInDirectory E _ _) as [w err]. cbn [fst snd].
  eapply Port_keeps_trans; [exact H |].
  apply Port_keeps_same_FME; cbn; tauto.
Qed.

Lemma Port_GetFME_keeps E f :
  Port_keeps f (state_of (IntelFpgaPort.GetFME E f)).
Proof.
  destruct (IntelFpgaPort.FME f) as [fme|] eqn:Hf.
  - rewrite (Port_GetFME_cached E f fme Hf). apply Port_keeps_refl.
  - rewrite Port_GetFME_resolve by exact Hf.
    destruct (Port_GetPCIDevice_keeps E f) as [H Hf1]. unfold state_of in *.
    destruct (IntelFpgaPort.GetPCIDevice E f) as [[[p|e] f1] t1]; cbn [fst snd] in *;
      [| exact H].
    cbv zeta.
    destruct (readFilesInDirectory E _ _) as [w [e|]]; [exact H |].
    destruct (EvalSymlinks E _) as [realDev|e]; [| exact H].
    destruct (NewIntelFpgaFME realDev E f1) as [[[fme|e] s] t3]; [| exact H].
    cbn [fst snd]. destruct H as (Hd & Hs & Hn & Hp & _).
    unfold Port_keeps. cbn. repeat apply conj; try assumption.
    intros fme0 H0. congruence.
Qed.

Lemma Port_Close_run E f :
  IntelFpgaPort.Close E f =
    (None, f,
     match IntelFpgaPort.FME f with
     | Some fme => [EvFMEClose (IntelFpgaFME.DevPath fme)]
     | None => []
     end).
Proof.
  unfold IntelFpgaPort.Close, IntelFpgaPort.onFME, IntelFpgaFME.Close. run.
  destruct f as [[fme|] d s n p dv a i]; reflexivity.
Qed.

Lemma Port_GetInterfaceUUID_keeps E f :
  Port_keeps f (state_of (IntelFpgaPort.GetInterfaceUUID E f)).
Proof.
  pose proof (Port_GetFME_keeps E f) as H.
  unfold IntelFpgaPort.GetInterfaceUUID, IntelFpgaPort.onFME, IntelFpgaFME.Close,
    state_of in *.
  cbv beta iota zeta delta [bind].
  destruct (IntelFpgaPort.GetFME E f) as [[[fme|e] f1] t1] eqn:Hg; cbn [fst snd] in *;
    [| exact H].
  apply Port_GetFME_stored in Hg.
  pose proof (FME_GetInterfaceUUID_keeps E fme) as K.
  unfold state_of in K. run.
  destruct (IntelFpgaFME.GetInterfaceUUID E fme) as [[id fme'] t2]. cbn [fst snd] in *.
  eapply Port_keeps_trans; [exact H |].
  replace (IntelFpgaPort.set_FME (Some fme') (IntelFpgaPort.set_FME (Some fme') f1))
    with (IntelFpgaPort.set_FME (Some fme') f1) by reflexivity.
  apply (Port_set_FME_keeps f1 fme fme' Hg K).
Qed.

Lemma Port_after_keeps (L : Layout) c E f : Port_keeps f (Port_after c E f).
Proof.
  destruct c; cbn [Port_after].
  - rewrite Port_Close_run. apply Port_keeps_refl.
  - unfold IntelFpgaPort.GetAPIVersion, commonIntelFpgaGetAPIVersion, state_of. run.
    destruct (ioctlDev E _ _ _) as [[v err] out]. apply Port_keeps_refl.
  - unfold IntelFpgaPort.CheckExtension, commonIntelFpgaCheckExtension, state_of. run.
    destruct (ioctlDev E _ _ _) as [[v err] out]. apply Port_keeps_refl.
  - unfold IntelFpgaPort.PortReset, state_of. run.
    destruct (ioctlDev E _ _ _) as [[v err] out]. apply Port_keeps_refl.
  - unfold IntelFpgaPort.PortGetInfo, state_of. run.
    destruct (ioctlDev E _ _ _) as [[v [e|]] out]; apply Port_keeps_refl.
  - unfold IntelFpgaPort.PortGetRegionInfo, state_of. run.
    destruct (ioctlDev E _ _ _) as [[v [e|]] out]; apply Port_keeps_refl.
  - apply Port_keeps_refl.
  - apply Port_GetSysFsPath_keeps.
  - apply Port_GetName_keeps.
  - apply Port_GetPCIDevice_keeps.
  - apply Port_GetFME_keeps.
  - rewrite Port_GetPortID_run.
    destruct (is_empty _); [| apply Port_keeps_refl].
    pose proof (Port_updateProperties_keeps E f) as H. unfold state_of in *.
    destruct (IntelFpgaPort.updateProperties E f) as [[[e|] f1] t]; exact H.
  - pose proof (Port_updateProperties_keeps E f) as H.
    unfold IntelFpgaPort.GetAcceleratorTypeUUID, state_of in *. run.
    destruct (IntelFpgaPort.updateProperties E f) as [[[e|] f1] t]; cbn [fst snd] in *;
      [exact H |].
    destruct (is_empty _); exact H.
  - apply Port_GetInterfaceUUID_keeps.
  - apply Port_updateProperties_keeps.
  - destruct (IntelFpgaPort.FME f) as [fme|] eqn:Hf; [| apply Port_keeps_refl].
    apply (Port_set_FME_keeps f fme _ Hf). apply FME_after_keeps.
Qed.

Lemma Port_life_keeps (L : Layout) cs : forall f, Port_keeps f (Port_life cs f).
Proof.
  induction cs as [|[E c] rest IH]; intros f; cbn [Port_life].
  - apply Port_keeps_refl.
  - eapply Port_keeps_trans; [apply Port_after_keeps | apply IH].
Qed.

(** What a successful call returns is what the cache then holds. *)
Lemma FME_GetSysFsPath_stored E f a f' t :
  IntelFpgaFME.GetSysFsPath E f = (a, f', t) -> a <> "" ->
  IntelFpgaFME.SysFsPath f' = a.
Proof.
  destruct (String.eqb_spec (IntelFpgaFME.SysFsPath f) "") as [He|Hne].
  - rewrite FME_GetSysFsPath_resolve by exact He.
    destruct (FindSysFsDevice E _) as [sysfs|e]; intros [= <- <- <-] Ha;
      [reflexivity | contradiction].
  - rewrite FME_GetSysFsPath_cached by exact Hne. intros [= <- <- <-] _. reflexivity.
Qed.

Lemma FME_GetName_stored E f a f' t :
  IntelFpgaFME.GetName E f = (a, f', t) -> IntelFpgaFME.Name f' = a /\ a <> "".
Proof.
  destruct (String.eqb_spec (IntelFpgaFME.Name f) "") as [He|Hne].
  - rewrite FME_GetName_resolve by exact He.
    destruct (IntelFpgaFME.GetSysFsPath E f) as [[p f1] t1].
    intros [= <- <- <-]. split; [reflexivity | apply Base_not_empty].
  - rewrite FME_GetName_cached by exact Hne. intros [= <- <- <-].
    split; [reflexivity | exact Hne].
Qed.

Lemma FME_GetPCIDevice_stored E f p f' t :
  IntelFpgaFME.GetPCIDevice E f = (Ok p, f', t) -> IntelFpgaFME.PCIDevice f' = Some p.
Proof.
  destruct (IntelFpgaFME.PCIDevice f) as [q|] eqn:Hq.
  - rewrite (FME_GetPCIDevice_cached E f q Hq). intros [= <- <- <-]. exact Hq.
  - rewrite FME_GetPCIDevice_resolve by exact Hq.
    destruct (IntelFpgaFME.GetSysFsPath E f) as [[path f1] t1].
    destruct (NewPCIDevice E path) as [q|e]; [| discriminate].
    intros [= <- <- <-]. reflexivity.
Qed.

Lemma Port_GetSysFsPath_stored E f a f' t :
  IntelFpgaPort.GetSysFsPath E f = (a, f', t) -> a <> "" ->
  IntelFpgaPort.SysFsPath f' = a.
Proof.
  destruct (String.eqb_spec (IntelFpgaPort.SysFsPath f) "") as [He|Hne].
  - rewrite Port_GetSysFsPath_resolve by exact He.
    destruct (FindSysFsDevice E _) as [sysfs|e]; intros [= <- <- <-] Ha;
      [reflexivity | contradiction].
  - rewrite Port_GetSysFsPath_cached by exact Hne. intros [= <- <- <-] _. reflexivity.
Qed.

Lemma Port_GetName_stored E f a f' t :
  IntelFpgaPort.GetName E f = (a, f', t) -> IntelFpgaPort.Name f' = a /\ a <> "".
Proof.
  destruct (String.eqb_spec (IntelFpgaPort.Name f) "") as [He|Hne].
  - rewrite Port_GetName_resolve by exact He.
    destruct (IntelFpgaPort.GetSysFsPath E f) as [[p f1] t1].
    intros [= <- <- <-]. split; [reflexivity | apply Base_not_empty].
  - rewrite Port_GetName_cached by exact Hne. intros [= <- <- <-].
    split; [reflexivity | exact Hne].
Qed.

Lemma Port_GetPCIDevice_stored E f p f' t :
  IntelFpgaPort.GetPCIDevice E f = (Ok p, f', t) -> IntelFpgaPort.PCIDevice f' = Some p.
Proof.
  destruct (IntelFpgaPort.PCIDevice f) as [q|] eqn:Hq.
  - rewrite (Port_GetPCIDevice_cached E f q Hq). intros [= <- <- <-]. exact Hq.
  - rewrite Port_GetPCIDevice_resolve by exact Hq.
    destruct (IntelFpgaPort.GetSysFsPath E f) as [[path f1] t1].
    destruct (NewPCIDevice E path) as [q|e]; [| discriminate].
    intros [= <- <- <-]. reflexivity.
Qed.

Section ForLife.
Context (L : Layout).

Lemma FME_GetSysFsPath_for_life :
  memoized_for_life FME_life IntelFpgaFME.GetSysFsPath (fun p => p <> "").
Proof.
  intros E f a f' t Hrun Ha cs E'.
  pose proof (FME_GetSysFsPath_stored _ _ _ _ _ Hrun Ha) as Hst.
  destruct (FME_life_keeps L cs f') as (_ & Hs & _).
  rewrite Hst in Hs. specialize (Hs Ha).
  rewrite FME_GetSysFsPath_cached; rewrite Hs; [reflexivity | exact Ha].
Qed.

Lemma FME_GetName_for_life :
  memoized_for_life FME_life IntelFpgaFME.GetName (fun _ => True).
Proof.
  intros E f a f' t Hrun _ cs E'.
  destruct (FME_GetName_stored _ _ _ _ _ Hrun) as [Hst Ha].
  destruct (FME_life_keeps L cs f') as (_ & _ & Hn & _).
  rewrite Hst in Hn. specialize (Hn Ha).
  rewrite FME_GetName_cached; rewrite Hn; [reflexivity | exact Ha].
Qed.

Lemma FME_GetPCIDevice_for_life :
  memoized_for_life FME_life IntelFpgaFME.GetPCIDevice is_ok.
Proof.
  intros E f a f' t Hrun Ha cs E'. destruct a as [p|e]; [| contradiction].
  pose proof (FME_GetPCIDevice_stored _ _ _ _ _ Hrun) as Hst.
  destruct (FME_life_keeps L cs f') as (_ & _ & _ & Hp).
  apply FME_GetPCIDevice_cached. apply Hp. exact Hst.
Qed.

Lemma Port_GetSysFsPath_for_life :
  memoized_for_life Port_life IntelFpgaPort.GetSysFsPath (fun p => p <> "").
Proof.
  intros E f a f' t Hrun Ha cs E'.
  pose proof (Port_GetSysFsPath_stored _ _ _ _ _ Hrun Ha) as Hst.
  destruct (Port_life_keeps L cs f') as (_ & Hs & _).
  rewrite Hst in Hs. specialize (Hs Ha).
  rewrite Port_GetSysFsPath_cached; rewrite Hs; [reflexivity | exact Ha].
Qed.

Lemma Port_GetName_for_life :
  memoized_for_life Port_life IntelFpgaPort.GetName (fun _ => True).
Proof.
  intros E f a f' t Hrun _ cs E'.
  destruct (Port_GetName_stored _ _ _ _ _ Hrun) as [Hst Ha].
  destruct (Port_life_keeps L cs f') as (_ & _ & Hn & _).
  rewrite Hst in Hn. specialize (Hn Ha).
  rewrite Port_GetName_cached; rewrite Hn; [reflexivity | exact Ha].
Qed.

Lemma Port_GetPCIDevice_for_life :
  memoized_for_life Port_life IntelFpgaPort.GetPCIDevice is_ok.
Proof.
  intros E f a f' t Hrun Ha cs E'. destruct a as [p|e]; [| contradiction].
  pose proof (Port_GetPCIDevice_stored _ _ _ _ _ Hrun) as Hst.
  destruct (Port_life_keeps L cs f') as (_ & _ & _ & Hp & _).
  apply Port_GetPCIDevice_cached. apply Hp. exact Hst.
Qed.

(** The FME of a Port, once resolved, is the one [GetFME] returns from
    then on: the same FME, later in its life. *)
Lemma Port_GetFME_for_life E f fme f' t :
  IntelFpgaPort.GetFME E f = (Ok fme, f', t) ->
  forall cs E', exists fme',
    IntelFpgaPort.GetFME E' (Port_life cs f') = (Ok fme', Port_life cs f', []) /\
    FME_keeps fme fme'.
Proof.
  intros Hrun cs E'. apply Port_GetFME_stored in Hrun.
  destruct (Port_life_keeps L cs f') as (_ & _ & _ & _ & Hf).
  destruct (Hf fme Hrun) as (fme' & Hf' & K).
  exists fme'. split; [apply Port_GetFME_cached; exact Hf' | exact K].
Qed.

End ForLife.

(** C8: on an FME and on a Port, [GetSysFsPath], [GetName] and
    [GetPCIDevice] answer from the object's cache for the rest of its
    life: once a call has resolved its value (a non-empty sysfs path, a
    name, a PCI device), then after any series of method calls on the
    object, whatever the system has become, the accessor returns that
    same value, leaves the object unchanged and calls no collaborator
    again. The same holds for [GetFME] on a Port: it keeps returning the
    FME it resolved (the same device, with every cache it had filled),
    and a call right after the resolution returns it as it was. *)
Theorem C8_resolved_values_are_memoized (L : Layout) :
  memoized_for_life FME_life IntelFpgaFME.GetSysFsPath (fun p => p <> "") /\
  memoized_for_life FME_life IntelFpgaFME.GetName (fun _ => True) /\
  memoized_for_life FME_life IntelFpgaFME.GetPCIDevice is_ok /\
  memoized_for_life Port_life IntelFpgaPort.GetSysFsPath (fun p => p <> "") /\
  memoized_for_life Port_life IntelFpgaPort.GetName (fun _ => True) /\
  memoized_for_life Port_life IntelFpgaPort.GetPCIDevice is_ok /\
  (forall E f fme f' t,
     IntelFpgaPort.GetFME E f = (Ok fme, f', t) ->
     forall cs E', exists fme',
       IntelFpgaPort.GetFME E' (Port_life cs f') = (Ok fme', Port_life cs f', []) /\
       FME_keeps fme fme') /\
  memoized IntelFpgaPort.GetFME is_ok.
Proof.
  repeat apply conj.
  - apply FME_GetSysFsPath_for_life.
  - apply FME_GetName_for_life.
  - apply FME_GetPCIDevice_for_life.
  - apply Port_GetSysFsPath_for_life.
  - apply Port_GetName_for_life.
  - apply Port_GetPCIDevice_for_life.
  - apply Port_GetFME_for_life.
  - exact Port_GetFME_memoized.
Qed.

Lemma C8_witness :
  IntelFpgaPort.GetFME sample.envGone
    (state_of (IntelFpgaPort.GetFME sample.env sample.openedPort))
  = (value_of (IntelFpgaPort.GetFME sample.env sample.openedPort),
     state_of (IntelFpgaPort.GetFME sample.env sample.openedPort), [])
  /\
  IntelFpgaFME.GetSysFsPath sample.envGone
    (@FME_life sample.layout sample.busyClient
       (state_of (IntelFpgaFME.GetSysFsPath sample.env sample.freshFME)))
  = (sample.fmeSysFs,
     @FME_life sample.layout sample.busyClient
       (state_of (IntelFpgaFME.GetSysFsPath sample.env sample.freshFME)), []).
Proof.
  destruct (C8_resolved_values_are_memoized sample.layout)
    as (Hs & _ & _ & _ & _ & _ & _ & Hf).
  split.
  - eapply (Hf sample.env sample.openedPort).
    + vm_compute. reflexivity.
    + exact I.
  - eapply (Hs sample.env sample.freshFME).
    + vm_compute. reflexivity.
    + discriminate.
Defined.

(** C10: on an FME and on a Port with no name yet, when [GetSysFsPath]
    yields the empty string, [GetName] returns ["."], the base name of the
    empty path, and stores it as the name: after any series of method
    calls on the object, on any system, also one where the sysfs entry
    resolves, [GetName] returns ["."] again without resolving anything.
    The result is a string that is not empty; the method has no error
    result. *)
Theorem C10_GetName_of_unresolved_is_dot (L : Layout) (E E' : Env) :
  (forall f,
     IntelFpgaFME.Name f = "" ->
     value_of (IntelFpgaFME.GetSysFsPath E f) = "" ->
     value_of (IntelFpgaFME.GetName E f) = "." /\
     state_of (IntelFpgaFME.GetName E f) = IntelFpgaFME.set_Name "." f /\
     forall cs,
       IntelFpgaFME.GetName E' (FME_life cs (state_of (IntelFpgaFME.GetName E f)))
         = (".", FME_life cs (state_of (IntelFpgaFME.GetName E f)), [])) /\
  (forall f,
     IntelFpgaPort.Name f = "" ->
     value_of (IntelFpgaPort.GetSysFsPath E f) = "" ->
     value_of (IntelFpgaPort.GetName E f) = "." /\
     state_of (IntelFpgaPort.GetName E f) = IntelFpgaPort.set_Name "." f /\
     forall cs,
       IntelFpgaPort.GetName E' (Port_life cs (state_of (IntelFpgaPort.GetName E f)))
         = (".", Port_life cs (state_of (IntelFpgaPort.GetName E f)), [])).
Proof.
  split; intros f Hn Hp.
  - assert (Hrun : IntelFpgaFME.GetName E f
                   = (".", IntelFpgaFME.set_Name "." f,
                      log_of (IntelFpgaFME.GetSysFsPath E f))).
    { rewrite FME_GetName_resolve by exact Hn.
      assert (Hs : state_of (IntelFpgaFME.GetSysFsPath E f) = f).
      { unfold state_of, value_of in *.
        destruct (String.eqb_spec (IntelFpgaFME.SysFsPath f) "") as [He|Hne].
        - rewrite FME_GetSysFsPath_resolve in * by exact He.
          destruct (FindSysFsDevice E _) as [sysfs|e]; cbn [fst snd] in *;
            [| reflexivity].
          subst sysfs. destruct f; cbn in He |- *. subst. reflexivity.
        - rewrite FME_GetSysFsPath_cached by exact Hne. reflexivity. }
      unfold value_of, state_of, log_of in *.
      destruct (IntelFpgaFME.GetSysFsPath E f) as [[p f1] t].
      cbn [fst snd] in *. subst p f1. rewrite Base_empty. reflexivity. }
    rewrite Hrun. unfold value_of, state_of. cbn [fst snd].
    repeat apply conj; try reflexivity.
    intros cs. apply (FME_GetName_for_life L E f _ _ _ Hrun I cs E').
  - assert (Hrun : IntelFpgaPort.GetName E f
                   = (".", IntelFpgaPort.set_Name "." f,
                      log_of (IntelFpgaPort.GetSysFsPath E f))).
    { rewrite Port_GetName_resolve by exact Hn.
      assert (Hs : state_of (IntelFpgaPort.GetSysFsPath E f) = f).
      { unfold state_of, value_of in *.
        destruct (String.eqb_spec (IntelFpgaPort.SysFsPath f) "") as [He|Hne].
        - rewrite Port_GetSysFsPath_resolve in * by exact He.
          destruct (FindSysFsDevice E _) as [sysfs|e]; cbn [fst snd] in *;
            [| reflexivity].
          subst sysfs. destruct f; cbn in He |- *. subst. reflexivity.
        - rewrite Port_GetSysFsPath_cached by exact Hne. reflexivity. }
      unfold value_of, state_of, log_of in *.
      destruct (IntelFpgaPort.GetSysFsPath E f) as [[p f1] t].
      cbn [fst snd] in *. subst p f1. rewrite Base_empty. reflexivity. }
    rewrite Hrun. unfold value_of, state_of. cbn [fst snd].
    repeat apply conj; try reflexivity.
    intros cs. apply (Port_GetName_for_life L E f _ _ _ Hrun I cs E').
Qed.

Lemma C10_witness :
  value_of (IntelFpgaFME.GetName sample.envGone sample.freshFME) = "." /\
  IntelFpgaFME.GetName sample.env
    (@FME_life sample.layout sample.busyClient
       (state_of (IntelFpgaFME.GetName sample.envGone sample.freshFME)))
    = (".",
       @FME_life sample.layout sample.busyClient
         (state_of (IntelFpgaFME.GetName sample.envGone sample.freshFME)), []) /\
  value_of (IntelFpgaPort.GetName sample.envGone sample.freshPort) = "." /\
  IntelFpgaPort.GetName sample.env
    (state_of (IntelFpgaPort.GetName sample.envGone sample.freshPort))
    = (".", state_of (IntelFpgaPort.GetName sample.envGone sample.freshPort), []).
Proof.
  destruct (C10_GetName_of_unresolved_is_dot sample.layout sample.envGone sample.env)
    as [Hf Hp].
  destruct (Hf sample.freshFME) as (H1 & _ & H2); [reflexivity | reflexivity |].
  destruct (Hp sample.freshPort) as (H3 & _ & H4); [reflexivity | reflexivity |].
  repeat apply conj;
    [exact H1 | exact (H2 sample.busyClient) | exact H3
     | exact (H4 (@nil (Env * PortCall)))].
Defined.

(** ** Lifecycle *)

(** C6: [Close] on a Port runs [Close] of its FME exactly when an FME was
    resolved, and once; it returns nil and leaves the Port, and the FME it
    holds, as they were. On a Port that never resolved an FME it does
    nothing at all: no call is made and no state changes. *)
Theorem C6_Port_Close_closes_resolved_FME (E : Env) (f : IntelFpgaPort.t) :
  IntelFpgaPort.Close E f =
    (None, f,
     match IntelFpgaPort.FME f with
     | Some fme => [EvFMEClose (IntelFpgaFME.DevPath fme)]
     | None => []
     end).
Proof.
  unfold IntelFpgaPort.Close, IntelFpgaPort.onFME, IntelFpgaFME.Close. run.
  destruct f as [[fme|] dev sysfs name pcidev d afuid id].
  - (* an FME was resolved: its Close runs, the Port is rebuilt as it was *)
    reflexivity.
  - (* no FME: nothing runs *)
    reflexivity.
Qed.

(** ** Decimal conversion *)

Lemma digitval_of_decimal (c : ascii) (d : Z) :
  decimal_digit c = Some d ->
  strconv.digitval (strconv.byte_of c) = Some d /\ 0 <= d < 10.
Proof.
  unfold decimal_digit, strconv.digitval, strconv.byte_of. cbv zeta.
  destruct ((48 <=? Z.of_N (N_of_ascii c)) && (Z.of_N (N_of_ascii c) <=? 57)) eqn:H;
    [| discriminate].
  intros [= <-]. apply andb_true_iff in H. split; [reflexivity | lia].
Qed.

Lemma digitval_not_decimal (c : ascii) :
  decimal_digit c = None ->
  match strconv.digitval (strconv.byte_of c) with
  | Some d => 10 <= d
  | None => True
  end.
Proof.
  unfold decimal_digit, strconv.digitval, strconv.byte_of. cbv zeta.
  destruct ((48 <=? Z.of_N (N_of_ascii c)) && (Z.of_N (N_of_ascii c) <=? 57));
    [discriminate |].
  intros _.
  destruct ((97 <=? strconv.lower _) && (strconv.lower _ <=? 122)) eqn:H; [| exact I].
  apply andb_true_iff in H. lia.
Qed.

Lemma decimal_from_ge (s : string) : forall acc v,
  0 <= acc -> decimal_from acc s = Some v -> acc <= v.
Proof.
  induction s as [|c r IH]; intros acc v Hacc; cbn [decimal_from].
  - intros [= <-]. lia.
  - destruct (decimal_digit c) as [d|] eqn:Hd; [| discriminate].
    destruct (digitval_of_decimal c d Hd) as [_ Hr].
    intros H. apply IH in H; lia.
Qed.

(** The loop of [ParseUint] succeeds exactly on digits whose number fits:
    it then returns that number. *)
Lemma loop_decimal (s : string) : forall n0 n,
  0 <= n0 <= MaxUint32 ->
  strconv.loop 10 (2 ^ 32 - 1) (strconv.maxUint64 / 10 + 1) s n0 = (n, None) <->
  decimal_from n0 s = Some n /\ n <= MaxUint32.
Proof.
  induction s as [|c rest IH]; intros n0 n Hn0; cbn [strconv.loop decimal_from].
  - split.
    + intros [= <-]. split; [reflexivity | lia].
    + intros [[= <-] _]. reflexivity.
  - destruct (decimal_digit c) as [d|] eqn:Hd.
    + destruct (digitval_of_decimal c d Hd) as [Hv Hr]. rewrite Hv.
      replace (d >=? 10) with false by lia.
      assert (Hcut : (n0 >=? strconv.maxUint64 / 10 + 1) = false).
      { change (strconv.maxUint64 / 10 + 1) with 1844674407370955162.
        unfold MaxUint32 in *. lia. }
      rewrite Hcut.
      assert (Hn1 : uint64 (uint64 (n0 * 10) + d) = n0 * 10 + d).
      { unfold uint64, MaxUint32 in *.
        rewrite (Z.mod_small (n0 * 10)) by lia. apply Z.mod_small. lia. }
      assert (Hn' : uint64 (n0 * 10) = n0 * 10).
      { unfold uint64, MaxUint32 in *. apply Z.mod_small. lia. }
      rewrite Hn1, Hn'.
      replace (n0 * 10 + d <? n0 * 10) with false by lia. cbn [orb].
      destruct (n0 * 10 + d >? 2 ^ 32 - 1) eqn:Ho.
      * split; [discriminate |].
        intros [Hdec Hle]. apply decimal_from_ge in Hdec; [| lia].
        unfold MaxUint32 in *. lia.
      * apply IH. unfold MaxUint32 in *. lia.
    + pose proof (digitval_not_decimal c Hd) as Hnd.
      destruct (strconv.digitval (strconv.byte_of c)) as [d|].
      * replace (d >=? 10) with true by lia.
        split; [discriminate | intros [[=] _]].
      * split; [discriminate | intros [[=] _]].
Qed.

Lemma ParseUint10_decimal (s : string) (n : Z) :
  strconv.ParseUint10 s 32 = (n, None) <->
  decimal_value s = Some n /\ n <= MaxUint32.
Proof.
  unfold strconv.ParseUint10, decimal_value.
  destruct s as [|c r]; [cbn; split; [discriminate | intros [[=] _]] |].
  replace (String.eqb (String c r) "") with false by reflexivity.
  rewrite <- (loop_decimal (String c r) 0 n) by (unfold MaxUint32; lia).
  destruct (strconv.loop _ _ _ (String c r) 0) as [m [k|]];
    split; congruence.
Qed.

(** A failed conversion gives 0 (syntax) or the largest value (range). *)
Lemma ParseUint10_failed (s : string) (n : Z) (e : error) :
  strconv.ParseUint10 s 32 = (n, Some e) ->
  (n = 0 /\ e = NumError "ParseUint" s ErrSyntax) \/
  (n = MaxUint32 /\ e = NumError "ParseUint" s ErrRange).
Proof.
  unfold strconv.ParseUint10.
  destruct (String.eqb s ""); [intros [= <- <-]; left; split; reflexivity |].
  assert (H : forall t n0 m k,
             strconv.loop 10 (2 ^ 32 - 1) (strconv.maxUint64 / 10 + 1) t n0 = (m, Some k) ->
             (m = 0 /\ k = ErrSyntax) \/ (m = MaxUint32 /\ k = ErrRange)).
  { induction t as [|c r IH]; intros n0 m k; cbn [strconv.loop]; [discriminate |].
    destruct (strconv.digitval _) as [d|]; [| intros [= <- <-]; left; tauto].
    destruct (d >=? 10); [intros [= <- <-]; left; tauto |].
    destruct (n0 >=? _); [intros [= <- <-]; right; split; reflexivity |].
    destruct (_ || _); [intros [= <- <-]; right; split; reflexivity |].
    apply IH. }
  destruct (strconv.loop _ _ _ s 0) as [m [k|]] eqn:Hl; [| discriminate].
  intros [= <- <-]. destruct (H _ _ _ _ Hl) as [[-> ->]|[-> ->]]; [left | right];
    split; reflexivity.
Qed.

(** X2: [GetSocketID] and [GetPortID] return an id with a nil error
    exactly when the stored string is a non-empty run of decimal digits
    whose number is at most 2^32-1 (for [GetPortID]: and the attribute
    read, where [ID] was empty, returned nil), and the id is that number.
    [GetPortsNum] returns that number in the same case and -1 in every
    other. *)
Theorem X2_numeric_accessors_decode_decimal (E : Env) :
  (forall f n,
     value_of (IntelFpgaFME.GetSocketID E f) = (n, None) <->
     decimal_value (IntelFpgaFME.SocketID f) = Some n /\ n <= MaxUint32) /\
  (forall f n,
     value_of (IntelFpgaPort.GetPortID E f) = (n, None) <->
     (if is_empty (IntelFpgaPort.ID f)
      then value_of (IntelFpgaPort.updateProperties E f) else None) = None /\
     decimal_value (IntelFpgaPort.ID (state_of (IntelFpgaPort.GetPortID E f))) = Some n /\
     n <= MaxUint32) /\
  (forall f,
     value_of (IntelFpgaFME.GetPortsNum E f) =
       match (if is_empty (IntelFpgaFME.PortsNum f)
              then value_of (IntelFpgaFME.updateProperties E f) else None),
             decimal_value (IntelFpgaFME.PortsNum (state_of (IntelFpgaFME.GetPortsNum E f)))
       with
       | None, Some n => if n <=? MaxUint32 then n else -1
       | _, _ => -1
       end).
Proof.
  assert (Hfit : forall s n, strconv.ParseUint10 s 32 = (n, None) -> uint32 n = n).
  { intros s n H. apply uint32_small. apply ParseUint10_ok in H. tauto. }
  repeat apply conj.
  - intros f n. rewrite FME_GetSocketID_run. unfold value_of. cbn [fst].
    destruct (is_empty (IntelFpgaFME.SocketID f)) eqn:He.
    + apply is_empty_true in He. rewrite He. cbn.
      split; [discriminate | intros [[=] _]].
    + rewrite <- ParseUint10_decimal.
      destruct (strconv.ParseUint10 _ 32) as [m [e|]] eqn:Hp; cbn [fst snd].
      * split; discriminate.
      * rewrite (Hfit _ _ Hp). split; congruence.
  - intros f n. rewrite Port_GetPortID_run. unfold value_of, state_of.
    destruct (is_empty (IntelFpgaPort.ID f)).
    + destruct (IntelFpgaPort.updateProperties E f) as [[[e|] f1] t]; cbn [fst snd].
      * split; [discriminate | intros [[=] _]].
      * rewrite <- ParseUint10_decimal.
        destruct (strconv.ParseUint10 _ 32) as [m [e|]] eqn:Hp; cbn [fst snd].
        -- split; [discriminate | intros [_ [=]]].
        -- rewrite (Hfit _ _ Hp). split; [intros [= <-]; tauto | intros [_ [= <-]]; reflexivity].
    + cbn [fst snd]. rewrite <- ParseUint10_decimal.
      destruct (strconv.ParseUint10 _ 32) as [m [e|]] eqn:Hp; cbn [fst snd].
      * split; [discriminate | intros [_ [=]]].
      * rewrite (Hfit _ _ Hp). split; [intros [= <-]; tauto | intros [_ [= <-]]; reflexivity].
  - intros f. rewrite FME_GetPortsNum_run. unfold value_of, state_of.
    assert (Hnum : forall s,
               match strconv.ParseUint10 s 32 with
               | (_, Some _) => -1
               | (n, None) => n
               end =
               match decimal_value s with
               | Some n => if n <=? MaxUint32 then n else -1
               | None => -1
               end).
    { intros s. destruct (strconv.ParseUint10 s 32) as [m [e|]] eqn:Hp.
      - destruct (decimal_value s) as [n|] eqn:Hd; [| reflexivity].
        destruct (n <=? MaxUint32) eqn:Hle; [| reflexivity].
        assert (Hok : strconv.ParseUint10 s 32 = (n, None))
          by (apply ParseUint10_decimal; split; [exact Hd | lia]).
        congruence.
      - apply ParseUint10_decimal in Hp. destruct Hp as [-> Hle].
        replace (m <=? MaxUint32) with true by lia. reflexivity. }
    destruct (is_empty (IntelFpgaFME.PortsNum f)).
    + destruct (IntelFpgaFME.updateProperties E f) as [[[e|] f1] t]; cbn [fst snd];
        [reflexivity | apply Hnum].
    + cbn [fst snd]. apply Hnum.
Qed.

(** ** Names *)

Lemma no_separator_unchars (l : list ascii) :
  Forall (fun c => negb (filepath.isPathSeparator c) = true) l ->
  no_separator (filepath.unchars l) = true.
Proof.
  induction 1 as [|c l Hc _ IH]; cbn [filepath.unchars no_separator];
    [reflexivity |].
  rewrite Hc, IH. reflexivity.
Qed.

Lemma takeWhile_all (p : ascii -> bool) (l : list ascii) :
  Forall (fun c => p c = true) (filepath.takeWhile p l).
Proof.
  induction l as [|c l IH]; cbn [filepath.takeWhile]; [constructor |].
  destruct (p c) eqn:Hc; constructor; assumption.
Qed.

(** A base name is "/" or has no separator in it. *)
Lemma Base_shape (p : string) :
  filepath.Base p = "/" \/ no_separator (filepath.Base p) = true.
Proof.
  unfold filepath.Base.
  destruct (String.eqb p ""); [right; reflexivity |].
  destruct (filepath.takeWhile _ _) as [|c l] eqn:Ht; [left; reflexivity |].
  right. apply no_separator_unchars. apply Forall_rev. rewrite <- Ht.
  apply takeWhile_all.
Qed.

(** X1: [GetName] of an FME or a Port never returns the empty string.
    On an object with no name yet, the name it returns and stores is "/"
    or a name without any path separator. *)
Theorem X1_GetName_is_a_simple_name (E : Env) :
  (forall f, value_of (IntelFpgaFME.GetName E f) <> "") /\
  (forall f, value_of (IntelFpgaPort.GetName E f) <> "") /\
  (forall f, IntelFpgaFME.Name f = "" ->
     IntelFpgaFME.Name (state_of (IntelFpgaFME.GetName E f))
       = value_of (IntelFpgaFME.GetName E f) /\
     (value_of (IntelFpgaFME.GetName E f) = "/" \/
      no_separator (value_of (IntelFpgaFME.GetName E f)) = true)) /\
  (forall f, IntelFpgaPort.Name f = "" ->
     IntelFpgaPort.Name (state_of (IntelFpgaPort.GetName E f))
       = value_of (IntelFpgaPort.GetName E f) /\
     (value_of (IntelFpgaPort.GetName E f) = "/" \/
      no_separator (value_of (IntelFpgaPort.GetName E f)) = true)).
Proof.
  unfold value_of, state_of. repeat apply conj; intros f.
  - destruct (IntelFpgaFME.GetName E f) as [[a f'] t] eqn:Hrun.
    apply (FME_GetName_stored E f a f' t Hrun).
  - destruct (IntelFpgaPort.GetName E f) as [[a f'] t] eqn:Hrun.
    apply (Port_GetName_stored E f a f' t Hrun).
  - intros Hn. rewrite FME_GetName_resolve by exact Hn.
    destruct (IntelFpgaFME.GetSysFsPath E f) as [[p f1] t]. cbn [fst snd].
    split; [reflexivity | apply Base_shape].
  - intros Hn. rewrite Port_GetName_resolve by exact Hn.
    destruct (IntelFpgaPort.GetSysFsPath E f) as [[p f1] t]. cbn [fst snd].
    split; [reflexivity | apply Base_shape].
Qed.

Lemma X1_witness :
  no_separator (value_of (IntelFpgaFME.GetName sample.env sample.openedFME)) = true /\
  value_of (IntelFpgaFME.GetName sample.env sample.openedFME) = "intel-fpga-fme.0" /\
  no_separator (value_of (IntelFpgaPort.GetName sample.env sample.openedPort)) = true /\
  value_of (IntelFpgaPort.GetName sample.env sample.openedPort) = "intel-fpga-port.0".
Proof.
  destruct (X1_GetName_is_a_simple_name sample.env) as (_ & _ & Hf & Hp).
  destruct (Hf sample.openedFME eq_refl) as [_ [H|H]]; [discriminate H |].
  destruct (Hp sample.openedPort eq_refl) as [_ [H'|H']]; [discriminate H' |].
  repeat apply conj; [exact H | reflexivity | exact H' | reflexivity].
Defined.

(** ** The attributes of a Port *)

Lemma Port_updateProperties_run E f :
  IntelFpgaPort.updateProperties E f =
    let '(dir, f1, t) := IntelFpgaPort.GetSysFsPath E f in
    let '(w, err) := readFilesInDirectory E IntelFpgaPort.fileNames dir in
    (err, IntelFpgaPort.store_files w f1, t ++ [EvReadFiles IntelFpgaPort.fileNames dir]).
Proof.
  unfold IntelFpgaPort.updateProperties. run.
  destruct (IntelFpgaPort.GetSysFsPath E f) as [[dir f1] t].
  destruct (readFilesInDirectory E _ dir) as [w err]. reflexivity.
Qed.

Lemma Port_GetSysFsPath_reads E f :
  reads (log_of (IntelFpgaPort.GetSysFsPath E f)) = [].
Proof.
  unfold log_of.
  destruct (String.eqb_spec (IntelFpgaPort.SysFsPath f) "") as [He|Hne].
  - rewrite Port_GetSysFsPath_resolve by exact He.
    destruct (FindSysFsDevice E _); reflexivity.
  - rewrite Port_GetSysFsPath_cached by exact Hne. reflexivity.
Qed.

Lemma Port_updateProperties_reads E f :
  reads (log_of (IntelFpgaPort.updateProperties E f))
    = [value_of (IntelFpgaPort.GetSysFsPath E f)].
Proof.
  rewrite Port_updateProperties_run.
  pose proof (Port_GetSysFsPath_reads E f) as H. unfold log_of, value_of in *.
  destruct (IntelFpgaPort.GetSysFsPath E f) as [[dir f1] t]. cbn [fst snd] in *.
  destruct (readFilesInDirectory E _ dir) as [w err]. cbn [snd].
  unfold reads in *. rewrite flat_map_app, H. reflexivity.
Qed.

(** X3: [GetPortID] reads the Port's attribute files only when [ID] is
    empty: with [ID] set it reads nothing and leaves the Port as it is.
    With [ID] empty it runs the attribute read, which is one read of
    "afu_id", "dev" and "id" in the directory [GetSysFsPath] returns, and
    when that read fails it returns [math.MaxUint32] with the error of
    the read, unchanged. *)
Theorem X3_GetPortID_reads_when_ID_is_empty (E : Env) (f : IntelFpgaPort.t) :
  (IntelFpgaPort.ID f <> "" ->
     state_of (IntelFpgaPort.GetPortID E f) = f /\
     log_of (IntelFpgaPort.GetPortID E f) = []) /\
  (IntelFpgaPort.ID f = "" ->
     state_of (IntelFpgaPort.GetPortID E f)
       = state_of (IntelFpgaPort.updateProperties E f) /\
     log_of (IntelFpgaPort.GetPortID E f)
       = log_of (IntelFpgaPort.updateProperties E f) /\
     reads (log_of (IntelFpgaPort.GetPortID E f))
       = [value_of (IntelFpgaPort.GetSysFsPath E f)] /\
     (forall e, value_of (IntelFpgaPort.updateProperties E f) = Some e ->
        value_of (IntelFpgaPort.GetPortID E f) = (MaxUint32, Some e))).
Proof.
  split; intros H.
  - apply is_empty_false in H. rewrite Port_GetPortID_run, H. split; reflexivity.
  - apply is_empty_true in H.
    pose proof (Port_updateProperties_reads E f) as Hr.
    rewrite Port_GetPortID_run, H. unfold state_of, log_of, value_of in *.
    destruct (IntelFpgaPort.updateProperties E f) as [[[e|] f1] t]; cbn [fst snd] in *;
      repeat apply conj; try reflexivity; try exact Hr.
    + intros e' [= <-]. reflexivity.
    + intros e' [=].
Qed.

Lemma X3_witness :
  log_of (IntelFpgaPort.GetPortID sample.envGone sample.openedPort) = [] /\
  reads (log_of (IntelFpgaPort.GetPortID sample.envGone sample.freshPort)) = [""] /\
  value_of (IntelFpgaPort.GetPortID sample.envGone sample.freshPort)
    = (MaxUint32, Some (ExtError "unable to read file")).
Proof.
  destruct (X3_GetPortID_reads_when_ID_is_empty sample.envGone sample.openedPort)
    as [Hset _].
  destruct (X3_GetPortID_reads_when_ID_is_empty sample.envGone sample.freshPort)
    as [_ Hempty].
  destruct Hset as [_ Hlog]; [intros H; cbv in H; discriminate H |].
  destruct (Hempty eq_refl) as (_ & _ & Hreads & Herr).
  repeat apply conj; [exact Hlog | exact Hreads | apply Herr; reflexivity].
Defined.

(** X4: [GetAcceleratorTypeUUID] never answers from the Port's fields
    alone: every call runs the attribute read, one read in the directory
    [GetSysFsPath] returns, also when [AFUID] is already set. It returns
    the empty string when that read fails, whatever [AFUID] holds, and
    the [AFUID] of the Port after the read otherwise. *)
Theorem X4_GetAcceleratorTypeUUID_reads_every_time (E : Env) (f : IntelFpgaPort.t) :
  state_of (IntelFpgaPort.GetAcceleratorTypeUUID E f)
    = state_of (IntelFpgaPort.updateProperties E f) /\
  reads (log_of (IntelFpgaPort.GetAcceleratorTypeUUID E f))
    = [value_of (IntelFpgaPort.GetSysFsPath E f)] /\
  (value_of (IntelFpgaPort.updateProperties E f) <> None ->
     value_of (IntelFpgaPort.GetAcceleratorTypeUUID E f) = "") /\
  (value_of (IntelFpgaPort.updateProperties E f) = None ->
     value_of (IntelFpgaPort.GetAcceleratorTypeUUID E f)
       = IntelFpgaPort.AFUID (state_of (IntelFpgaPort.updateProperties E f))).
Proof.
  pose proof (Port_updateProperties_reads E f) as Hr.
  unfold IntelFpgaPort.GetAcceleratorTypeUUID, state_of, log_of, value_of in *. run.
  destruct (IntelFpgaPort.updateProperties E f) as [[[e|] f1] t]; cbn [fst snd] in *.
  - rewrite app_nil_r. repeat apply conj; try reflexivity; [exact Hr | congruence].
  - destruct (is_empty (IntelFpgaPort.AFUID f1)) eqn:He; cbn [fst snd];
      rewrite app_nil_r; repeat apply conj; try reflexivity; try exact Hr;
      try congruence.
    intros _. apply is_empty_true in He. symmetry. exact He.
Qed.

Lemma X4_witness :
  value_of (IntelFpgaPort.GetAcceleratorTypeUUID sample.envGone sample.openedPort) = "" /\
  value_of (IntelFpgaPort.GetAcceleratorTypeUUID sample.env sample.openedPort)
    = "d8424dc4a4a3c413f89e433683f9040b".
Proof.
  destruct (X4_GetAcceleratorTypeUUID_reads_every_time sample.envGone sample.openedPort)
    as (_ & _ & Hfail & _).
  destruct (X4_GetAcceleratorTypeUUID_reads_every_time sample.env sample.openedPort)
    as (_ & _ & _ & Hok).
  split.
  - apply Hfail. vm_compute. discriminate.
  - rewrite Hok by reflexivity. reflexivity.
Defined.

(** X8: a failed sysfs resolution is not reported by the methods that
    build on it. Where [GetSysFsPath] yields the empty string,
    [GetPCIDevice] of an FME and of a Port with no PCI device yet still
    calls [NewPCIDevice], with the empty path, and returns what it gives;
    [updateProperties] of a Port still reads its files, in the directory
    with the empty name. *)
Theorem X8_empty_sysfs_path_is_passed_on (E : Env) :
  (forall f,
     IntelFpgaFME.PCIDevice f = None ->
     value_of (IntelFpgaFME.GetSysFsPath E f) = "" ->
     log_of (IntelFpgaFME.GetPCIDevice E f)
       = log_of (IntelFpgaFME.GetSysFsPath E f) ++ [EvNewPCIDevice ""] /\
     value_of (IntelFpgaFME.GetPCIDevice E f) = NewPCIDevice E "") /\
  (forall f,
     IntelFpgaPort.PCIDevice f = None ->
     value_of (IntelFpgaPort.GetSysFsPath E f) = "" ->
     log_of (IntelFpgaPort.GetPCIDevice E f)
       = log_of (IntelFpgaPort.GetSysFsPath E f) ++ [EvNewPCIDevice ""] /\
     value_of (IntelFpgaPort.GetPCIDevice E f) = NewPCIDevice E "") /\
  (forall f,
     value_of (IntelFpgaPort.GetSysFsPath E f) = "" ->
     reads (log_of (IntelFpgaPort.updateProperties E f)) = [""] /\
     value_of (IntelFpgaPort.updateProperties E f)
       = snd (readFilesInDirectory E IntelFpgaPort.fileNames "")).
Proof.
  unfold value_of, log_of. repeat apply conj; intros f.
  - intros Hp Hs. rewrite FME_GetPCIDevice_resolve by exact Hp.
    destruct (IntelFpgaFME.GetSysFsPath E f) as [[path f1] t]. cbn [fst snd] in *.
    subst path. destruct (NewPCIDevice E ""); split; reflexivity.
  - intros Hp Hs. rewrite Port_GetPCIDevice_resolve by exact Hp.
    destruct (IntelFpgaPort.GetSysFsPath E f) as [[path f1] t]. cbn [fst snd] in *.
    subst path. destruct (NewPCIDevice E ""); split; reflexivity.
  - intros Hs. pose proof (Port_updateProperties_reads E f) as Hr.
    unfold value_of, log_of in Hr. rewrite Hs in Hr. split; [exact Hr |].
    rewrite Port_updateProperties_run.
    destruct (IntelFpgaPort.GetSysFsPath E f) as [[dir f1] t]. cbn [fst snd] in *.
    subst dir. destruct (readFilesInDirectory E _ "") as [w err]. reflexivity.
Qed.

Lemma X8_witness :
  log_of (IntelFpgaFME.GetPCIDevice sample.envGone sample.freshFME)
    = [EvFindSysFsDevice sample.fmeDev; EvNewPCIDevice ""] /\
  log_of (IntelFpgaPort.GetPCIDevice sample.envGone sample.freshPort)
    = [EvFindSysFsDevice sample.portDev; EvNewPCIDevice ""] /\
  reads (log_of (IntelFpgaPort.updateProperties sample.envGone sample.freshPort)) = [""].
Proof.
  destruct (X8_empty_sysfs_path_is_passed_on sample.envGone) as (Hf & Hp & Hu).
  destruct (Hf sample.freshFME eq_refl eq_refl) as [H1 _].
  destruct (Hp sample.freshPort eq_refl eq_refl) as [H2 _].
  destruct (Hu sample.freshPort eq_refl) as [H3 _].
  repeat apply conj; [exact H1 | exact H2 | exact H3].
Defined.

(** ** Resolving the FME of a Port: the other paths *)

(** [GetFME] with no FME yet returns one exactly when the three steps
    under the host of the FME succeed. *)
Lemma Port_GetFME_ok_iff E f f1 p t1 :
  IntelFpgaPort.FME f = None ->
  IntelFpgaPort.GetPCIDevice E f = (Ok p, f1, t1) ->
  let dir := filepath.Join [pci.SysFsPath (IntelFpgaPort.fmeHost p);
                            intelFpgaFmeGlobPCI] in
  forall fme f' t,
    IntelFpgaPort.GetFME E f = (Ok fme, f', t) <->
    exists w t3,
      readFilesInDirectory E ["dev"] dir = (w, None) /\
      EvalSymlinks E (filepath.Join ["/dev/char"; stored (w "dev") ""])
        = Ok (IntelFpgaFME.DevPath fme) /\
      NewIntelFpgaFME (IntelFpgaFME.DevPath fme) E f1 = (Ok fme, f1, t3) /\
      f' = IntelFpgaPort.set_FME (Some fme) f1 /\
      t = t1 ++ [EvReadFiles ["dev"] dir;
                 EvEvalSymlinks (filepath.Join ["/dev/char"; stored (w "dev") ""])] ++ t3.
Proof.
  intros Hf Hp dir fme f' t.
  rewrite Port_GetFME_resolve by exact Hf. rewrite Hp. fold dir. cbv zeta.
  destruct (readFilesInDirectory E ["dev"] dir) as [w [e|]].
  { split; [discriminate | intros (w' & t3 & [=] & _)]. }
  destruct (EvalSymlinks E (filepath.Join ["/dev/char"; stored (w "dev") ""]))
    as [realDev|e] eqn:Hlink.
  2: { split; [discriminate |].
       intros (w' & t3 & [= <-] & Hl & _). rewrite Hlink in Hl. discriminate. }
  pose proof (NewIntelFpgaFME_frame realDev E f1) as Hfr. unfold state_of in Hfr.
  destruct (NewIntelFpgaFME realDev E f1) as [[[fme0|e] s] t3] eqn:Hnew;
    cbn [fst snd] in Hfr; subst s.
  - pose proof (NewIntelFpgaFME_DevPath _ _ _ _ _ _ Hnew) as Hdev.
    split.
    + intros [= <- <- <-]. exists w, t3. rewrite Hdev.
      repeat apply conj; try reflexivity; [exact Hlink | exact Hnew].
    + intros (w' & t3' & [= <-] & Hl & Hn' & -> & ->).
      rewrite Hlink in Hl. injection Hl as ->.
      rewrite Hnew in Hn'. injection Hn' as <- <-. reflexivity.
  - split; [discriminate |].
    intros (w' & t3' & [= <-] & Hl & Hn' & _).
    rewrite Hlink in Hl. injection Hl as ->.
    rewrite Hnew in Hn'. discriminate.
Qed.

(** X13: on a Port with no FME yet whose PCI device [p] has no physical
    function (the Port sits on the physical function), [GetFME] resolves
    the FME under the sysfs path of [p] itself: it returns an FME exactly
    when the read of "dev" in the FME directory under that path, the
    symlink evaluation under "/dev/char" and [NewIntelFpgaFME] at the
    resolved path succeed, and it returns and stores that FME. *)
Theorem X13_GetFME_on_physical_function
    (E : Env) (f f1 : IntelFpgaPort.t) (p : pci.PCIDevice) (t1 : trace) :
  IntelFpgaPort.FME f = None ->
  IntelFpgaPort.GetPCIDevice E f = (Ok p, f1, t1) ->
  pci.PhysFn p = None ->
  let dir := filepath.Join [pci.SysFsPath p; intelFpgaFmeGlobPCI] in
  forall fme f' t,
    IntelFpgaPort.GetFME E f = (Ok fme, f', t) <->
    exists w t3,
      readFilesInDirectory E ["dev"] dir = (w, None) /\
      EvalSymlinks E (filepath.Join ["/dev/char"; stored (w "dev") ""])
        = Ok (IntelFpgaFME.DevPath fme) /\
      NewIntelFpgaFME (IntelFpgaFME.DevPath fme) E f1 = (Ok fme, f1, t3) /\
      f' = IntelFpgaPort.set_FME (Some fme) f1 /\
      t = t1 ++ [EvReadFiles ["dev"] dir;
                 EvEvalSymlinks (filepath.Join ["/dev/char"; stored (w "dev") ""])] ++ t3.
Proof.
  intros Hf Hp Hpf dir fme f' t.
  pose proof (Port_GetFME_ok_iff E f f1 p t1 Hf Hp fme f' t) as H.
  unfold IntelFpgaPort.fmeHost in H. rewrite Hpf in H. exact H.
Qed.

Lemma X13_witness :
  exists w t3,
    readFilesInDirectory sample.env ["dev"]
      (filepath.Join [pci.SysFsPath sample.pf; intelFpgaFmeGlobPCI]) = (w, None) /\
    EvalSymlinks sample.env (filepath.Join ["/dev/char"; stored (w "dev") ""])
      = Ok (IntelFpgaFME.DevPath sample.openedFME) /\
    NewIntelFpgaFME (IntelFpgaFME.DevPath sample.openedFME) sample.env sample.pfPort
      = (Ok sample.openedFME, sample.pfPort, t3) /\
    state_of (IntelFpgaPort.GetFME sample.env sample.pfPort)
      = IntelFpgaPort.set_FME (Some sample.openedFME) sample.pfPort /\
    log_of (IntelFpgaPort.GetFME sample.env sample.pfPort)
      = [] ++ [EvReadFiles ["dev"]
                 (filepath.Join [pci.SysFsPath sample.pf; intelFpgaFmeGlobPCI]);
               EvEvalSymlinks (filepath.Join ["/dev/char"; stored (w "dev") ""])] ++ t3.
Proof.
  apply (proj1 (X13_GetFME_on_physical_function
                  sample.env sample.pfPort sample.pfPort sample.pf []
                  eq_refl eq_refl eq_refl
                  sample.openedFME
                  (state_of (IntelFpgaPort.GetFME sample.env sample.pfPort))
                  (log_of (IntelFpgaPort.GetFME sample.env sample.pfPort)))).
  vm_compute. reflexivity.
Defined.

(** X6: when [GetFME] fails, the Port holds no FME afterwards (a later
    call resolves again), and the error is the one of the first step that
    failed, after which no further step ran: [GetPCIDevice], then the
    read of "dev", then the symlink evaluation, then [NewIntelFpgaFME]. *)
Theorem X6_GetFME_failure_caches_nothing
    (E : Env) (f f' : IntelFpgaPort.t) (e : error) (t : trace) :
  IntelFpgaPort.GetFME E f = (Err e, f', t) ->
  IntelFpgaPort.FME f = None /\
  IntelFpgaPort.FME f' = None /\
  f' = state_of (IntelFpgaPort.GetPCIDevice E f) /\
  let t1 := log_of (IntelFpgaPort.GetPCIDevice E f) in
  (value_of (IntelFpgaPort.GetPCIDevice E f) = Err e /\ t = t1) \/
  (exists p, value_of (IntelFpgaPort.GetPCIDevice E f) = Ok p /\
     let dir := filepath.Join [pci.SysFsPath (IntelFpgaPort.fmeHost p);
                               intelFpgaFmeGlobPCI] in
     let w := fst (readFilesInDirectory E ["dev"] dir) in
     let link := filepath.Join ["/dev/char"; stored (w "dev") ""] in
     (snd (readFilesInDirectory E ["dev"] dir) = Some e /\
        t = t1 ++ [EvReadFiles ["dev"] dir]) \/
     (snd (readFilesInDirectory E ["dev"] dir) = None /\
        EvalSymlinks E link = Err e /\
        t = t1 ++ [EvReadFiles ["dev"] dir; EvEvalSymlinks link]) \/
     (snd (readFilesInDirectory E ["dev"] dir) = None /\
        exists realDev,
          EvalSymlinks E link = Ok realDev /\
          value_of (NewIntelFpgaFME realDev E f') = Err e /\
          t = t1 ++ [EvReadFiles ["dev"] dir; EvEvalSymlinks link]
                 ++ log_of (NewIntelFpgaFME realDev E f'))).
Proof.
  destruct (IntelFpgaPort.FME f) as [fme|] eqn:Hf.
  { rewrite (Port_GetFME_cached E f fme Hf). discriminate. }
  rewrite Port_GetFME_resolve by exact Hf.
  destruct (Port_GetPCIDevice_keeps E f) as [_ Hfme]. rewrite Hf in Hfme.
  unfold state_of, log_of, value_of in *.
  destruct (IntelFpgaPort.GetPCIDevice E f) as [[[p|e0] f1] t1]; cbn [fst snd] in *.
  2: { intros [= <- <- <-]. repeat apply conj; try reflexivity; try exact Hfme.
       left. split; reflexivity. }
  cbv zeta.
  destruct (readFilesInDirectory E ["dev"] _) as [w [e0|]] eqn:Hread; cbn [fst snd].
  { intros [= <- <- <-]. repeat apply conj; try reflexivity; try exact Hfme.
    right. exists p. split; [reflexivity |]. cbv zeta. rewrite Hread. cbn [fst snd].
    left. split; reflexivity. }
  destruct (EvalSymlinks E _) as [realDev|e0] eqn:Hlink.
  2: { intros [= <- <- <-]. repeat apply conj; try reflexivity; try exact Hfme.
       right. exists p. split; [reflexivity |]. cbv zeta. rewrite Hread. cbn [fst snd].
       right. left. repeat apply conj; [reflexivity | exact Hlink | reflexivity]. }
  destruct (NewIntelFpgaFME realDev E f1) as [[[fme|e0] s] t3] eqn:Hnew; [discriminate |].
  intros [= <- <- <-]. repeat apply conj; try reflexivity; try exact Hfme.
  right. exists p. split; [reflexivity |]. cbv zeta. rewrite Hread. cbn [fst snd].
  right. right. split; [reflexivity |]. exists realDev. rewrite Hnew.
  repeat apply conj; [exact Hlink | reflexivity | reflexivity].
Qed.

Lemma X6_witness :
  IntelFpgaPort.FME (state_of (IntelFpgaPort.GetFME sample.envGone sample.openedPort))
    = None /\
  value_of (IntelFpgaPort.GetFME sample.env
              (state_of (IntelFpgaPort.GetFME sample.envGone sample.openedPort)))
    = Ok sample.openedFME.
Proof.
  split.
  - apply (X6_GetFME_failure_caches_nothing sample.envGone sample.openedPort
             (state_of (IntelFpgaPort.GetFME sample.envGone sample.openedPort))
             (ExtError "unable to read file")
             (log_of (IntelFpgaPort.GetFME sample.envGone sample.openedPort))).
    vm_compute. reflexivity.
  - vm_compute. reflexivity.
Defined.

(** X7: when the read of "dev" reports no error but stores nothing (the
    file does not exist), [GetFME] goes on with the empty device number:
    the path it hands to [EvalSymlinks] is "/dev/char" itself, and an FME
    it returns is the one opened at what "/dev/char" resolves to. *)
Theorem X7_GetFME_without_dev_file
    (E : Env) (f f1 : IntelFpgaPort.t) (p : pci.PCIDevice) (t1 : trace)
    (w : string -> option string) :
  IntelFpgaPort.FME f = None ->
  IntelFpgaPort.GetPCIDevice E f = (Ok p, f1, t1) ->
  readFilesInDirectory E ["dev"]
    (filepath.Join [pci.SysFsPath (IntelFpgaPort.fmeHost p); intelFpgaFmeGlobPCI])
    = (w, None) ->
  w "dev" = None ->
  (exists t3,
     log_of (IntelFpgaPort.GetFME E f) =
       t1 ++ [EvReadFiles ["dev"]
                (filepath.Join [pci.SysFsPath (IntelFpgaPort.fmeHost p);
                                intelFpgaFmeGlobPCI]);
              EvEvalSymlinks "/dev/char"] ++ t3) /\
  (forall fme, value_of (IntelFpgaPort.GetFME E f) = Ok fme ->
     EvalSymlinks E "/dev/char" = Ok (IntelFpgaFME.DevPath fme)).
Proof.
  intros Hf Hp Hread Hw.
  rewrite Port_GetFME_resolve by exact Hf. rewrite Hp. cbv zeta.
  rewrite Hread, Hw.
  change (filepath.Join ["/dev/char"; stored None ""]) with "/dev/char".
  unfold log_of, value_of.
  destruct (EvalSymlinks E "/dev/char") as [realDev|e].
  2: { split; [exists []; reflexivity | discriminate]. }
  destruct (NewIntelFpgaFME realDev E f1) as [[[fme|e] s] t3] eqn:Hnew; cbn [fst snd].
  - split; [exists t3; reflexivity |].
    intros fme' [= <-]. rewrite (NewIntelFpgaFME_DevPath _ _ _ _ _ _ Hnew). reflexivity.
  - split; [exists t3; reflexivity | discriminate].
Qed.

Lemma X7_witness :
  (exists t3,
     log_of (IntelFpgaPort.GetFME sample.envNoDev sample.openedPort) =
       [] ++ [EvReadFiles ["dev"]
                (filepath.Join [pci.SysFsPath (IntelFpgaPort.fmeHost sample.vf);
                                intelFpgaFmeGlobPCI]);
              EvEvalSymlinks "/dev/char"] ++ t3).
Proof.
  apply (X7_GetFME_without_dev_file sample.envNoDev sample.openedPort sample.openedPort
           sample.vf [] (fun _ => None) eq_refl eq_refl eq_refl eq_refl).
Defined.

(** ** What the methods leave alone *)

Lemma FME_uses_only_frame (L : Layout) c E f :
  FME_uses_only c = true -> FME_after c E f = f.
Proof.
  destruct c; cbn [FME_uses_only FME_after]; try discriminate; intros _.
  - reflexivity.
  - unfold IntelFpgaFME.GetAPIVersion, commonIntelFpgaGetAPIVersion, state_of. run.
    destruct (ioctlDev E _ _ _) as [[v err] out]. reflexivity.
  - unfold IntelFpgaFME.CheckExtension, commonIntelFpgaCheckExtension, state_of. run.
    destruct (ioctlDev E _ _ _) as [[v err] out]. reflexivity.
  - destruct (addr_of_first bitstream) as [a|] eqn:Ha.
    + rewrite (FME_PortPR_run L E f port bitstream a Ha). reflexivity.
    + unfold IntelFpgaFME.PortPR, state_of. run. rewrite Ha. reflexivity.
  - rewrite FME_PortRelease_run. reflexivity.
  - rewrite FME_PortAssign_run. reflexivity.
  - reflexivity.
  - rewrite FME_GetSocketID_run. reflexivity.
  - reflexivity.
  - reflexivity.
Qed.

(** X9: the ioctl methods, [Close] and the getters of a stored field never
    write to the object. After [Close], [GetAPIVersion], [CheckExtension],
    [PortPR], [PortRelease], [PortAssign], [GetDevPath], [GetSocketID],
    [GetBitstreamID] or [GetBitstreamMetadata] an FME is exactly as it
    was, whatever the driver answered; so is a Port after [Close],
    [GetAPIVersion], [CheckExtension], [PortReset], [PortGetInfo],
    [PortGetRegionInfo] or [GetDevPath], and after any of the FME calls
    above made through its FME reference. *)
Theorem X9_ioctl_methods_and_getters_write_nothing (L : Layout) (E : Env) :
  (forall c f, FME_uses_only c = true -> FME_after c E f = f) /\
  (forall c f, Port_uses_only c = true -> Port_after c E f = f).
Proof.
  split; [intros c f; apply FME_uses_only_frame |].
  intros c f. destruct c; cbn [Port_uses_only Port_after]; try discriminate.
  - intros _. rewrite Port_Close_run. reflexivity.
  - intros _.
    unfold IntelFpgaPort.GetAPIVersion, commonIntelFpgaGetAPIVersion, state_of. run.
    destruct (ioctlDev E _ _ _) as [[v err] out]. reflexivity.
  - intros _.
    unfold IntelFpgaPort.CheckExtension, commonIntelFpgaCheckExtension, state_of. run.
    destruct (ioctlDev E _ _ _) as [[v err] out]. reflexivity.
  - intros _. unfold IntelFpgaPort.PortReset, state_of. run.
    destruct (ioctlDev E _ _ _) as [[v err] out]. reflexivity.
  - intros _. unfold IntelFpgaPort.PortGetInfo, state_of. run.
    destruct (ioctlDev E _ _ _) as [[v [e|]] out]; reflexivity.
  - intros _. unfold IntelFpgaPort.PortGetRegionInfo, state_of. run.
    destruct (ioctlDev E _ _ _) as [[v [e|]] out]; reflexivity.
  - intros _. reflexivity.
  - intros Hc. destruct (IntelFpgaPort.FME f) as [fme|] eqn:Hf; [| reflexivity].
    rewrite (FME_uses_only_frame L c E fme Hc). apply Port_set_FME_same. exact Hf.
Qed.

Lemma X9_witness :
  @FME_after sample.layout (F_PortPR 0 sample.bitstream) sample.envGone sample.openedFME
    = sample.openedFME /\
  @Port_after sample.layout (P_viaFME (F_PortRelease 0)) sample.envBusy sample.resolvedPort
    = sample.resolvedPort.
Proof.
  destruct (X9_ioctl_methods_and_getters_write_nothing sample.layout sample.envGone)
    as [Hf _].
  destruct (X9_ioctl_methods_and_getters_write_nothing sample.layout sample.envBusy)
    as [_ Hp].
  split; [apply Hf | apply Hp]; reflexivity.
Defined.

(** X11: the device path of an object is fixed for its life: after any
    series of method calls, on any systems, [GetDevPath] of an FME and of
    a Port returns the path the object started with, and a Port that held
    an FME still holds an FME of the same device path. *)
Theorem X11_DevPath_is_fixed_for_life (L : Layout) :
  (forall cs f E,
     value_of (IntelFpgaFME.GetDevPath E (FME_life cs f)) = IntelFpgaFME.DevPath f) /\
  (forall cs f E,
     value_of (IntelFpgaPort.GetDevPath E (Port_life cs f)) = IntelFpgaPort.DevPath f) /\
  (forall cs f fme,
     IntelFpgaPort.FME f = Some fme ->
     exists fme',
       IntelFpgaPort.FME (Port_life cs f) = Some fme' /\
       IntelFpgaFME.DevPath fme' = IntelFpgaFME.DevPath fme).
Proof.
  repeat apply conj.
  - intros cs f E. destruct (FME_life_keeps L cs f) as [Hd _]. exact Hd.
  - intros cs f E. destruct (Port_life_keeps L cs f) as [Hd _]. exact Hd.
  - intros cs f fme Hf. destruct (Port_life_keeps L cs f) as (_ & _ & _ & _ & Hk).
    destruct (Hk fme Hf) as (fme' & Hf' & Hd & _). exists fme'. split; assumption.
Qed.

Lemma X11_witness :
  exists fme',
    IntelFpgaPort.FME (@Port_life sample.layout sample.portClient sample.resolvedPort)
      = Some fme' /\
    IntelFpgaFME.DevPath fme' = sample.fmeDev.
Proof.
  destruct (X11_DevPath_is_fixed_for_life sample.layout) as (_ & _ & H).
  apply (H sample.portClient sample.resolvedPort sample.openedFME). reflexivity.
Defined.

(** ** The interface identifier through a Port *)

(** X5: [GetInterfaceUUID] of a Port returns the empty string when
    [GetFME] fails. When [GetFME] gives an FME, it returns what
    [GetInterfaceUUID] of that FME returns and then runs [Close] of that
    FME, last of all; the FME stays in the Port all the same, so the next
    [GetFME], on any system, hands out that closed FME without resolving
    anything. *)
Theorem X5_Port_GetInterfaceUUID_closes_but_keeps_the_FME
    (E E' : Env) (f f1 : IntelFpgaPort.t) (t1 : trace) :
  (forall e,
     IntelFpgaPort.GetFME E f = (Err e, f1, t1) ->
     IntelFpgaPort.GetInterfaceUUID E f = ("", f1, t1)) /\
  (forall fme,
     IntelFpgaPort.GetFME E f = (Ok fme, f1, t1) ->
     let r := IntelFpgaFME.GetInterfaceUUID E fme in
     IntelFpgaPort.GetInterfaceUUID E f =
       (value_of r, IntelFpgaPort.set_FME (Some (state_of r)) f1,
        t1 ++ log_of r ++ [EvFMEClose (IntelFpgaFME.DevPath fme)]) /\
     IntelFpgaPort.GetFME E' (state_of (IntelFpgaPort.GetInterfaceUUID E f)) =
       (Ok (state_of r), state_of (IntelFpgaPort.GetInterfaceUUID E f), [])).
Proof.
  split.
  - intros e Hg. unfold IntelFpgaPort.GetInterfaceUUID.
    cbv beta iota zeta delta [bind]. rewrite Hg. run. rewrite app_nil_r. reflexivity.
  - intros fme Hg r.
    assert (Hrun : IntelFpgaPort.GetInterfaceUUID E f =
                   (value_of r, IntelFpgaPort.set_FME (Some (state_of r)) f1,
                    t1 ++ log_of r ++ [EvFMEClose (IntelFpgaFME.DevPath fme)])).
    { pose proof (FME_GetInterfaceUUID_keeps E fme) as [Hd _]. fold r in Hd.
      unfold IntelFpgaPort.GetInterfaceUUID, IntelFpgaPort.onFME, IntelFpgaFME.Close.
      cbv beta iota zeta delta [bind]. rewrite Hg. run.
      unfold value_of, state_of, log_of in *. subst r.
      destruct (IntelFpgaFME.GetInterfaceUUID E fme) as [[id fme'] t2].
      cbn [fst snd] in *. rewrite Hd, !app_nil_r. reflexivity. }
    split; [exact Hrun |].
    rewrite Hrun. unfold state_of at 2 4. cbn [fst snd].
    apply Port_GetFME_cached. reflexivity.
Qed.

Lemma X5_witness :
  IntelFpgaPort.GetInterfaceUUID sample.envGone sample.openedPort
    = ("", sample.openedPort,
       log_of (IntelFpgaPort.GetFME sample.envGone sample.openedPort)) /\
  value_of (IntelFpgaPort.GetInterfaceUUID sample.env sample.openedPort)
    = "ce489693-98f0-5f33-946d-560708be108a" /\
  IntelFpgaPort.GetFME sample.envGone
    (state_of (IntelFpgaPort.GetInterfaceUUID sample.env sample.openedPort))
    = (Ok sample.openedFME,
       state_of (IntelFpgaPort.GetInterfaceUUID sample.env sample.openedPort), []).
Proof.
  destruct (X5_Port_GetInterfaceUUID_closes_but_keeps_the_FME
              sample.envGone sample.envGone sample.openedPort sample.openedPort
              (log_of (IntelFpgaPort.GetFME sample.envGone sample.openedPort)))
    as [Hfail _].
  destruct (X5_Port_GetInterfaceUUID_closes_but_keeps_the_FME
              sample.env sample.envGone sample.openedPort
              (state_of (IntelFpgaPort.GetFME sample.env sample.openedPort))
              (log_of (IntelFpgaPort.GetFME sample.env sample.openedPort)))
    as [_ Hok].
  destruct (Hok sample.openedFME) as [Hrun Hnext]; [vm_compute; reflexivity |].
  repeat apply conj.
  - apply (Hfail (ExtError "unable to read file")). vm_compute. reflexivity.
  - rewrite Hrun. reflexivity.
  - exact Hnext.
Defined.

(** ** From the attribute files to the getters *)


Lemma FME_updateProperties_run E f :
  IntelFpgaFME.updateProperties E f =
    let '(r, f1, t1) := IntelFpgaFME.GetPCIDevice E f in
    match r with
    | Err e => (Some e, f1, t1)
    | Ok p =>
        let dir := filepath.Join [pci.SysFsPath p; intelFpgaFmeGlobPCI] in
        let '(w, err) := readFilesInDirectory E IntelFpgaFME.fileNames dir in
        (err, IntelFpgaFME.store_files w f1,
         t1 ++ [EvReadFiles IntelFpgaFME.fileNames dir])
    end.
Proof.
  unfold IntelFpgaFME.updateProperties. run.
  destruct (IntelFpgaFME.GetPCIDevice E f) as [[[p|e] f1] t1];
    [| rewrite app_nil_r; reflexivity].
  destruct (readFilesInDirectory E _ _) as [w err]. reflexivity.
Qed.

Lemma decimal_value_nonneg (v : string) (n : Z) :
  decimal_value v = Some n -> 0 <= n.
Proof.
  unfold decimal_value. destruct v as [|c r]; [discriminate |].
  intros H. apply decimal_from_ge in H; lia.
Qed.



(** Resolving the sysfs path leaves the attributes of a Port as they
    are. *)
Lemma Port_GetSysFsPath_attributes E f :
  let f1 := state_of (IntelFpgaPort.GetSysFsPath E f) in
  IntelFpgaPort.AFUID f1 = IntelFpgaPort.AFUID f /\
  IntelFpgaPort.ID f1 = IntelFpgaPort.ID f /\
  IntelFpgaPort.Dev f1 = IntelFpgaPort.Dev f.
Proof.
  cbv zeta. unfold state_of.
  destruct (String.eqb_spec (IntelFpgaPort.SysFsPath f) "") as [He|Hne].
  - rewrite Port_GetSysFsPath_resolve by exact He.
    destruct (FindSysFsDevice E _); cbn; tauto.
  - rewrite Port_GetSysFsPath_cached by exact Hne. cbn. tauto.
Qed.

(** X16: after [updateProperties] of a Port the getters report the
    content of their files, also when the read reported an error after
    storing it: [GetPortID] returns the number in the file "id", without
    reading again, and the accelerator type is the content of "afu_id",
    or the old value when the read did not store that file.
    [GetAcceleratorTypeUUID], which runs the read itself, returns that
    value when the read reports no error. *)
Theorem X16_Port_getters_report_their_files
    (E E' : Env) (f : IntelFpgaPort.t)
    (w : string -> option string) (err : option error) :
  readFilesInDirectory E IntelFpgaPort.fileNames
    (value_of (IntelFpgaPort.GetSysFsPath E f)) = (w, err) ->
  let f' := state_of (IntelFpgaPort.updateProperties E f) in
  value_of (IntelFpgaPort.updateProperties E f) = err /\
  IntelFpgaPort.AFUID f' = stored (w "afu_id") (IntelFpgaPort.AFUID f) /\
  (forall v n, w "id" = Some v -> decimal_value v = Some n -> n <= MaxUint32 ->
     IntelFpgaPort.GetPortID E' f' = ((n, None), f', [])) /\
  (err = None ->
     value_of (IntelFpgaPort.GetAcceleratorTypeUUID E f)
       = stored (w "afu_id") (IntelFpgaPort.AFUID f)).
Proof.
  intros Hread f'. subst f'.
  pose proof (Port_GetSysFsPath_attributes E f) as Ha. cbv zeta in Ha.
  unfold IntelFpgaPort.GetAcceleratorTypeUUID.
  cbv beta iota zeta delta [bind].
  rewrite Port_updateProperties_run.
  unfold value_of, state_of in *.
  destruct (IntelFpgaPort.GetSysFsPath E f) as [[dir f1] t]. cbn [fst snd] in *.
  rewrite Hread. cbn [fst snd]. destruct Ha as (Hafu & Hid & _).
  assert (Hfield : IntelFpgaPort.AFUID (IntelFpgaPort.store_files w f1)
                   = stored (w "afu_id") (IntelFpgaPort.AFUID f))
    by (cbn; rewrite Hafu; reflexivity).
  repeat apply conj.
  - reflexivity.
  - exact Hfield.
  - intros v n Hv Hd Hle. rewrite Port_GetPortID_run.
    assert (Hidf : IntelFpgaPort.ID (IntelFpgaPort.store_files w f1) = v)
      by (cbn; rewrite Hv; reflexivity).
    assert (Hne : is_empty v = false) by (destruct v; [discriminate | reflexivity]).
    rewrite Hidf, Hne, Hidf.
    rewrite (proj2 (ParseUint10_decimal v n) (conj Hd Hle)). cbn [fst snd].
    rewrite uint32_small by (pose proof (decimal_value_nonneg v n Hd); lia).
    reflexivity.
  - intros ->. run. rewrite Hfield.
    destruct (is_empty (stored (w "afu_id") (IntelFpgaPort.AFUID f))) eqn:He;
      cbn [fst snd]; [| reflexivity].
    apply is_empty_true in He. symmetry. exact He.
Qed.

Lemma X16_witness :
  IntelFpgaPort.GetPortID sample.envGone
    (state_of (IntelFpgaPort.updateProperties sample.env sample.freshPort))
    = ((0, None),
       state_of (IntelFpgaPort.updateProperties sample.env sample.freshPort), []) /\
  value_of (IntelFpgaPort.GetAcceleratorTypeUUID sample.env sample.freshPort)
    = "d8424dc4a4a3c413f89e433683f9040b".
Proof.
  destruct (X16_Port_getters_report_their_files
              sample.env sample.envGone sample.freshPort sample.portFiles None eq_refl)
    as (_ & _ & Hid & Hafu).
  split.
  - apply (Hid "0"); [reflexivity | reflexivity | unfold MaxUint32; lia].
  - apply Hafu. reflexivity.
Defined.

(** ** Opening a device *)

Lemma FME_GetPCIDevice_quiet E f :
  forallb resolution_event (log_of (IntelFpgaFME.GetPCIDevice E f)) = true.
Proof.
  unfold log_of.
  destruct (IntelFpgaFME.PCIDevice f) as [p|] eqn:Hp.
  - rewrite (FME_GetPCIDevice_cached E f p Hp). reflexivity.
  - rewrite FME_GetPCIDevice_resolve by exact Hp.
    destruct (String.eqb_spec (IntelFpgaFME.SysFsPath f) "") as [He|Hne].
    + rewrite FME_GetSysFsPath_resolve by exact He.
      destruct (FindSysFsDevice E _) as [sysfs|e];
        [destruct (NewPCIDevice E sysfs) | destruct (NewPCIDevice E "")];
        reflexivity.
    + rewrite FME_GetSysFsPath_cached by exact Hne.
      destruct (NewPCIDevice E _); reflexivity.
Qed.

Lemma FME_updateProperties_quiet E f :
  forallb resolution_event (log_of (IntelFpgaFME.updateProperties E f)) = true.
Proof.
  pose proof (FME_GetPCIDevice_quiet E f) as H.
  rewrite FME_updateProperties_run. unfold log_of in *.
  destruct (IntelFpgaFME.GetPCIDevice E f) as [[[p|e] f1] t1]; cbn [fst snd] in *;
    [| exact H].
  cbv zeta. destruct (readFilesInDirectory E _ _) as [w err]. cbn [snd].
  rewrite forallb_app, H. reflexivity.
Qed.

Lemma Port_GetPCIDevice_quiet E f :
  forallb resolution_event (log_of (IntelFpgaPort.GetPCIDevice E f)) = true.
Proof.
  unfold log_of.
  destruct (IntelFpgaPort.PCIDevice f) as [p|] eqn:Hp.
  - rewrite (Port_GetPCIDevice_cached E f p Hp). reflexivity.
  - rewrite Port_GetPCIDevice_resolve by exact Hp.
    destruct (String.eqb_spec (IntelFpgaPort.SysFsPath f) "") as [He|Hne].
    + rewrite Port_GetSysFsPath_resolve by exact He.
      destruct (FindSysFsDevice E _) as [sysfs|e];
        [destruct (NewPCIDevice E sysfs) | destruct (NewPCIDevice E "")];
        reflexivity.
    + rewrite Port_GetSysFsPath_cached by exact Hne.
      destruct (NewPCIDevice E _); reflexivity.
Qed.

Lemma Port_updateProperties_quiet E f :
  forallb resolution_event (log_of (IntelFpgaPort.updateProperties E f)) = true.
Proof.
  rewrite Port_updateProperties_run. unfold log_of.
  destruct (String.eqb_spec (IntelFpgaPort.SysFsPath f) "") as [He|Hne].
  - rewrite Port_GetSysFsPath_resolve by exact He.
    destruct (FindSysFsDevice E _) as [sysfs|e];
      destruct (readFilesInDirectory E _ _); reflexivity.
  - rewrite Port_GetSysFsPath_cached by exact Hne.
    destruct (readFilesInDirectory E _ _); reflexivity.
Qed.

Lemma Port_updateProperties_FME E f :
  IntelFpgaPort.FME (state_of (IntelFpgaPort.updateProperties E f)) = IntelFpgaPort.FME f.
Proof.
  destruct (Port_GetSysFsPath_keeps E f) as [_ Hf].
  rewrite Port_updateProperties_run. unfold state_of in *.
  destruct (IntelFpgaPort.GetSysFsPath E f) as [[dir f1] t]. cbn [fst snd] in *.
  destruct (readFilesInDirectory E _ dir) as [w err]. exact Hf.
Qed.

(** X14: an FME that [NewIntelFpgaFME(dev)] returns has the device path
    [dev] and a resolved PCI device, so [GetPCIDevice] on it answers from
    the cache; a Port that [NewIntelFpgaPort(dev)] returns has these too
    and holds no FME yet. Whether it succeeds or fails, neither constructor
    issues an ioctl or runs the [Close] of an FME: the [port.Close()] of
    the failure paths of [NewIntelFpgaPort] finds no FME to close. (The
    class check inside is the one modelled for [checkPCIDeviceType].) *)
Theorem X14_constructors_return_resolved_objects (E E' : Env) (dev : string) :
  (forall fme t,
     NewIntelFpgaFME dev E tt = (Ok fme, tt, t) ->
     IntelFpgaFME.DevPath fme = dev /\
     exists p, IntelFpgaFME.PCIDevice fme = Some p /\
               IntelFpgaFME.GetPCIDevice E' fme = (Ok p, fme, [])) /\
  (forall port t,
     NewIntelFpgaPort dev E tt = (Ok port, tt, t) ->
     IntelFpgaPort.DevPath port = dev /\
     IntelFpgaPort.FME port = None /\
     exists p, IntelFpgaPort.PCIDevice port = Some p /\
               IntelFpgaPort.GetPCIDevice E' port = (Ok p, port, [])) /\
  forallb resolution_event (log_of (NewIntelFpgaFME dev E tt)) = true /\
  forallb resolution_event (log_of (NewIntelFpgaPort dev E tt)) = true.
Proof.
  repeat apply conj.
  - intros fme t Hnew.
    split; [exact (NewIntelFpgaFME_DevPath _ _ _ _ _ _ Hnew) |].
    revert Hnew. unfold NewIntelFpgaFME, checkPCIDeviceType. run.
    destruct (IntelFpgaFME.GetPCIDevice E (IntelFpgaFME.new dev))
      as [[[p|e] f1] t1] eqn:Hg; [| discriminate].
    apply FME_GetPCIDevice_stored in Hg.
    destruct (deviceClass E KindFME p); [discriminate |].
    pose proof (FME_updateProperties_keeps E f1) as (_ & _ & _ & Hk).
    unfold state_of in Hk.
    destruct (IntelFpgaFME.updateProperties E f1) as [[[e|] f2] t2];
      cbn [fst snd] in Hk; [discriminate |].
    intros [= <- _]. exists p. split; [apply Hk; exact Hg |].
    apply FME_GetPCIDevice_cached. apply Hk. exact Hg.
  - intros port t. unfold NewIntelFpgaPort, checkPCIDeviceType. run.
    destruct (Port_GetPCIDevice_keeps E (IntelFpgaPort.new dev)) as [[Hd _] Hf].
    unfold state_of in Hd, Hf.
    destruct (IntelFpgaPort.GetPCIDevice E (IntelFpgaPort.new dev))
      as [[[p|e] f1] t1] eqn:Hg; cbn [fst snd] in Hd, Hf.
    2: { destruct (IntelFpgaPort.Close E f1) as [[r c] tc]. discriminate. }
    apply Port_GetPCIDevice_stored in Hg.
    destruct (deviceClass E KindPort p).
    { destruct (IntelFpgaPort.Close E f1) as [[r c] tc]. discriminate. }
    pose proof (Port_updateProperties_keeps E f1) as (Hd2 & _ & _ & Hk & _).
    pose proof (Port_updateProperties_FME E f1) as Hf2.
    unfold state_of in Hd2, Hk, Hf2.
    destruct (IntelFpgaPort.updateProperties E f1) as [[[e|] f2] t2];
      cbn [fst snd] in Hd2, Hk, Hf2.
    { destruct (IntelFpgaPort.Close E f2) as [[r c] tc]. discriminate. }
    intros [= <- _]. repeat apply conj.
    + rewrite Hd2, Hd. reflexivity.
    + rewrite Hf2, Hf. reflexivity.
    + exists p. split; [apply Hk; exact Hg |].
      apply Port_GetPCIDevice_cached. apply Hk. exact Hg.
  - unfold NewIntelFpgaFME, checkPCIDeviceType, log_of. run.
    pose proof (FME_GetPCIDevice_quiet E (IntelFpgaFME.new dev)) as H1.
    unfold log_of in H1.
    destruct (IntelFpgaFME.GetPCIDevice E (IntelFpgaFME.new dev))
      as [[[p|e] f1] t1]; cbn [fst snd] in *.
    2: { rewrite !app_nil_r. exact H1. }
    pose proof (FME_updateProperties_quiet E f1) as H2. unfold log_of in H2.
    destruct (deviceClass E KindFME p); cbn [fst snd].
    { rewrite !forallb_app, H1. reflexivity. }
    destruct (IntelFpgaFME.updateProperties E f1) as [[[e|] f2] t2];
      cbn [fst snd] in *; rewrite !forallb_app, H1, H2; reflexivity.
  - unfold NewIntelFpgaPort, checkPCIDeviceType, log_of. run.
    pose proof (Port_GetPCIDevice_quiet E (IntelFpgaPort.new dev)) as H1.
    destruct (Port_GetPCIDevice_keeps E (IntelFpgaPort.new dev)) as [_ Hf].
    unfold log_of, state_of in H1, Hf.
    destruct (IntelFpgaPort.GetPCIDevice E (IntelFpgaPort.new dev))
      as [[[p|e] f1] t1]; cbn [fst snd] in *.
    2: { rewrite Port_Close_run, Hf. cbn. rewrite !app_nil_r. exact H1. }
    pose proof (Port_updateProperties_quiet E f1) as H2.
    pose proof (Port_updateProperties_FME E f1) as Hf2.
    unfold log_of, state_of in H2, Hf2.
    destruct (deviceClass E KindPort p); cbn [fst snd].
    { rewrite Port_Close_run, Hf. cbn. rewrite !forallb_app, H1. reflexivity. }
    destruct (IntelFpgaPort.updateProperties E f1) as [[[e|] f2] t2];
      cbn [fst snd] in *.
    + rewrite Port_Close_run, Hf2, Hf. cbn. rewrite !forallb_app, H1, H2. reflexivity.
    + rewrite !forallb_app, H1, H2. reflexivity.
Qed.

Lemma X14_witness :
  IntelFpgaFME.DevPath sample.openedFME = sample.fmeDev /\
  (exists p, IntelFpgaFME.PCIDevice sample.openedFME = Some p /\
             IntelFpgaFME.GetPCIDevice sample.envGone sample.openedFME
               = (Ok p, sample.openedFME, [])) /\
  IntelFpgaPort.DevPath sample.openedPort = sample.portDev /\
  IntelFpgaPort.FME sample.openedPort = None.
Proof.
  destruct (X14_constructors_return_resolved_objects
              sample.env sample.envGone sample.fmeDev) as (Hf & _).
  destruct (X14_constructors_return_resolved_objects
              sample.env sample.envGone sample.portDev) as (_ & Hp & _).
  destruct (Hf sample.openedFME (log_of (NewIntelFpgaFME sample.fmeDev sample.env tt)))
    as [H1 H2]; [vm_compute; reflexivity |].
  destruct (Hp sample.openedPort (log_of (NewIntelFpgaPort sample.portDev sample.env tt)))
    as (H3 & H4 & _); [vm_compute; reflexivity |].
  repeat apply conj; assumption.
Defined.

(** ** The bounds of PortPR *)

(** X15: [PortPR] panics exactly on a bitstream of length 0. On any other
    bitstream it returns, with the error of the one ioctl it issues,
    unchanged; and where the length is below 2^32, the address below 2^64
    and the size of the structure below 2^32, the request holds the port
    id, the length and the address of the first byte as they are. *)
Theorem X15_PortPR_returns_on_a_non_empty_bitstream
    (L : Layout) (E : Env) (f : IntelFpgaFME.t) (port : Z) (bs : ByteSlice) :
  (slice_data bs = [] <->
     value_of (IntelFpgaFME.PortPR port bs E f)
       = Panics "index out of range [0] with length 0") /\
  (slice_data bs <> [] ->
     value_of (IntelFpgaFME.PortPR port bs E f) =
       Returns (snd (fst (ioctlDev E (IntelFpgaFME.DevPath f) FPGA_FME_PORT_PR
                  (ArgFmePortPR (IntelFpgaFmePortPR.mk (uint32 (Sizeof SFmePortPR))
                     port (uint32 (len bs)) (uint64 (slice_addr bs)))))))) /\
  (slice_data bs <> [] ->
     len bs < 2 ^ 32 -> 0 <= slice_addr bs < 2 ^ 64 -> 0 <= Sizeof SFmePortPR < 2 ^ 32 ->
     log_of (IntelFpgaFME.PortPR port bs E f) =
       [EvIoctl (IntelFpgaFME.DevPath f) FPGA_FME_PORT_PR
          (ArgFmePortPR (IntelFpgaFmePortPR.mk (Sizeof SFmePortPR) port (len bs)
                           (slice_addr bs)))]).
Proof.
  assert (Haddr : slice_data bs <> [] -> addr_of_first bs = Some (slice_addr bs)).
  { unfold addr_of_first. destruct (slice_data bs); [congruence | reflexivity]. }
  split; [split | split].
  - intros Hd. unfold IntelFpgaFME.PortPR, addr_of_first, value_of. run.
    rewrite Hd. reflexivity.
  - intros Hp. destruct (slice_data bs) as [|b r] eqn:Hd; [reflexivity |].
    rewrite (FME_PortPR_run L E f port bs (slice_addr bs)) in Hp
      by (apply Haddr; discriminate).
    discriminate Hp.
  - intros Hd. rewrite (FME_PortPR_run L E f port bs _ (Haddr Hd)). reflexivity.
  - intros Hd Hlen Ha Hsz.
    rewrite (FME_PortPR_run L E f port bs _ (Haddr Hd)). unfold log_of. cbn [snd].
    rewrite (uint32_Sizeof L _ Hsz).
    unfold uint32, uint64, len in *. rewrite !Z.mod_small by lia. reflexivity.
Qed.

Lemma X15_witness :
  value_of (@IntelFpgaFME.PortPR sample.layout 0 sample.bitstream sample.envGone
              sample.openedFME) = Returns (Some (Errno 19)) /\
  log_of (@IntelFpgaFME.PortPR sample.layout 0 sample.bitstream sample.envGone
            sample.openedFME)
    = [EvIoctl sample.fmeDev FPGA_FME_PORT_PR
         (ArgFmePortPR (IntelFpgaFmePortPR.mk 32 0 4 824633786368))].
Proof.
  destruct (X15_PortPR_returns_on_a_non_empty_bitstream
              sample.layout sample.envGone sample.openedFME 0 sample.bitstream)
    as (_ & Hret & Hlog).
  split.
  - apply Hret. discriminate.
  - apply Hlog; [discriminate | reflexivity | cbn; lia | cbn; lia].
Defined.

(** ** Failures are not cached *)

(** X10: only a success is cached. When [GetSysFsPath] of an FME or a
    Port yields the empty string, the object is left as it was, and the
    next call asks [FindSysFsDevice] again. When [GetPCIDevice] returns an
    error, the object holds no PCI device afterwards, and the next call
    asks [NewPCIDevice] again. *)
Theorem X10_failed_resolutions_are_retried (E E' : Env) :
  (forall f,
     value_of (IntelFpgaFME.GetSysFsPath E f) = "" ->
     state_of (IntelFpgaFME.GetSysFsPath E f) = f /\
     log_of (IntelFpgaFME.GetSysFsPath E' f)
       = [EvFindSysFsDevice (IntelFpgaFME.DevPath f)]) /\
  (forall f,
     value_of (IntelFpgaPort.GetSysFsPath E f) = "" ->
     state_of (IntelFpgaPort.GetSysFsPath E f) = f /\
     log_of (IntelFpgaPort.GetSysFsPath E' f)
       = [EvFindSysFsDevice (IntelFpgaPort.DevPath f)]) /\
  (forall f e,
     value_of (IntelFpgaFME.GetPCIDevice E f) = Err e ->
     let f1 := state_of (IntelFpgaFME.GetPCIDevice E f) in
     IntelFpgaFME.PCIDevice f1 = None /\
     log_of (IntelFpgaFME.GetPCIDevice E' f1)
       = log_of (IntelFpgaFME.GetSysFsPath E' f1)
         ++ [EvNewPCIDevice (value_of (IntelFpgaFME.GetSysFsPath E' f1))]) /\
  (forall f e,
     value_of (IntelFpgaPort.GetPCIDevice E f) = Err e ->
     let f1 := state_of (IntelFpgaPort.GetPCIDevice E f) in
     IntelFpgaPort.PCIDevice f1 = None /\
     log_of (IntelFpgaPort.GetPCIDevice E' f1)
       = log_of (IntelFpgaPort.GetSysFsPath E' f1)
         ++ [EvNewPCIDevice (value_of (IntelFpgaPort.GetSysFsPath E' f1))]).
Proof.
  unfold value_of, state_of, log_of. repeat apply conj.
  - intros f.
    destruct (String.eqb_spec (IntelFpgaFME.SysFsPath f) "") as [He|Hne].
    + rewrite !FME_GetSysFsPath_resolve by exact He.
      destruct (FindSysFsDevice E _) as [sysfs|e]; cbn [fst snd]; intros Hv.
      * subst sysfs. split; [destruct f; cbn in He |- *; subst; reflexivity |].
        destruct (FindSysFsDevice E' _); reflexivity.
      * split; [reflexivity | destruct (FindSysFsDevice E' _); reflexivity].
    + rewrite (FME_GetSysFsPath_cached E) by exact Hne. cbn [fst snd].
      intros Hv. contradiction.
  - intros f.
    destruct (String.eqb_spec (IntelFpgaPort.SysFsPath f) "") as [He|Hne].
    + rewrite !Port_GetSysFsPath_resolve by exact He.
      destruct (FindSysFsDevice E _) as [sysfs|e]; cbn [fst snd]; intros Hv.
      * subst sysfs. split; [destruct f; cbn in He |- *; subst; reflexivity |].
        destruct (FindSysFsDevice E' _); reflexivity.
      * split; [reflexivity | destruct (FindSysFsDevice E' _); reflexivity].
    + rewrite (Port_GetSysFsPath_cached E) by exact Hne. cbn [fst snd].
      intros Hv. contradiction.
  - intros f e. cbv zeta.
    destruct (IntelFpgaFME.PCIDevice f) as [p|] eqn:Hp.
    { rewrite (FME_GetPCIDevice_cached E f p Hp). discriminate. }
    rewrite (FME_GetPCIDevice_resolve E) by exact Hp.
    assert (Hkeep : IntelFpgaFME.PCIDevice (snd (fst (IntelFpgaFME.GetSysFsPath E f)))
                    = None).
    { destruct (String.eqb_spec (IntelFpgaFME.SysFsPath f) "") as [He|Hne].
      - rewrite FME_GetSysFsPath_resolve by exact He.
        destruct (FindSysFsDevice E _); exact Hp.
      - rewrite FME_GetSysFsPath_cached by exact Hne. exact Hp. }
    destruct (IntelFpgaFME.GetSysFsPath E f) as [[path f1] t]. cbn [fst snd] in *.
    destruct (NewPCIDevice E path) as [p|e0]; [discriminate |]. cbn [fst snd].
    intros _. split; [exact Hkeep |].
    rewrite (FME_GetPCIDevice_resolve E' f1 Hkeep).
    destruct (IntelFpgaFME.GetSysFsPath E' f1) as [[path' f2] t']. cbn [fst snd].
    destruct (NewPCIDevice E' path'); reflexivity.
  - intros f e. cbv zeta.
    destruct (IntelFpgaPort.PCIDevice f) as [p|] eqn:Hp.
    { rewrite (Port_GetPCIDevice_cached E f p Hp). discriminate. }
    rewrite (Port_GetPCIDevice_resolve E) by exact Hp.
    assert (Hkeep : IntelFpgaPort.PCIDevice (snd (fst (IntelFpgaPort.GetSysFsPath E f)))
                    = None).
    { destruct (String.eqb_spec (IntelFpgaPort.SysFsPath f) "") as [He|Hne].
      - rewrite Port_GetSysFsPath_resolve by exact He.
        destruct (FindSysFsDevice E _); exact Hp.
      - rewrite Port_GetSysFsPath_cached by exact Hne. exact Hp. }
    destruct (IntelFpgaPort.GetSysFsPath E f) as [[path f1] t]. cbn [fst snd] in *.
    destruct (NewPCIDevice E path) as [p|e0]; [discriminate |]. cbn [fst snd].
    intros _. split; [exact Hkeep |].
    rewrite (Port_GetPCIDevice_resolve E' f1 Hkeep).
    destruct (IntelFpgaPort.GetSysFsPath E' f1) as [[path' f2] t']. cbn [fst snd].
    destruct (NewPCIDevice E' path'); reflexivity.
Qed.

Lemma X10_witness :
  state_of (IntelFpgaFME.GetSysFsPath sample.envGone sample.freshFME) = sample.freshFME /\
  log_of (IntelFpgaFME.GetSysFsPath sample.env sample.freshFME)
    = [EvFindSysFsDevice sample.fmeDev] /\
  IntelFpgaPort.PCIDevice
    (state_of (IntelFpgaPort.GetPCIDevice sample.envGone sample.freshPort)) = None /\
  In (EvNewPCIDevice sample.portSysFs)
    (log_of (IntelFpgaPort.GetPCIDevice sample.env
               (state_of (IntelFpgaPort.GetPCIDevice sample.envGone sample.freshPort)))).
Proof.
  destruct (X10_failed_resolutions_are_retried sample.envGone sample.env)
    as (Hs & _ & _ & Hp).
  destruct (Hs sample.freshFME eq_refl) as [H1 H2].
  destruct (Hp sample.freshPort (ExtError "no PCI device") eq_refl) as [H3 H4].
  repeat apply conj; [exact H1 | exact H2 | exact H3 |].
  rewrite H4. right. left. reflexivity.
Defined.
